(** * Parchify-idp: Document AI drivers

    A shallow embedding of the two command-line drivers of the repository,
    [rawcod.py] (single file) and [process_service.py] (batch), and the
    properties of their MIME classifier, configuration resolver, response
    normalizer and top-level error handling.

    Modelling conventions.
    - A Python [str] is a Rocq [string], one [ascii] per character: the
      character of an [ascii] is the code point of its number, U+0000 to
      U+00FF, and text with a character above U+00FF is outside the model.
      The string methods below ([lower], [strip], [split], [rfind]) follow
      CPython on these characters: [lower] maps A-Z and the capital letters
      of U+00C0-U+00DE to their small letters, and the whitespace of [strip]
      is TAB-CR, FS-US, the space, NEL (U+0085) and the no-break space
      (U+00A0).
    - A Python [dict] keyed by strings is a [gmap string _]; a Python list is
      a [list].
      The order in which a dict lists its keys is not modelled.
    - An exception is a value of [exn]; a call that can raise returns a
      [result].  Code that prints, reads the environment or the file system,
      or calls the remote processor runs in the monad [M] over [World].
      Interrupts ([KeyboardInterrupt], [SystemExit]), which no handler of
      the scripts takes, are not modelled.
    - [pathlib] and [os.path] are modelled on POSIX paths, as CPython 3.11
      defines [suffix], [stem], [basename] and [splitext]. *)

From Stdlib Require Import String Ascii List ZArith Lia Bool.
From stdpp Require Import base gmap strings list option fin_maps pretty.

Local Open Scope string_scope.
Local Open Scope list_scope.

(** ** Exceptions *)

(** The exception classes that the two scripts raise, catch or can receive
    from the libraries they call. [JSONDecodeError] and [UnicodeDecodeError]
    are subclasses of [ValueError] in Python; none of them is a subclass of
    [RuntimeError]. *)
Inductive exn : Type :=
| RuntimeError (msg : string)
| ValueError (msg : string)
| JSONDecodeError (msg : string)
| UnicodeDecodeError (msg : string)
| AttributeError (msg : string)
| IndexError (msg : string)
| KeyError (key : string)
| OSError (msg : string)
| ImportError (msg : string)
| TypeError (msg : string)
| EOFError
| ClientError (msg : string).

Inductive result (A : Type) : Type :=
| Ok (a : A)
| Raise (e : exn).
Arguments Ok {A} a.
Arguments Raise {A} e.

#[global] Instance result_ret : MRet result := fun _ a => Ok a.
#[global] Instance result_bind : MBind result := fun _ _ f m =>
  match m with
  | Ok a => f a
  | Raise e => Raise e
  end.

(** [except RuntimeError] *)
Definition is_RuntimeError (e : exn) : bool :=
  match e with RuntimeError _ => true | _ => false end.

(** [except json.JSONDecodeError] *)
Definition is_JSONDecodeError (e : exn) : bool :=
  match e with JSONDecodeError _ => true | _ => false end.

(** [except ImportError] *)
Definition is_ImportError (e : exn) : bool :=
  match e with ImportError _ => true | _ => false end.

(** [str(e)] of an exception, as the log lines print it. *)
Definition exn_message (e : exn) : string :=
  match e with
  | RuntimeError m | ValueError m | JSONDecodeError m | UnicodeDecodeError m
  | AttributeError m | IndexError m | OSError m | ImportError m
  | TypeError m | ClientError m => m
  | KeyError k => "'" ++ k ++ "'"
  | EOFError => ""
  end.

(** ** Python string methods *)

Module PyStr.

(** The characters [lower] changes: A-Z and, above ASCII, the capital
    letters U+00C0-U+00DE but for the multiplication sign U+00D7. *)
Definition is_upper (c : ascii) : bool :=
  let n := nat_of_ascii c in
  ((65 <=? n)%nat && (n <=? 90)%nat)
  || ((192 <=? n)%nat && (n <=? 222)%nat && negb (n =? 215)%nat).

Definition lower_char (c : ascii) : ascii :=
  if is_upper c then ascii_of_nat (nat_of_ascii c + 32) else c.

(** [s.lower()] *)
Fixpoint lower (s : string) : string :=
  match s with
  | EmptyString => EmptyString
  | String c s' => String (lower_char c) (lower s')
  end.

(** [c.isspace()], the whitespace of [strip]: TAB, LF, VT, FF, CR, FS, GS,
    RS, US, the space, NEL (U+0085) and the no-break space (U+00A0). *)
Definition isspace (c : ascii) : bool :=
  let n := nat_of_ascii c in
  ((9 <=? n)%nat && (n <=? 13)%nat) || ((28 <=? n)%nat && (n <=? 32)%nat)
  || (n =? 133)%nat || (n =? 160)%nat.

(** [s.lstrip()] *)
Fixpoint lstrip (s : string) : string :=
  match s with
  | EmptyString => EmptyString
  | String c s' => if isspace c then lstrip s' else s
  end.

(** [s.rstrip()] *)
Fixpoint rstrip (s : string) : string :=
  match s with
  | EmptyString => EmptyString
  | String c s' =>
      match rstrip s' with
      | EmptyString => if isspace c then EmptyString else String c EmptyString
      | r => String c r
      end
  end.

(** [s.strip()] *)
Definition strip (s : string) : string := rstrip (lstrip s).

(** [s.lstrip(ch)] for a one-character argument *)
Fixpoint lstrip_char (ch : ascii) (s : string) : string :=
  match s with
  | EmptyString => EmptyString
  | String c s' => if Ascii.eqb c ch then lstrip_char ch s' else s
  end.

(** [s.rstrip(ch)] for a one-character argument *)
Fixpoint rstrip_char (ch : ascii) (s : string) : string :=
  match s with
  | EmptyString => EmptyString
  | String c s' =>
      match rstrip_char ch s' with
      | EmptyString => if Ascii.eqb c ch then EmptyString else String c EmptyString
      | r => String c r
      end
  end.

(** [s.strip(ch)] for a one-character argument *)
Definition strip_char (ch : ascii) (s : string) : string :=
  rstrip_char ch (lstrip_char ch s).

(** [s.split(sep)] for a one-character separator: the pieces between the
    occurrences of [sep], in order. *)
Fixpoint split (sep : ascii) (s : string) : list string :=
  match s with
  | EmptyString => [EmptyString]
  | String c s' =>
      if Ascii.eqb c sep then EmptyString :: split sep s'
      else match split sep s' with
           | [] => [String c EmptyString]
           | w :: ws => String c w :: ws
           end
  end.

(** [l[-1]]: the last element, [IndexError] on an empty list. *)
Fixpoint index_last {A : Type} (l : list A) : result A :=
  match l with
  | [] => Raise (IndexError "list index out of range")
  | [x] => Ok x
  | _ :: l' => index_last l'
  end.

(** [s.rfind(ch)]: the index of the last occurrence of [ch], or -1. *)
Fixpoint rfind (ch : ascii) (s : string) : Z :=
  match s with
  | EmptyString => (-1)%Z
  | String c s' =>
      let r := rfind ch s' in
      if (0 <=? r)%Z then (r + 1)%Z
      else if Ascii.eqb c ch then 0%Z else (-1)%Z
  end.

(** [len(s)] *)
Definition len (s : string) : Z := Z.of_nat (String.length s).

(** [s[i:]] for [0 <= i] *)
Fixpoint drop (n : nat) (s : string) : string :=
  match n, s with
  | O, _ => s
  | S n', String _ s' => drop n' s'
  | S _, EmptyString => EmptyString
  end.

(** [s[:i]] for [0 <= i] *)
Fixpoint take (n : nat) (s : string) : string :=
  match n, s with
  | O, _ => EmptyString
  | S n', String c s' => String c (take n' s')
  | S _, EmptyString => EmptyString
  end.

(** Truth value of a string: [if s:] *)
Definition truthy (s : string) : bool :=
  match s with EmptyString => false | _ => true end.

End PyStr.

(** ** pathlib *)

(** A [pathlib.Path] as the batch driver meets it: an entry [name] of a
    directory [parent].  [suffix] and [stem] follow CPython's [PurePath]. *)
Module Pathlib.

Record Path : Type := mkPath { parent : string; name : string }.

(** [str(path)] *)
Definition to_str (p : Path) : string := parent p ++ "/" ++ name p.

(** [parent / child] *)
Definition join (dir child : string) : Path := mkPath dir child.

(** [path.suffix]: [name[i:]] where [i = name.rfind('.')], if
    [0 < i < len(name) - 1], else the empty string. *)
Definition suffix (p : Path) : string :=
  let i := PyStr.rfind "." (name p) in
  if (0 <? i)%Z && (i <? PyStr.len (name p) - 1)%Z
  then PyStr.drop (Z.to_nat i) (name p)
  else "".

(** [path.stem] *)
Definition stem (p : Path) : string :=
  let i := PyStr.rfind "." (name p) in
  if (0 <? i)%Z && (i <? PyStr.len (name p) - 1)%Z
  then PyStr.take (Z.to_nat i) (name p)
  else name p.

End Pathlib.

(** ** Document AI entities *)

Module Docai.

(** [documentai.Document.Entity]: a type, the text it was read from and
    its nested entities ([properties]). *)
#[warnings="-register-all"]
Inductive Entity : Type :=
  mkEntity (type_ : string) (mention_text : string) (properties : list Entity).

Definition type_ (e : Entity) : string :=
  match e with mkEntity t _ _ => t end.
Definition mention_text (e : Entity) : string :=
  match e with mkEntity _ v _ => v end.
Definition properties (e : Entity) : list Entity :=
  match e with mkEntity _ _ ps => ps end.

(** [documentai.Document] *)
Record Document : Type := mkDocument { text : string; entities : list Entity }.

End Docai.

(** ** Response normalizer (STEP 5 of [rawcod.main]) *)

Module Normalizer.
Import Docai.

(** The dict [entity_details]: [{"value": ..., "properties": {...}}]. *)
Record EntityDetails : Type :=
  mkDetails { value : string; props : gmap string string }.

(** The values stored in [structured_invoice]: a dict of entity details
    ([header], [footer]), a list of them ([line_items]) or a string
    ([transaction_id]). *)
Inductive Field : Type :=
| FDict (d : gmap string EntityDetails)
| FList (l : list EntityDetails)
| FStr (s : string).

(** [d[k]] *)
Definition getitem {V : Type} (d : gmap string V) (k : string) : result V :=
  match d !! k with
  | Some v => Ok v
  | None => Raise (KeyError k)
  end.

(** [inv[section][key] = v] *)
Definition setitem_in (inv : gmap string Field) (section key : string)
    (v : EntityDetails) : result (gmap string Field) :=
  f ← getitem inv section;
  match f with
  | FDict d => mret (<[section := FDict (<[key := v]> d)]> inv)
  | FList _ => Raise (TypeError "list indices must be integers or slices, not str")
  | FStr _ => Raise (TypeError "'str' object does not support item assignment")
  end.

(** [inv[section].append(v)] *)
Definition append_in (inv : gmap string Field) (section : string)
    (v : EntityDetails) : result (gmap string Field) :=
  f ← getitem inv section;
  match f with
  | FList l => mret (<[section := FList (l ++ [v])]> inv)
  | FDict _ => Raise (AttributeError "'dict' object has no attribute 'append'")
  | FStr _ => Raise (AttributeError "'str' object has no attribute 'append'")
  end.

(** [structured_invoice = {"header": {}, "line_items": [], "footer": {}}] *)
Definition structured_invoice_init : gmap string Field :=
  <["footer" := FDict ∅]> (<["line_items" := FList []]> (<["header" := FDict ∅]> ∅)).

Definition header_fields : list string :=
  [ "invoice_id"; "invoice_date"; "supplier_name"; "supplier_address";
    "supplier_tax_id"; "supplier_iban"; "receiver_name"; "receiver_address";
    "receiver_tax_id"; "invoice_type" ].

Definition footer_fields : list string :=
  [ "net_amount"; "total_tax_amount"; "vat"; "total_amount" ].

(** [x in l] on a list of strings *)
Definition py_in (x : string) (l : list string) : bool :=
  existsb (String.eqb x) l.

(** The inner loop:
    [for child in entity.properties:
       child_type = child.type_.split('/')[-1];
       entity_details["properties"][child_type] = child.mention_text]. *)
Fixpoint flatten_children (children : list Entity) (acc : gmap string string)
    : result (gmap string string) :=
  match children with
  | [] => mret acc
  | child :: rest =>
      child_type ← PyStr.index_last (PyStr.split "/" (type_ child));
      flatten_children rest (<[child_type := mention_text child]> acc)
  end.

(** [entity_details] as it stands after the inner loop. *)
Definition entity_details (entity : Entity) : result EntityDetails :=
  ps ← flatten_children (properties entity) ∅;
  mret (mkDetails (mention_text entity) ps).

(** One iteration of [for entity in document.entities]. *)
Definition classify_entity (entity : Entity) (inv : gmap string Field)
    : result (gmap string Field) :=
  let entity_type := type_ entity in
  details ← entity_details entity;
  if py_in entity_type header_fields then
    setitem_in inv "header" entity_type details
  else if String.eqb entity_type "line_item" then
    append_in inv "line_items" details
  else if py_in entity_type footer_fields then
    setitem_in inv "footer" entity_type details
  else
    setitem_in inv "header" entity_type details.

(** [for entity in document.entities: ...] *)
Fixpoint structure_entities (es : list Entity) (inv : gmap string Field)
    : result (gmap string Field) :=
  match es with
  | [] => mret inv
  | entity :: rest =>
      inv' ← classify_entity entity inv;
      structure_entities rest inv'
  end.

(** The loop of STEP 5 run on the initial dict. *)
Definition structure_invoice (es : list Entity) : result (gmap string Field) :=
  structure_entities es structured_invoice_init.

(** [structured_invoice["transaction_id"] = transaction_id] *)
Definition add_transaction_id (transaction_id : string)
    (inv : gmap string Field) : gmap string Field :=
  <["transaction_id" := FStr transaction_id]> inv.

End Normalizer.


(** ** JSON values *)

Module Json.

(** What [json.load] returns: [None], a bool, an integer, a string, a list
    or a dict (its items, keys distinct). *)
#[warnings="-register-all"]
Inductive Json : Type :=
| JNull
| JBool (b : bool)
| JNum (z : Z)
| JStr (s : string)
| JArr (l : list Json)
| JObj (items : list (string * Json)).

(** Truth value: [if not project_id] *)
Definition truthy (j : Json) : bool :=
  match j with
  | JNull => false
  | JBool b => b
  | JNum z => negb (z =? 0)%Z
  | JStr s => PyStr.truthy s
  | JArr l => match l with [] => false | _ => true end
  | JObj items => match items with [] => false | _ => true end
  end.

Fixpoint lookup_item (k : string) (items : list (string * Json)) : option Json :=
  match items with
  | [] => None
  | (k', v) :: rest => if String.eqb k k' then Some v else lookup_item k rest
  end.

(** [data.get(k)]: the value at [k], [None] when the key is absent;
    [AttributeError] when [data] is not a dict. *)
Definition get (data : Json) (k : string) : result Json :=
  match data with
  | JObj items => Ok (default JNull (lookup_item k items))
  | _ => Raise (AttributeError "object has no attribute 'get'")
  end.

End Json.

(** ** The world of a run *)

Module Sys.
Import Docai Normalizer.

Inductive FsNode : Type :=
| File (content : string)
| Dir (entries : list string).

(** The request of [client.process_document]. *)
Record Request : Type :=
  mkRequest { req_name : string; req_content : string; req_mime_type : string }.

(** What a run takes from outside and cannot change: the installation
    directory, the libraries and the remote processor.
    - [base_dir]: [BASE_DIR], the directory of the script;
    - [json_loads]: [json.load] on the text of a file;
    - [py_str]: [str()] of a JSON value that is not a string;
    - [import_documentai]: the import of [google.cloud.documentai];
    - [new_client]: [documentai.DocumentProcessorServiceClient()];
    - [process_document]: the remote processor, whose answer may depend on
      the requests submitted before;
    - [message_to_json], [json_dumps]: the JSON text written for a document
      and for a structured invoice;
    - [strftime_today]: [datetime.now().strftime("%Y%m%d")];
    - [format_size]: a byte count with thousands separators;
    - [format_elapsed]: the seconds measured for a file, with one decimal. *)
Record Externals : Type := mkExternals {
  base_dir : string;
  json_loads : string -> result Json.Json;
  py_str : Json.Json -> string;
  import_documentai : result unit;
  new_client : result unit;
  process_document : list Request -> Request -> result Document;
  message_to_json : Document -> string;
  json_dumps : gmap string Field -> string;
  strftime_today : string;
  format_size : nat -> string;
  format_elapsed : string -> string
}.

(** The state a run reads and changes.  [submitted] lists the requests
    sent to the processor and [written] the files written, oldest first;
    [uuid_source] is the sequence of identifiers [uuid.uuid4()] draws and
    [uuid_draws] the number drawn so far. *)
Record World : Type := mkWorld {
  environ : gmap string string;
  fs : gmap string FsNode;
  argv : list string;
  stdin : list string;
  stdout : list string;
  submitted : list Request;
  written : list (string * string);
  uuid_source : nat -> string;
  uuid_draws : nat
}.

Definition set_fs (f : gmap string FsNode) (w : World) : World :=
  mkWorld (environ w) f (argv w) (stdin w) (stdout w) (submitted w)
          (written w) (uuid_source w) (uuid_draws w).
Definition set_stdin (l : list string) (w : World) : World :=
  mkWorld (environ w) (fs w) (argv w) l (stdout w) (submitted w)
          (written w) (uuid_source w) (uuid_draws w).
Definition set_stdout (l : list string) (w : World) : World :=
  mkWorld (environ w) (fs w) (argv w) (stdin w) l (submitted w)
          (written w) (uuid_source w) (uuid_draws w).
Definition set_submitted (l : list Request) (w : World) : World :=
  mkWorld (environ w) (fs w) (argv w) (stdin w) (stdout w) l
          (written w) (uuid_source w) (uuid_draws w).
Definition set_written (l : list (string * string)) (w : World) : World :=
  mkWorld (environ w) (fs w) (argv w) (stdin w) (stdout w) (submitted w)
          l (uuid_source w) (uuid_draws w).
Definition set_uuid_draws (n : nat) (w : World) : World :=
  mkWorld (environ w) (fs w) (argv w) (stdin w) (stdout w) (submitted w)
          (written w) (uuid_source w) n.

(** A computation that reads and changes the world and may raise. The
    world it leaves is kept when it raises. *)
Definition M (A : Type) : Type := World -> result A * World.

Definition ret {A : Type} (a : A) : M A := fun w => (Ok a, w).

Definition bind {A B : Type} (m : M A) (f : A -> M B) : M B :=
  fun w =>
    match m w with
    | (Ok a, w') => f a w'
    | (Raise e, w') => (Raise e, w')
    end.

Definition raise {A : Type} (e : exn) : M A := fun w => (Raise e, w).

Definition lift {A : Type} (r : result A) : M A := fun w => (r, w).

(** [try: body  except E as e: handler(e)], where [handles] tells the
    exceptions of class [E]. *)
Definition try_except {A : Type} (body : M A) (handles : exn -> bool)
    (handler : exn -> M A) : M A :=
  fun w =>
    match body w with
    | (Ok a, w') => (Ok a, w')
    | (Raise e, w') => if handles e then handler e w' else (Raise e, w')
    end.

(** [except Exception] *)
Definition is_Exception (e : exn) : bool := true.

(** [print(line)] *)
Definition print (line : string) : M unit :=
  fun w => (Ok tt, set_stdout (stdout w ++ [line]) w).

(** [os.getenv(name)] *)
Definition getenv (name : string) : M (option string) :=
  fun w => (Ok (environ w !! name), w).

(** [os.path.exists(path)], [Path.exists()] *)
Definition path_exists (path : string) : M bool :=
  fun w => (Ok (bool_decide (is_Some (fs w !! path))), w).

(** [Path.is_file()] *)
Definition is_file (path : string) : M bool :=
  fun w => (Ok (match fs w !! path with Some (File _) => true | _ => false end), w).

(** [open(path).read()], [Path.read_text()] *)
Definition read_file (path : string) : M string :=
  fun w =>
    match fs w !! path with
    | Some (File content) => (Ok content, w)
    | Some (Dir _) => (Raise (OSError ("Is a directory: " ++ path)), w)
    | None => (Raise (OSError ("No such file or directory: " ++ path)), w)
    end.

(** [Path.iterdir()], consumed whole *)
Definition iterdir (dir : string) : M (list Pathlib.Path) :=
  fun w =>
    match fs w !! dir with
    | Some (Dir entries) => (Ok (map (Pathlib.join dir) entries), w)
    | Some (File _) => (Raise (OSError ("Not a directory: " ++ dir)), w)
    | None => (Raise (OSError ("No such file or directory: " ++ dir)), w)
    end.

(** [dir.mkdir(parents=True, exist_ok=True)] *)
Definition mkdir (dir : string) : M unit :=
  fun w =>
    match fs w !! dir with
    | Some (Dir _) => (Ok tt, w)
    | Some (File _) => (Raise (OSError ("File exists: " ++ dir)), w)
    | None => (Ok tt, set_fs (<[dir := Dir []]> (fs w)) w)
    end.

(** [with open(path, "w") as f: json.dump(..., f)] with [data] the text
    dumped; [path] is the entry [name] of the directory [parent]. *)
Definition write_file (path : Pathlib.Path) (data : string) : M unit :=
  fun w =>
    let dir := Pathlib.parent path in
    let p := Pathlib.to_str path in
    match fs w !! dir with
    | Some (Dir entries) =>
        match fs w !! p with
        | Some (Dir _) => (Raise (OSError ("Is a directory: " ++ p)), w)
        | Some (File _) =>
            (Ok tt, set_written (written w ++ [(p, data)])
                      (set_fs (<[p := File data]> (fs w)) w))
        | None =>
            (Ok tt, set_written (written w ++ [(p, data)])
                      (set_fs (<[p := File data]>
                                 (<[dir := Dir (entries ++ [Pathlib.name path])]> (fs w))) w))
        end
    | Some (File _) => (Raise (OSError ("Not a directory: " ++ p)), w)
    | None => (Raise (OSError ("No such file or directory: " ++ p)), w)
    end.

(** [input(prompt)] *)
Definition input (prompt : string) : M string :=
  fun w =>
    let w' := set_stdout (stdout w ++ [prompt]) w in
    match stdin w with
    | line :: rest => (Ok line, set_stdin rest w')
    | [] => (Raise EOFError, w')
    end.

(** [str(uuid.uuid4())] *)
Definition uuid4 : M string :=
  fun w => (Ok (uuid_source w (uuid_draws w)), set_uuid_draws (S (uuid_draws w)) w).

(** [client.process_document(request=request)] *)
Definition call_process_document (X : Externals) (request : Request) : M Document :=
  fun w =>
    (process_document X (submitted w) request,
     set_submitted (submitted w ++ [request]) w).

End Sys.

Declare Scope M_scope.
Delimit Scope M_scope with M.
Notation "x <- m ;; k" := (Sys.bind m (fun x => k))
  (at level 100, m at next level, right associativity) : M_scope.
Notation "m ;;; k" := (Sys.bind m (fun _ => k))
  (at level 100, right associativity) : M_scope.

(** ** Configuration resolver *)

(** [validate_credentials], [load_project_id] and [load_processor_id] are the
    same in the two scripts but for the tag of their log lines. *)
Module Config.
Import Sys.
Local Open Scope M_scope.

Definition nl : string := String (ascii_of_nat 10) EmptyString.

(** The text of a credential-path in a log line: [None] prints as "None". *)
Definition show_opt (o : option string) : string := default "None" o.

(** [str()] of a JSON value inside an f-string. *)
Definition show_json (X : Externals) (j : Json.Json) : string :=
  match j with
  | Json.JStr s => s
  | _ => py_str X j
  end.

Section Resolver.
Variable X : Externals.
Variable tag : string.

(** [PROCESSOR_ID_PATH = BASE_DIR / "docai_processor_id.txt"] *)
Definition PROCESSOR_ID_PATH : string := base_dir X ++ "/docai_processor_id.txt".

Definition credentials_not_set : exn :=
  RuntimeError
    ("GOOGLE_APPLICATION_CREDENTIALS not set." ++ nl ++
     "Set it to your service account JSON file path:" ++ nl ++
     "  Windows: $env:GOOGLE_APPLICATION_CREDENTIALS = 'C:\path\to\docai.json'" ++ nl ++
     "  Linux:   export GOOGLE_APPLICATION_CREDENTIALS=/path/to/docai.json").

Definition credentials_not_found (creds_path : string) : exn :=
  RuntimeError
    ("Google OCR credentials not found." ++ nl ++
     "File does not exist: " ++ creds_path ++ nl ++
     "Check your GOOGLE_APPLICATION_CREDENTIALS environment variable.").

Definition processor_id_not_found : exn :=
  RuntimeError
    ("Processor ID not found." ++ nl ++
     "Set DOCAI_PROCESSOR_ID env var or create: " ++ PROCESSOR_ID_PATH).

Definition validate_credentials : M string :=
  creds_path <- getenv "GOOGLE_APPLICATION_CREDENTIALS" ;;
  print (tag ++ " GOOGLE_APPLICATION_CREDENTIALS = " ++ show_opt creds_path) ;;;
  match creds_path with
  | None => raise credentials_not_set
  | Some creds_path =>
      if negb (PyStr.truthy creds_path) then raise credentials_not_set
      else
        found <- path_exists creds_path ;;
        if negb found then raise (credentials_not_found creds_path)
        else
          print (tag ++ " [OK] Credentials file exists: " ++ creds_path) ;;;
          ret creds_path
  end.

Definition load_project_id (creds_path : string) : M Json.Json :=
  try_except
    (content <- read_file creds_path ;;
     data <- lift (json_loads X content) ;;
     project_id <- lift (Json.get data "project_id") ;;
     if negb (Json.truthy project_id) then
       raise (ValueError "project_id not found in credentials file")
     else
       print (tag ++ " [OK] Project ID: " ++ show_json X project_id) ;;;
       ret project_id)
    is_JSONDecodeError
    (fun e => raise (RuntimeError ("Invalid JSON in credentials file: " ++ exn_message e))).

(** The second half of [load_processor_id]: the fallback file. *)
Definition processor_id_from_file : M string :=
  found <- path_exists PROCESSOR_ID_PATH ;;
  if found then
    content <- read_file PROCESSOR_ID_PATH ;;
    let proc_id := PyStr.strip content in
    if PyStr.truthy proc_id then
      print (tag ++ " [OK] Processor ID (from file): " ++ proc_id) ;;;
      ret proc_id
    else raise processor_id_not_found
  else raise processor_id_not_found.

Definition load_processor_id : M string :=
  env_id <- getenv "DOCAI_PROCESSOR_ID" ;;
  match env_id with
  | Some env_id =>
      if PyStr.truthy env_id then
        print (tag ++ " [OK] Processor ID (from env): " ++ env_id) ;;;
        ret (PyStr.strip env_id)
      else processor_id_from_file
  | None => processor_id_from_file
  end.

(** The body of the first [try] of [main]: the four settings. *)
Definition resolve : M (Json.Json * string * string) :=
  creds_path <- validate_credentials ;;
  project_id <- load_project_id creds_path ;;
  processor_id <- load_processor_id ;;
  location <- getenv "DOCAI_LOCATION" ;;
  let location := default "us" location in
  print (tag ++ " [OK] Location: " ++ location) ;;;
  ret (project_id, processor_id, location).

(** [try: ... except RuntimeError as e: print(FATAL); return 1]: the
    settings, or the exit code [main] returns at once. *)
Definition resolve_or_exit : M (Z + Json.Json * string * string) :=
  try_except
    (cfg <- resolve ;; ret (inr cfg))
    is_RuntimeError
    (fun e => print (tag ++ " [FATAL] " ++ exn_message e) ;;; ret (inl 1%Z)).

End Resolver.

End Config.

(** ** os.path *)

Module OsPath.

(** [os.path.basename(p)]: [p[p.rfind('/') + 1:]] *)
Definition basename (p : string) : string :=
  PyStr.drop (Z.to_nat (PyStr.rfind "/" p + 1)) p.

Fixpoint all_dots (s : string) : bool :=
  match s with
  | EmptyString => true
  | String c s' => Ascii.eqb c "." && all_dots s'
  end.

(** [os.path.splitext(p)[0]]: [p] up to its last dot, when that dot comes
    after the last separator and after a character of the file name that
    is not a dot; else [p]. *)
Definition splitext_root (p : string) : string :=
  let sepIndex := PyStr.rfind "/" p in
  let dotIndex := PyStr.rfind "." p in
  if (sepIndex <? dotIndex)%Z then
    if all_dots (PyStr.take (Z.to_nat (dotIndex - sepIndex - 1))
                            (PyStr.drop (Z.to_nat (sepIndex + 1)) p))
    then p
    else PyStr.take (Z.to_nat dotIndex) p
  else p.

End OsPath.

(** ** The single-file driver, [rawcod.py] *)

Module Rawcod.
Import Docai Normalizer Sys.
Local Open Scope M_scope.

(** The dict literal [mime_types] of [get_mime_type]. *)
Definition mime_types : gmap string string :=
  list_to_map
    [ ("jpg", "image/jpeg"); ("jpeg", "image/jpeg"); ("png", "image/png");
      ("bmp", "image/bmp"); ("gif", "image/gif"); ("tiff", "image/tiff");
      ("tif", "image/tiff"); ("webp", "image/webp");
      ("pdf", "application/pdf") ].

(** [ext = file_path.lower().split('.')[-1]];
    [return mime_types.get(ext, 'application/octet-stream')]. *)
Definition get_mime_type (file_path : string) : result string :=
  ext ← PyStr.index_last (PyStr.split "." (PyStr.lower file_path));
  mret (default "application/octet-stream" (mime_types !! ext)).

Definition rule : string := string_of_list_ascii (repeat "="%char 60).

(** [f"projects/{project_id}/locations/{location}/processors/{processor_id}"] *)
Definition processor_path (X : Externals) (project_id : Json.Json)
    (location processor_id : string) : string :=
  "projects/" ++ Config.show_json X project_id ++ "/locations/" ++ location
    ++ "/processors/" ++ processor_id.

Section Driver.
Variable X : Externals.

Definition OUTPUT_DIR : string := base_dir X ++ "/output".

Definition validate_credentials : M string := Config.validate_credentials "[OCR]".
Definition load_project_id : string -> M Json.Json := Config.load_project_id X "[OCR]".
Definition load_processor_id : M string := Config.load_processor_id X "[OCR]".

(** STEP 2: the import of the client library; [false] when [main]
    returns 1 there. *)
Definition step2_import : M bool :=
  try_except
    (lift (import_documentai X) ;;;
     print "[OCR] [OK] Document AI client imported" ;;;
     ret true)
    is_ImportError
    (fun e =>
       print ("[OCR] [FATAL] Cannot import google-cloud-documentai: " ++ exn_message e) ;;;
       print "       Install with: pip install google-cloud-documentai" ;;;
       ret false).

(** STEP 3: [sys.argv[1]] if there is one, else the line read at the
    prompt, stripped of blanks and then of double quotes. *)
Definition step3_file_path : M string :=
  args <- (fun w => (Ok (argv w), w)) ;;
  match args with
  | _ :: arg1 :: _ => ret arg1
  | _ =>
      line <- input "[OCR] Enter the file path (image or PDF): " ;;
      ret (PyStr.strip_char (ascii_of_nat 34) (PyStr.strip line))
  end.

(** STEP 4: the remote call; [None] when [main] returns 1 there. *)
Definition step4_process (project_id : Json.Json) (processor_id location : string)
    (file_path mime_type : string) : M (option Document) :=
  try_except
    (print "[OCR] Initializing Document AI client..." ;;;
     lift (new_client X) ;;;
     let processor_name := processor_path X project_id location processor_id in
     print ("[OCR] Processor: " ++ processor_name) ;;;
     file_content <- read_file file_path ;;
     print ("[OCR] File size: " ++ format_size X (String.length file_content) ++ " bytes") ;;;
     let request := mkRequest processor_name file_content mime_type in
     print "[OCR] Sending request to Document AI..." ;;;
     document <- call_process_document X request ;;
     print "[OCR] [OK] OCR processing completed successfully" ;;;
     ret (Some document))
    is_Exception
    (fun e =>
       print ("[OCR] [ERROR] Document AI processing failed: " ++ exn_message e) ;;;
       ret None).

(** STEP 5, the response normalizer: the entities sorted into the three
    sections, then the fresh transaction identifier.  Returns the locals
    [structured_invoice] and [transaction_id]. *)
Definition step5_structure (document : Document)
    : M (gmap string Field * string) :=
  structured_invoice <- lift (structure_invoice (entities document)) ;;
  transaction_id <- uuid4 ;;
  ret (add_transaction_id transaction_id structured_invoice, transaction_id).

(** STEP 6: the output file and the closing log lines. *)
Definition step6_save (file_path : string)
    (structured_invoice : gmap string Field) (transaction_id : string) : M Z :=
  let current_date := strftime_today X in
  let base_filename := OsPath.splitext_root (OsPath.basename file_path) in
  mkdir OUTPUT_DIR ;;;
  let output_filename :=
    Pathlib.join OUTPUT_DIR (base_filename ++ "_structured_" ++ current_date ++ ".json") in
  write_file output_filename (json_dumps X structured_invoice) ;;;
  print ("[OCR] [OK] Transaction ID: " ++ transaction_id) ;;;
  print ("TRANSACTION_ID:" ++ transaction_id) ;;;
  print ("Structured JSON saved to: " ++ Pathlib.to_str output_filename) ;;;
  print rule ;;;
  print "[OCR] SUCCESS" ;;;
  print rule ;;;
  ret 0%Z.

Definition main : M Z :=
  print rule ;;;
  print "[OCR] Google Document AI - Starting" ;;;
  print rule ;;;
  cfg <- Config.resolve_or_exit X "[OCR]" ;;
  match cfg with
  | inl code => ret code
  | inr (project_id, processor_id, location) =>
      imported <- step2_import ;;
      if negb imported then ret 1%Z
      else
        file_path <- step3_file_path ;;
        print ("[OCR] Input file: " ++ file_path) ;;;
        found <- path_exists file_path ;;
        if negb found then
          print ("[OCR] [ERROR] File not found: " ++ file_path) ;;;
          ret 1%Z
        else
          mime_type <- lift (get_mime_type file_path) ;;
          print ("[OCR] MIME type: " ++ mime_type) ;;;
          if String.eqb mime_type "application/octet-stream" then
            print "[OCR] [ERROR] Unsupported file type" ;;;
            ret 1%Z
          else
            processed <- step4_process project_id processor_id location
                           file_path mime_type ;;
            match processed with
            | None => ret 1%Z
            | Some document =>
                structured <- step5_structure document ;;
                step6_save file_path (fst structured) (snd structured)
            end
  end.

End Driver.

End Rawcod.

(** ** The batch driver, [process_service.py] *)

Module ProcessService.
Import Docai Sys.
Local Open Scope M_scope.

(** The dict literal [mime_map] of [get_mime_type]. *)
Definition mime_map : gmap string string :=
  list_to_map
    [ ("pdf", "application/pdf"); ("jpg", "image/jpeg");
      ("jpeg", "image/jpeg"); ("png", "image/png"); ("tif", "image/tiff");
      ("tiff", "image/tiff"); ("bmp", "image/bmp"); ("gif", "image/gif");
      ("webp", "image/webp") ].

(** [ext = path.suffix.lower().lstrip(".")];
    [return mime_map.get(ext, "application/octet-stream")]. *)
Definition get_mime_type (path : Pathlib.Path) : string :=
  let ext := PyStr.lstrip_char "." (PyStr.lower (Pathlib.suffix path)) in
  default "application/octet-stream" (mime_map !! ext).

Section Driver.
Variable X : Externals.

Definition INPUT_DIR : string := base_dir X ++ "/input".
Definition OUTPUT_DIR : string := base_dir X ++ "/output".

Definition validate_credentials : M string := Config.validate_credentials "[DOCAI]".
Definition load_project_id : string -> M Json.Json := Config.load_project_id X "[DOCAI]".
Definition load_processor_id : M string := Config.load_processor_id X "[DOCAI]".

Definition process_file (name : string) (path : Pathlib.Path) : M Pathlib.Path :=
  content <- read_file (Pathlib.to_str path) ;;
  let request := mkRequest name content (get_mime_type path) in
  document <- call_process_document X request ;;
  let doc_json := message_to_json X document in
  mkdir OUTPUT_DIR ;;;
  let out_path := Pathlib.join OUTPUT_DIR (Pathlib.stem path ++ "_processed.json") in
  write_file out_path doc_json ;;;
  ret out_path.

(** [[p for p in INPUT_DIR.iterdir()
      if p.is_file() and get_mime_type(p) != "application/octet-stream"]] *)
Fixpoint supported_files (entries : list Pathlib.Path) : M (list Pathlib.Path) :=
  match entries with
  | [] => ret []
  | p :: rest =>
      regular <- is_file (Pathlib.to_str p) ;;
      files <- supported_files rest ;;
      if regular && negb (String.eqb (get_mime_type p) "application/octet-stream")
      then ret (p :: files)
      else ret files
  end.

(** One iteration of [for path in files]: [None] to go on with the next
    file, [Some 1] when [main] returns 1 from the handler. *)
Definition process_one (name : string) (path : Pathlib.Path) : M (option Z) :=
  try_except
    (out_path <- process_file name path ;;
     print ("[OK] " ++ Pathlib.name path ++ " -> " ++ Pathlib.name out_path
              ++ " (" ++ format_elapsed X (Pathlib.name path) ++ "s)") ;;;
     ret None)
    is_Exception
    (fun exc =>
       print ("[ERROR] Failed to process " ++ Pathlib.name path ++ ": "
                ++ exn_message exc) ;;;
       ret (Some 1%Z)).

(** [for path in files: ...] and what follows the loop. *)
Fixpoint process_files (name : string) (files : list Pathlib.Path) : M Z :=
  match files with
  | [] =>
      print "[DONE] Document AI processing complete" ;;;
      ret 0%Z
  | path :: rest =>
      r <- process_one name path ;;
      match r with
      | Some code => ret code
      | None => process_files name rest
      end
  end.

Definition main : M Z :=
  print Rawcod.rule ;;;
  print "[DOCAI] Batch Document AI Processing - Starting" ;;;
  print Rawcod.rule ;;;
  cfg <- Config.resolve_or_exit X "[DOCAI]" ;;
  match cfg with
  | inl code => ret code
  | inr (project_id, processor_id, location) =>
      lift (new_client X) ;;;
      let name := Rawcod.processor_path X project_id location processor_id in
      print ("[DOCAI] Using processor: " ++ name) ;;;
      found <- path_exists INPUT_DIR ;;
      if negb found then
        print ("[WARN] Input directory not found: " ++ INPUT_DIR) ;;;
        ret 1%Z
      else
        entries <- iterdir INPUT_DIR ;;
        files <- supported_files entries ;;
        match files with
        | [] =>
            print ("[WARN] No supported files in " ++ INPUT_DIR) ;;;
            ret 1%Z
        | _ => process_files name files
        end
  end.

End Driver.

End ProcessService.

(** ** Reading the normalizer's result *)

(** Views of the code above used to state its properties: the three
    sections of a [structured_invoice], the bucket the [if]/[elif] chain
    picks for a type, and closed forms of the two loops. *)
Module View.
Import Docai Normalizer.

Record Sections : Type := mkSections {
  header : gmap string EntityDetails;
  line_items : list EntityDetails;
  footer : gmap string EntityDetails
}.

(** The sections of a dict that has them with the right shapes. *)
Definition sections_of (inv : gmap string Field) : option Sections :=
  match inv !! "header", inv !! "line_items", inv !! "footer" with
  | Some (FDict h), Some (FList l), Some (FDict f) => Some (mkSections h l f)
  | _, _, _ => None
  end.

(** The three-key dict with the given sections. *)
Definition invoice_of (s : Sections) : gmap string Field :=
  <["footer" := FDict (footer s)]>
    (<["line_items" := FList (line_items s)]>
       (<["header" := FDict (header s)]> ∅)).

Inductive Bucket : Type := Header | LineItems | Footer.

(** The branch of the [if]/[elif]/[else] chain taken for a type. *)
Definition bucket_of (t : string) : Bucket :=
  if py_in t header_fields then Header
  else if String.eqb t "line_item" then LineItems
  else if py_in t footer_fields then Footer
  else Header.

(** The key a child contributes: the last piece of its type split at "/". *)
Definition trailing_segment (t : string) : string :=
  List.last (PyStr.split "/" t) EmptyString.

Definition flat_props (children : list Entity) (acc : gmap string string)
    : gmap string string :=
  foldl (fun m child => <[trailing_segment (type_ child) := mention_text child]> m)
        acc children.

Definition details_of (e : Entity) : EntityDetails :=
  mkDetails (mention_text e) (flat_props (properties e) ∅).

(** One iteration of the outer loop on the sections. *)
Definition place (s : Sections) (e : Entity) : Sections :=
  match bucket_of (type_ e) with
  | Header => mkSections (<[type_ e := details_of e]> (header s)) (line_items s) (footer s)
  | LineItems => mkSections (header s) (line_items s ++ [details_of e]) (footer s)
  | Footer => mkSections (header s) (line_items s) (<[type_ e := details_of e]> (footer s))
  end.

Definition empty_sections : Sections := mkSections ∅ [] ∅.

(** An entity details value occurs somewhere in the result. *)
Definition occurs (d : EntityDetails) (s : Sections) : Prop :=
  (exists k, header s !! k = Some d) \/ In d (line_items s)
  \/ (exists k, footer s !! k = Some d).

(** An entity with its grandchildren cut off. *)
Definition cut_child (c : Entity) : Entity := mkEntity (type_ c) (mention_text c) [].
Definition cut_grandchildren (e : Entity) : Entity :=
  mkEntity (type_ e) (mention_text e) (map cut_child (properties e)).

Fixpoint contains (ch : ascii) (s : string) : bool :=
  match s with
  | EmptyString => false
  | String c s' => Ascii.eqb c ch || contains ch s'
  end.

(** The test of the second branch. *)
Definition is_line_item (e : Entity) : bool := String.eqb (type_ e) "line_item".

(** Keys of the header map are header or unrecognized types, keys of the
    footer map are footer types. *)
Definition keys_sorted (s : Sections) : Prop :=
  (forall k, is_Some (header s !! k) -> bucket_of k = Header)
  /\ (forall k, is_Some (footer s !! k) -> bucket_of k = Footer).

(** The map of an entity's bucket. *)
Definition map_of (b : Bucket) (s : Sections) : gmap string EntityDetails :=
  match b with
  | Header => header s
  | Footer => footer s
  | LineItems => ∅
  end.

(** The test of the list comprehension that selects the files of a batch. *)
Definition is_supported (w : Sys.World) (p : Pathlib.Path) : bool :=
  match Sys.fs w !! Pathlib.to_str p with
  | Some (Sys.File _) => true
  | _ => false
  end
  && negb (String.eqb (ProcessService.get_mime_type p) "application/octet-stream").

(** The world after the three lines of the banner of the batch driver. *)
Definition after_banner (w : Sys.World) : Sys.World :=
  snd (Sys.bind (Sys.print Rawcod.rule)
         (fun _ => Sys.bind (Sys.print "[DOCAI] Batch Document AI Processing - Starting")
                     (fun _ => Sys.print Rawcod.rule)) w).

(** The world after the loop body has gone through [files] with no
    failure, if it does. *)
Fixpoint succeed_all (X : Sys.Externals) (name : string)
    (files : list Pathlib.Path) (w : Sys.World) : option Sys.World :=
  match files with
  | [] => Some w
  | path :: rest =>
      match ProcessService.process_one X name path w with
      | (Ok None, w') => succeed_all X name rest w'
      | _ => None
      end
  end.

(** The keys of the two MIME tables. *)
Definition supported_extensions : list string :=
  ["pdf"; "jpg"; "jpeg"; "png"; "tif"; "tiff"; "bmp"; "gif"; "webp"].

(** [w'] has the environment, the file system, the requests submitted, the
    files written and the identifier source of [w]. *)
Definition same_store (w w' : Sys.World) : Prop :=
  Sys.environ w' = Sys.environ w /\ Sys.fs w' = Sys.fs w /\
  Sys.submitted w' = Sys.submitted w /\ Sys.written w' = Sys.written w /\
  Sys.uuid_source w' = Sys.uuid_source w /\ Sys.uuid_draws w' = Sys.uuid_draws w.

(** What [rawcod.main] may submit: the content of a file at a path whose
    MIME type is the one sent and is not the sentinel. *)
Definition checked_request (w : Sys.World) (r : Sys.Request) : Prop :=
  exists file_path,
    Sys.fs w !! file_path = Some (Sys.File (Sys.req_content r)) /\
    Rawcod.get_mime_type file_path = Ok (Sys.req_mime_type r) /\
    Sys.req_mime_type r <> "application/octet-stream".

(** [w'] differs from [w] at most in standard output, which only grew. *)
Definition only_logged (w w' : Sys.World) : Prop :=
  Sys.environ w' = Sys.environ w /\ Sys.fs w' = Sys.fs w /\
  Sys.argv w' = Sys.argv w /\ Sys.stdin w' = Sys.stdin w /\
  Sys.submitted w' = Sys.submitted w /\ Sys.written w' = Sys.written w /\
  Sys.uuid_source w' = Sys.uuid_source w /\ Sys.uuid_draws w' = Sys.uuid_draws w /\
  exists lines, Sys.stdout w' = Sys.stdout w ++ lines.

(** A computation that does nothing to the world but print. *)
Definition logs_only {A : Type} (m : Sys.M A) : Prop :=
  forall w, only_logged w (snd (m w)).

End View.

(** ** Example data *)

Module Examples.
Import Docai Sys.

(** Two header entities of the same type. *)
Definition invoice_a : Entity := mkEntity "invoice_id" "INV-1" [].
Definition invoice_b : Entity := mkEntity "invoice_id" "INV-2" [].

(** A line item with two children whose types end in the same segment and
    a grandchild. *)
Definition widget : Entity :=
  mkEntity "line_item" "Widget blue 3"
    [ mkEntity "line_item/description" "Widget" [];
      mkEntity "line_item/description" "blue" [];
      mkEntity "line_item/quantity" "3" [mkEntity "unit" "pcs" []] ].

Definition total : Entity := mkEntity "total_amount" "42.00" [].

Definition dq : string := String (ascii_of_nat 34) EmptyString.

(** The text of a credential file with a project_id: the JSON object with
    the one member project_id, "demo". *)
Definition credentials_text : string :=
  "{" ++ dq ++ "project_id" ++ dq ++ ": " ++ dq ++ "demo" ++ dq ++ "}".

(** An installation under "/srv/docai" whose JSON parser knows the empty
    object and the credential text above, and whose processor answers every
    request but one with the content "corrupt" by an empty document. *)
Definition externals : Externals :=
  {| base_dir := "/srv/docai";
     json_loads := fun text =>
       if String.eqb text "{}" then Ok (Json.JObj [])
       else if String.eqb text credentials_text
       then Ok (Json.JObj [("project_id", Json.JStr "demo")])
       else Raise (JSONDecodeError "Expecting value");
     py_str := fun _ => "None";
     import_documentai := Ok tt;
     new_client := Ok tt;
     process_document := fun _ request =>
       if String.eqb (req_content request) "corrupt"
       then Raise (ClientError "400 Invalid document")
       else Ok (mkDocument "" []);
     message_to_json := fun _ => "{}";
     json_dumps := fun _ => "{}";
     strftime_today := "20250101";
     format_size := fun _ => "0";
     format_elapsed := fun _ => "0.0" |}.

(** The environment of a configured run. *)
Definition configured_env : gmap string string :=
  {[ "GOOGLE_APPLICATION_CREDENTIALS" := "/etc/docai.json";
     "DOCAI_PROCESSOR_ID" := "proc-1" ]}.

(** A world with nothing in it whose identifier source always draws [u]. *)
Definition blank_world (u : string) : World :=
  mkWorld ∅ ∅ [] [] [] [] [] (fun _ => u) 0.

(** An identifier generator that never issues an identifier twice: the
    draw of rank [n] is "id-" followed by [n] in decimal. *)
Definition serial (n : nat) : string := "id-" ++ pretty n.


(** The processor identifier set with blanks around it, no fallback file. *)
Definition padded_env_world : World :=
  mkWorld {["DOCAI_PROCESSOR_ID" := " proc-1 "]} ∅ [] [] [] [] [] (fun _ => "u-1") 0.

(** A credential file that parses and has no project_id. *)
Definition no_project_id_world : World :=
  mkWorld {["GOOGLE_APPLICATION_CREDENTIALS" := "/etc/docai.json"]}
          {["/etc/docai.json" := File "{}"]}
          ["rawcod.py"; "invoice.pdf"] [] [] [] [] (fun _ => "u-1") 0.

(** A configured run with an input directory of three PDF files, the
    second one corrupt. *)
Definition batch_world : World :=
  mkWorld configured_env
          {[ "/etc/docai.json" := File credentials_text;
             "/srv/docai/input" := Dir ["a.pdf"; "b.pdf"; "c.pdf"];
             "/srv/docai/input/a.pdf" := File "%PDF-a";
             "/srv/docai/input/b.pdf" := File "corrupt";
             "/srv/docai/input/c.pdf" := File "%PDF-c" ]}
          ["process_service.py"] [] [] [] [] (fun _ => "u-1") 0.

(** A configured run of the single-file script on a text file named "pdf". *)
Definition dotless_file_world : World :=
  mkWorld configured_env
          {[ "/etc/docai.json" := File credentials_text;
             "pdf" := File "notes, not a PDF" ]}
          ["rawcod.py"; "pdf"] [] [] [] [] (fun _ => "u-1") 0.

(** A configured run of the single-file script on a scanned PDF. *)
Definition scan_world : World :=
  mkWorld configured_env
          {[ "/etc/docai.json" := File credentials_text;
             "in/scan.01.PDF" := File "%PDF-1.7" ]}
          ["rawcod.py"; "in/scan.01.PDF"] [] [] [] [] (fun _ => "u-1") 0.

(** The same run with the identifier source [serial]. *)
Definition serial_scan_world : World :=
  mkWorld configured_env
          {[ "/etc/docai.json" := File credentials_text;
             "in/scan.01.PDF" := File "%PDF-1.7" ]}
          ["rawcod.py"; "in/scan.01.PDF"] [] [] [] [] serial 0.

Definition file_a : Pathlib.Path := Pathlib.mkPath "/srv/docai/input" "a.pdf".
Definition file_b : Pathlib.Path := Pathlib.mkPath "/srv/docai/input" "b.pdf".
Definition file_c : Pathlib.Path := Pathlib.mkPath "/srv/docai/input" "c.pdf".

End Examples.

(** * Properties *)

Import Docai Normalizer Sys View.

(** ** The result monad and string helpers *)

Lemma result_bind_Ok {A B : Type} (a : A) (f : A -> result B) :
  (Ok a ≫= f) = f a.
Proof. reflexivity. Qed.

Lemma split_not_nil (sep : ascii) (s : string) : PyStr.split sep s <> [].
Proof.
  induction s as [|c s IH]; simpl; [discriminate|].
  destruct (Ascii.eqb c sep); [discriminate|].
  destruct (PyStr.split sep s); discriminate.
Qed.

Lemma index_last_last {A : Type} (l : list A) (d : A) :
  l <> [] -> PyStr.index_last l = Ok (List.last l d).
Proof.
  induction l as [|x l IH]; [congruence|]. intros _.
  destruct l as [|y l]; [reflexivity|].
  change (PyStr.index_last (x :: y :: l)) with (PyStr.index_last (y :: l)).
  change (List.last (x :: y :: l) d) with (List.last (y :: l) d).
  apply IH. discriminate.
Qed.

Lemma index_last_split (sep : ascii) (s : string) :
  PyStr.index_last (PyStr.split sep s) = Ok (List.last (PyStr.split sep s) EmptyString).
Proof. apply index_last_last, split_not_nil. Qed.

Lemma trailing_segment_ok (t : string) :
  PyStr.index_last (PyStr.split "/" t) = Ok (trailing_segment t).
Proof. apply index_last_split. Qed.

Lemma last_cons_cons {A : Type} (x : A) (l : list A) (d : A) :
  l <> [] -> List.last (x :: l) d = List.last l d.
Proof. destruct l; [congruence|reflexivity]. Qed.

(** The shape of a split: its first piece holds no separator; the string is
    that piece when there is no other, and else it ends with a separator
    followed by the last piece, which holds no separator either. *)
Lemma split_shape (sep : ascii) (s : string) :
  exists w ws,
    PyStr.split sep s = w :: ws /\ contains sep w = false /\
    ((ws = [] /\ s = w) \/
     (ws <> [] /\ contains sep (List.last ws EmptyString) = false /\
      exists pre, s = (pre ++ String sep (List.last ws EmptyString))%string)).
Proof.
  induction s as [|c s (w & ws & E & Hw & Hs)]; simpl.
  - exists EmptyString, []. repeat split; auto.
  - rewrite E. destruct (Ascii.eqb_spec c sep) as [->|Hne].
    + exists EmptyString, (w :: ws). repeat split; auto. right.
      split; [discriminate|].
      destruct Hs as [[-> ->]|(Hnn & Hl & pre & ->)].
      * split; [exact Hw|]. exists EmptyString. reflexivity.
      * rewrite last_cons_cons by exact Hnn.
        split; [exact Hl|]. exists (String sep pre). reflexivity.
    + exists (String c w), ws. split; [reflexivity|]. split.
      * simpl. rewrite Hw. apply Ascii.eqb_neq in Hne. now rewrite Hne.
      * destruct Hs as [[-> ->]|(Hnn & Hl & pre & ->)].
        -- left. split; reflexivity.
        -- right. split; [exact Hnn|]. split; [exact Hl|].
           exists (String c pre). reflexivity.
Qed.

(** The last piece of a split holds no separator, and the string is that
    piece alone or ends with a separator followed by it. *)
Lemma last_split_spec (sep : ascii) (s : string) :
  contains sep (List.last (PyStr.split sep s) EmptyString) = false
  /\ (s = List.last (PyStr.split sep s) EmptyString
      \/ exists pre, s = (pre ++ String sep (List.last (PyStr.split sep s) EmptyString))%string).
Proof.
  destruct (split_shape sep s) as (w & ws & E & Hw & Hs). rewrite E.
  destruct Hs as [[-> ->]|(Hnn & Hl & pre & ->)].
  - simpl. split; [exact Hw|]. now left.
  - rewrite last_cons_cons by exact Hnn. split; [exact Hl|].
    right. exists pre. reflexivity.
Qed.

(** ** The normalizer's loops in closed form *)

Lemma flatten_children_ok (cs : list Entity) (acc : gmap string string) :
  flatten_children cs acc = Ok (flat_props cs acc).
Proof.
  revert acc. induction cs as [|c cs IH]; intros acc; [reflexivity|].
  simpl. rewrite trailing_segment_ok, result_bind_Ok. apply IH.
Qed.

Lemma entity_details_ok (e : Entity) : entity_details e = Ok (details_of e).
Proof. unfold entity_details. now rewrite flatten_children_ok. Qed.

Lemma sections_of_invoice_of (s : Sections) : sections_of (invoice_of s) = Some s.
Proof. destruct s as [h l f]. reflexivity. Qed.

Lemma invoice_of_header (s : Sections) : invoice_of s !! "header" = Some (FDict (header s)).
Proof. reflexivity. Qed.

Lemma invoice_of_line_items (s : Sections) :
  invoice_of s !! "line_items" = Some (FList (line_items s)).
Proof. reflexivity. Qed.

Lemma invoice_of_footer (s : Sections) : invoice_of s !! "footer" = Some (FDict (footer s)).
Proof. reflexivity. Qed.

Lemma set_header (s : Sections) (h : gmap string EntityDetails) :
  <["header" := FDict h]> (invoice_of s) = invoice_of (mkSections h (line_items s) (footer s)).
Proof. reflexivity. Qed.

Lemma set_line_items (s : Sections) (l : list EntityDetails) :
  <["line_items" := FList l]> (invoice_of s) = invoice_of (mkSections (header s) l (footer s)).
Proof. reflexivity. Qed.

Lemma set_footer (s : Sections) (f : gmap string EntityDetails) :
  <["footer" := FDict f]> (invoice_of s) = invoice_of (mkSections (header s) (line_items s) f).
Proof. reflexivity. Qed.

Lemma structured_invoice_init_sections : structured_invoice_init = invoice_of empty_sections.
Proof. reflexivity. Qed.

(** One iteration on a three-section dict never raises and is [place]. *)
Lemma classify_entity_place (e : Entity) (s : Sections) :
  classify_entity e (invoice_of s) = Ok (invoice_of (place s e)).
Proof.
  unfold classify_entity, place, bucket_of.
  rewrite entity_details_ok, result_bind_Ok.
  destruct (py_in (type_ e) header_fields).
  - unfold setitem_in, getitem. rewrite invoice_of_header, result_bind_Ok.
    simpl. now rewrite set_header.
  - destruct (String.eqb (type_ e) "line_item").
    + unfold append_in, getitem. rewrite invoice_of_line_items, result_bind_Ok.
      simpl. now rewrite set_line_items.
    + destruct (py_in (type_ e) footer_fields).
      * unfold setitem_in, getitem. rewrite invoice_of_footer, result_bind_Ok.
        simpl. now rewrite set_footer.
      * unfold setitem_in, getitem. rewrite invoice_of_header, result_bind_Ok.
        simpl. now rewrite set_header.
Qed.

Lemma structure_entities_place (es : list Entity) (s : Sections) :
  structure_entities es (invoice_of s) = Ok (invoice_of (foldl place s es)).
Proof.
  revert s. induction es as [|e es IH]; intros s; [reflexivity|].
  simpl. rewrite classify_entity_place, result_bind_Ok. apply IH.
Qed.

Lemma structure_invoice_place (es : list Entity) :
  structure_invoice es = Ok (invoice_of (foldl place empty_sections es)).
Proof.
  unfold structure_invoice. rewrite structured_invoice_init_sections.
  apply structure_entities_place.
Qed.

Lemma structure_entities_app (es1 es2 : list Entity) (inv : gmap string Field) :
  structure_entities (es1 ++ es2) inv
  = structure_entities es1 inv ≫= structure_entities es2.
Proof.
  revert inv. induction es1 as [|e es1 IH]; intros inv; [reflexivity|].
  simpl. destruct (classify_entity e inv) as [inv'|err]; [|reflexivity].
  rewrite !result_bind_Ok. apply IH.
Qed.

(** ** The branch taken for a type *)

Lemma py_in_In (x : string) (l : list string) : py_in x l = true <-> In x l.
Proof.
  unfold py_in. rewrite existsb_exists. split.
  - intros (y & Hy & E). apply String.eqb_eq in E. now subst.
  - intros H. exists x. split; [exact H|apply String.eqb_refl].
Qed.

Lemma py_in_not_In (x : string) (l : list string) : py_in x l = false <-> ~ In x l.
Proof. rewrite <- py_in_In. destruct (py_in x l); split; congruence. Qed.

Lemma bucket_header (t : string) : In t header_fields -> bucket_of t = Header.
Proof. intros H. apply py_in_In in H. unfold bucket_of. now rewrite H. Qed.

Lemma bucket_line_item (t : string) : t = "line_item" -> bucket_of t = LineItems.
Proof. intros ->. reflexivity. Qed.

Lemma bucket_footer (t : string) : In t footer_fields -> bucket_of t = Footer.
Proof.
  intros H. simpl in H.
  repeat (destruct H as [<-|H]; [reflexivity|]). contradiction.
Qed.

Lemma bucket_other (t : string) :
  ~ In t header_fields -> t <> "line_item" -> ~ In t footer_fields ->
  bucket_of t = Header.
Proof.
  intros Hh Hl Hf. apply py_in_not_In in Hh, Hf. apply String.eqb_neq in Hl.
  unfold bucket_of. now rewrite Hh, Hl, Hf.
Qed.

Lemma bucket_LineItems_inv (t : string) : bucket_of t = LineItems -> t = "line_item".
Proof.
  unfold bucket_of. destruct (py_in t header_fields); [discriminate|].
  destruct (String.eqb_spec t "line_item") as [E|_]; [auto|].
  destruct (py_in t footer_fields); discriminate.
Qed.

Lemma bucket_Footer_inv (t : string) : bucket_of t = Footer -> In t footer_fields.
Proof.
  unfold bucket_of. destruct (py_in t header_fields); [discriminate|].
  destruct (String.eqb t "line_item"); [discriminate|].
  destruct (py_in t footer_fields) eqn:E; [|discriminate].
  intros _. now apply py_in_In.
Qed.

Lemma bucket_Header_inv (t : string) :
  bucket_of t = Header ->
  In t header_fields \/ (~ In t header_fields /\ t <> "line_item" /\ ~ In t footer_fields).
Proof.
  unfold bucket_of. destruct (py_in t header_fields) eqn:Eh.
  - intros _. left. now apply py_in_In.
  - destruct (String.eqb_spec t "line_item") as [|Hl]; [discriminate|].
    destruct (py_in t footer_fields) eqn:Ef; [discriminate|].
    intros _. right. repeat split; [now apply py_in_not_In|exact Hl|now apply py_in_not_In].
Qed.

(** ** The sections after the loop *)

Lemma foldl_place_snoc (s : Sections) (es : list Entity) (e : Entity) :
  foldl place s (es ++ [e]) = place (foldl place s es) e.
Proof. apply foldl_snoc. Qed.

Lemma place_line_items (s : Sections) (e : Entity) :
  line_items (place s e)
  = line_items s ++ (if is_line_item e then [details_of e] else []).
Proof.
  unfold place, is_line_item. destruct (bucket_of (type_ e)) eqn:B; simpl.
  - destruct (String.eqb_spec (type_ e) "line_item") as [E|_]; [|now rewrite app_nil_r].
    rewrite (bucket_line_item _ E) in B. discriminate.
  - apply bucket_LineItems_inv in B. rewrite B. reflexivity.
  - destruct (String.eqb_spec (type_ e) "line_item") as [E|_]; [|now rewrite app_nil_r].
    rewrite (bucket_line_item _ E) in B. discriminate.
Qed.

(** The line items are the [line_item] entities, in input order. *)
Lemma foldl_place_line_items (es : list Entity) (s : Sections) :
  line_items (foldl place s es)
  = line_items s ++ map details_of (List.filter is_line_item es).
Proof.
  revert s. induction es as [|e es IH]; intros s; simpl.
  - now rewrite app_nil_r.
  - rewrite IH, place_line_items. destruct (is_line_item e); simpl.
    + now rewrite <- app_assoc.
    + now rewrite app_nil_r.
Qed.

Lemma keys_sorted_empty : keys_sorted empty_sections.
Proof.
  split; intros k [x H]; simpl in H; rewrite lookup_empty in H; discriminate.
Qed.

Lemma keys_sorted_place (s : Sections) (e : Entity) :
  keys_sorted s -> keys_sorted (place s e).
Proof.
  intros [Hh Hf]. unfold place. destruct (bucket_of (type_ e)) eqn:B; split; simpl; auto.
  - intros k. destruct (decide (type_ e = k)) as [<-|Hne]; [auto|].
    rewrite lookup_insert_ne by exact Hne. apply Hh.
  - intros k. destruct (decide (type_ e = k)) as [<-|Hne]; [auto|].
    rewrite lookup_insert_ne by exact Hne. apply Hf.
Qed.

Lemma keys_sorted_foldl (es : list Entity) (s : Sections) :
  keys_sorted s -> keys_sorted (foldl place s es).
Proof.
  revert s. induction es as [|e es IH]; intros s H; simpl; [exact H|].
  apply IH, keys_sorted_place, H.
Qed.

(** An iteration leaves the keys of other types alone. *)
Lemma place_other_key (s : Sections) (e : Entity) (k : string) :
  type_ e <> k ->
  header (place s e) !! k = header s !! k /\ footer (place s e) !! k = footer s !! k.
Proof.
  intros Hne. unfold place. destruct (bucket_of (type_ e)); simpl;
    rewrite ?lookup_insert_ne by exact Hne; auto.
Qed.

Lemma foldl_place_other_key (es : list Entity) (s : Sections) (k : string) :
  Forall (fun e => type_ e <> k) es ->
  header (foldl place s es) !! k = header s !! k
  /\ footer (foldl place s es) !! k = footer s !! k.
Proof.
  revert s. induction es as [|e es IH]; intros s H; simpl; [auto|].
  inversion H as [|? ? Hne Hrest]; subst.
  destruct (IH (place s e) Hrest) as [-> ->]. now apply place_other_key.
Qed.

Lemma place_header_key (s : Sections) (e : Entity) :
  bucket_of (type_ e) = Header ->
  header (place s e) !! type_ e = Some (details_of e) /\ footer (place s e) = footer s
  /\ line_items (place s e) = line_items s.
Proof. intros B. unfold place. rewrite B. simpl. now rewrite lookup_insert_eq. Qed.

Lemma place_footer_key (s : Sections) (e : Entity) :
  bucket_of (type_ e) = Footer ->
  footer (place s e) !! type_ e = Some (details_of e) /\ header (place s e) = header s
  /\ line_items (place s e) = line_items s.
Proof. intros B. unfold place. rewrite B. simpl. now rewrite lookup_insert_eq. Qed.

Lemma place_map_key (s : Sections) (e : Entity) :
  bucket_of (type_ e) <> LineItems ->
  map_of (bucket_of (type_ e)) (place s e) !! type_ e = Some (details_of e).
Proof.
  intros B. destruct (bucket_of (type_ e)) eqn:E; [|congruence|].
  - now apply place_header_key.
  - now apply place_footer_key.
Qed.

Lemma foldl_place_map_other_key (es : list Entity) (s : Sections) (b : Bucket) (k : string) :
  Forall (fun e => type_ e <> k) es ->
  map_of b (foldl place s es) !! k = map_of b s !! k.
Proof.
  intros H. destruct (foldl_place_other_key es s k H) as [Hh Hf].
  destruct b; simpl; auto.
Qed.

(** Last write wins: after the loop the key of a header or footer entity
    holds the details of the last entity of that type. *)
Lemma foldl_place_last (pre post : list Entity) (e : Entity) (s : Sections) :
  bucket_of (type_ e) <> LineItems ->
  Forall (fun x => type_ x <> type_ e) post ->
  map_of (bucket_of (type_ e)) (foldl place s (pre ++ e :: post)) !! type_ e
  = Some (details_of e).
Proof.
  intros B Hpost. rewrite foldl_app. simpl.
  rewrite foldl_place_map_other_key by exact Hpost.
  now apply place_map_key.
Qed.

Lemma last_such {A : Type} (P : A -> Prop) (l : list A) :
  (forall x, {P x} + {~ P x}) -> Exists P l ->
  exists pre y post, l = pre ++ y :: post /\ P y /\ Forall (fun x => ~ P x) post.
Proof.
  intros dec. induction l as [|x l IH]; intros Hex.
  - inversion Hex.
  - destruct (List.Exists_dec P l dec) as [Hl|Hnl].
    + destruct (IH Hl) as (pre & y & post & -> & Py & Hpost).
      exists (x :: pre), y, post. auto.
    + apply Forall_Exists_neg in Hnl.
      exists [], x, l. repeat split; [|exact Hnl].
      inversion Hex as [? ? Px|? ? Hl]; subst; [exact Px|].
      apply Forall_Exists_neg in Hnl. contradiction.
Qed.

(** Every entity has a last entity of its type. *)
Lemma last_of_type (es : list Entity) (e : Entity) :
  In e es ->
  exists pre e' post,
    es = pre ++ e' :: post /\ type_ e' = type_ e
    /\ Forall (fun x => type_ x <> type_ e) post.
Proof.
  intros Hin.
  assert (Hex : Exists (fun x => type_ x = type_ e) es).
  { apply List.Exists_exists. exists e. auto. }
  destruct (last_such _ es (fun x => string_dec (type_ x) (type_ e)) Hex)
    as (pre & e' & post & E & Ht & Hpost).
  exists pre, e', post. auto.
Qed.

Lemma Forall2_details (es : list Entity) :
  Forall2 (fun e d => entity_details e = Ok d) es (map details_of es).
Proof.
  induction es as [|e es IH]; simpl; constructor; [apply entity_details_ok|exact IH].
Qed.

Lemma keys_sorted_result (es : list Entity) : keys_sorted (foldl place empty_sections es).
Proof. apply keys_sorted_foldl, keys_sorted_empty. Qed.

Lemma not_in_header (s : Sections) (k : string) :
  keys_sorted s -> bucket_of k <> Header -> header s !! k = None.
Proof.
  intros [Hh _] B. apply eq_None_not_Some. intros H. now apply B, Hh.
Qed.

Lemma not_in_footer (s : Sections) (k : string) :
  keys_sorted s -> bucket_of k <> Footer -> footer s !! k = None.
Proof.
  intros [_ Hf] B. apply eq_None_not_Some. intros H. now apply B, Hf.
Qed.

(** ** Routing (C1) *)

(** C1. For every sequence of entities the loop of the normalizer ends
    without an exception on a dict with its three sections, and:
    - the line items are the details of the entities of type "line_item", in
      input order, and neither map has the key "line_item";
    - at its iteration, an entity whose type is a header field is stored in
      the header map under its type, one of type "line_item" is appended to
      the line items, one whose type is a footer field is stored in the
      footer map under its type, and any other is stored in the header map
      under its type; the other two sections are left as they were;
    - in the result, the type of every entity that is not a line item is a
      key of the map it was routed to, held by an entity of that type, and is
      not a key of the other map. *)
Theorem normalizer_routes_by_type (es : list Entity) :
  exists inv s,
    structure_invoice es = Ok inv /\ sections_of inv = Some s /\
    Forall2 (fun e d => entity_details e = Ok d)
            (List.filter is_line_item es) (line_items s) /\
    header s !! "line_item" = None /\ footer s !! "line_item" = None /\
    (forall pre e post, es = pre ++ e :: post ->
       exists inv0 s0 inv1 s1 d,
         structure_invoice pre = Ok inv0 /\ sections_of inv0 = Some s0 /\
         classify_entity e inv0 = Ok inv1 /\ sections_of inv1 = Some s1 /\
         structure_entities post inv1 = Ok inv /\
         entity_details e = Ok d /\
         (In (type_ e) header_fields ->
            s1 = mkSections (<[type_ e := d]> (header s0)) (line_items s0) (footer s0)) /\
         (type_ e = "line_item" ->
            s1 = mkSections (header s0) (line_items s0 ++ [d]) (footer s0)) /\
         (In (type_ e) footer_fields ->
            s1 = mkSections (header s0) (line_items s0) (<[type_ e := d]> (footer s0))) /\
         (~ In (type_ e) header_fields -> type_ e <> "line_item" ->
          ~ In (type_ e) footer_fields ->
            s1 = mkSections (<[type_ e := d]> (header s0)) (line_items s0) (footer s0))) /\
    (forall e, In e es -> type_ e <> "line_item" ->
       exists e' d',
         In e' es /\ type_ e' = type_ e /\ entity_details e' = Ok d' /\
         (In (type_ e) footer_fields ->
            footer s !! type_ e = Some d' /\ header s !! type_ e = None) /\
         (~ In (type_ e) footer_fields ->
            header s !! type_ e = Some d' /\ footer s !! type_ e = None)).
Proof.
  exists (invoice_of (foldl place empty_sections es)), (foldl place empty_sections es).
  pose proof (keys_sorted_result es) as Hkeys.
  split; [apply structure_invoice_place|].
  split; [apply sections_of_invoice_of|].
  split; [rewrite foldl_place_line_items; apply Forall2_details|].
  split; [now apply not_in_header|].
  split; [now apply not_in_footer|].
  split.
  - intros pre e post ->.
    exists (invoice_of (foldl place empty_sections pre)), (foldl place empty_sections pre),
           (invoice_of (place (foldl place empty_sections pre) e)),
           (place (foldl place empty_sections pre) e), (details_of e).
    split; [apply structure_invoice_place|].
    split; [apply sections_of_invoice_of|].
    split; [apply classify_entity_place|].
    split; [apply sections_of_invoice_of|].
    split; [rewrite structure_entities_place, foldl_app; reflexivity|].
    split; [apply entity_details_ok|].
    unfold place. repeat split.
    + intros H. now rewrite (bucket_header _ H).
    + intros H. now rewrite (bucket_line_item _ H).
    + intros H. now rewrite (bucket_footer _ H).
    + intros Hh Hl Hf. now rewrite (bucket_other _ Hh Hl Hf).
  - intros e Hin Hl.
    destruct (last_of_type es e Hin) as (pre & e' & post & E & Ht & Hpost).
    exists e', (details_of e').
    split; [rewrite E; apply in_elt|].
    split; [exact Ht|].
    split; [apply entity_details_ok|].
    assert (Hnl : bucket_of (type_ e') <> LineItems).
    { intros B. apply bucket_LineItems_inv in B. congruence. }
    assert (Hpost' : Forall (fun x => type_ x <> type_ e') post) by now rewrite Ht.
    pose proof (foldl_place_last pre post e' empty_sections Hnl Hpost') as Hlast.
    rewrite <- E, Ht in Hlast. split.
    + intros Hf. rewrite (bucket_footer _ Hf) in Hlast. split; [exact Hlast|].
      apply not_in_header; [exact Hkeys|]. rewrite (bucket_footer _ Hf). discriminate.
    + intros Hf. destruct (bucket_of (type_ e)) eqn:B.
      * split; [exact Hlast|]. apply not_in_footer; [exact Hkeys|]. rewrite B. discriminate.
      * apply bucket_LineItems_inv in B. contradiction.
      * apply bucket_Footer_inv in B. contradiction.
Qed.

(** The example of the specification: one header field, one line item
    with one child, one footer field. *)
Example spec_end_to_end :
  exists inv,
    structure_invoice
      [ mkEntity "invoice_id" "INV-1" [];
        mkEntity "line_item" "Widget" [mkEntity "line_item/qty" "3" []];
        mkEntity "total_amount" "42.00" [] ]
    = Ok inv /\
    sections_of inv
    = Some (mkSections {["invoice_id" := mkDetails "INV-1" ∅]}
                       [mkDetails "Widget" {["qty" := "3"]}]
                       {["total_amount" := mkDetails "42.00" ∅]}).
Proof. eexists. split; [apply structure_invoice_place|reflexivity]. Qed.

(** ** Last write wins (C5) *)

(** C5. When two entities of the same type, not "line_item", occur in the
    input and no entity of that type follows the later one, the map that
    type is routed to holds, under that type, the details of the later
    entity alone (its value and its properties), and the other map has no
    such key. *)
Theorem later_entity_overwrites (pre mid post : list Entity) (e1 e2 : Entity) :
  type_ e1 = type_ e2 ->
  type_ e2 <> "line_item" ->
  Forall (fun x => type_ x <> type_ e2) post ->
  exists inv s d2,
    structure_invoice (pre ++ e1 :: mid ++ e2 :: post) = Ok inv /\
    sections_of inv = Some s /\
    entity_details e2 = Ok d2 /\
    (In (type_ e2) footer_fields ->
       footer s !! type_ e2 = Some d2 /\ header s !! type_ e2 = None) /\
    (~ In (type_ e2) footer_fields ->
       header s !! type_ e2 = Some d2 /\ footer s !! type_ e2 = None).
Proof.
  intros _ Hl Hpost.
  set (es := pre ++ e1 :: mid ++ e2 :: post).
  exists (invoice_of (foldl place empty_sections es)), (foldl place empty_sections es),
         (details_of e2).
  pose proof (keys_sorted_result es) as Hkeys.
  split; [apply structure_invoice_place|].
  split; [apply sections_of_invoice_of|].
  split; [apply entity_details_ok|].
  assert (Hnl : bucket_of (type_ e2) <> LineItems).
  { intros B. now apply bucket_LineItems_inv in B. }
  assert (E : es = (pre ++ e1 :: mid) ++ e2 :: post).
  { unfold es. now rewrite <- app_assoc. }
  pose proof (foldl_place_last (pre ++ e1 :: mid) post e2 empty_sections Hnl Hpost) as Hlast.
  rewrite <- E in Hlast. split.
  - intros Hf. rewrite (bucket_footer _ Hf) in Hlast. split; [exact Hlast|].
    apply not_in_header; [exact Hkeys|]. rewrite (bucket_footer _ Hf). discriminate.
  - intros Hf. destruct (bucket_of (type_ e2)) eqn:B.
    + split; [exact Hlast|]. apply not_in_footer; [exact Hkeys|]. rewrite B. discriminate.
    + congruence.
    + apply bucket_Footer_inv in B. contradiction.
Qed.

Lemma later_entity_overwrites_witness :
  exists inv s d2,
    structure_invoice
      ([] ++ Examples.invoice_a :: [Examples.widget] ++ Examples.invoice_b :: [Examples.total])
    = Ok inv /\
    sections_of inv = Some s /\
    entity_details Examples.invoice_b = Ok d2 /\
    (In (type_ Examples.invoice_b) footer_fields ->
       footer s !! type_ Examples.invoice_b = Some d2
       /\ header s !! type_ Examples.invoice_b = None) /\
    (~ In (type_ Examples.invoice_b) footer_fields ->
       header s !! type_ Examples.invoice_b = Some d2
       /\ footer s !! type_ Examples.invoice_b = None).
Proof.
  apply (later_entity_overwrites [] [Examples.widget] [Examples.total]
           Examples.invoice_a Examples.invoice_b).
  - reflexivity.
  - discriminate.
  - repeat constructor. discriminate.
Defined.

(** ** Flattening of the children (C6) *)

Lemma flat_props_snoc (cs : list Entity) (c : Entity) (acc : gmap string string) :
  flat_props (cs ++ [c]) acc
  = <[trailing_segment (type_ c) := mention_text c]> (flat_props cs acc).
Proof. unfold flat_props. now rewrite foldl_snoc. Qed.

Lemma flat_props_other (cs : list Entity) (acc : gmap string string) (k : string) :
  Forall (fun c => trailing_segment (type_ c) <> k) cs ->
  flat_props cs acc !! k = acc !! k.
Proof.
  revert acc. induction cs as [|c cs IH]; intros acc H; [reflexivity|].
  inversion H as [|? ? Hne Hrest]; subst. simpl.
  change (flat_props cs (<[trailing_segment (type_ c) := mention_text c]> acc) !! k
          = acc !! k).
  rewrite IH by exact Hrest. now rewrite lookup_insert_ne.
Qed.

Lemma flat_props_last (cs1 cs2 : list Entity) (c : Entity) (acc : gmap string string) :
  Forall (fun x => trailing_segment (type_ x) <> trailing_segment (type_ c)) cs2 ->
  flat_props (cs1 ++ c :: cs2) acc !! trailing_segment (type_ c)
  = Some (mention_text c).
Proof.
  intros H. unfold flat_props. rewrite foldl_app. simpl.
  fold (flat_props cs1 acc).
  fold (flat_props cs2 (<[trailing_segment (type_ c) := mention_text c]> (flat_props cs1 acc))).
  rewrite flat_props_other by exact H. apply lookup_insert_eq.
Qed.

Lemma flat_props_origin (cs : list Entity) (acc : gmap string string) (k v : string) :
  flat_props cs acc !! k = Some v ->
  acc !! k = Some v
  \/ exists c, In c cs /\ trailing_segment (type_ c) = k /\ mention_text c = v.
Proof.
  induction cs as [|c cs IH] using rev_ind; [now left|].
  rewrite flat_props_snoc. intros H.
  destruct (decide (trailing_segment (type_ c) = k)) as [E|Hne].
  - rewrite E, lookup_insert_eq in H. inversion H; subst. right.
    exists c. split; [apply in_or_app; right; now left|auto].
  - rewrite lookup_insert_ne in H by exact Hne.
    destruct (IH H) as [Ha|(c' & Hin & Hk & Hv)]; [now left|].
    right. exists c'. split; [apply in_or_app; now left|auto].
Qed.

Lemma flat_props_cut (cs : list Entity) (acc : gmap string string) :
  flat_props (map cut_child cs) acc = flat_props cs acc.
Proof.
  revert acc. induction cs as [|c cs IH]; intros acc; [reflexivity|].
  simpl. apply IH.
Qed.

Lemma flat_props_key (cs : list Entity) (c : Entity) (acc : gmap string string) :
  In c cs -> is_Some (flat_props cs acc !! trailing_segment (type_ c)).
Proof.
  intros Hin.
  assert (Hex : Exists (fun x => trailing_segment (type_ x) = trailing_segment (type_ c)) cs).
  { apply List.Exists_exists. exists c. auto. }
  destruct (last_such _ cs
              (fun x => string_dec (trailing_segment (type_ x)) (trailing_segment (type_ c)))
              Hex) as (pre & c' & post & -> & E & Hpost).
  rewrite <- E. rewrite flat_props_last; [eauto|].
  now rewrite E.
Qed.

(** C6, as the code has it. For every entity the details are built without
    an exception, hold the entity's text as value, and their properties map
    is made from the direct children alone:
    - every direct child contributes the key that is the last piece of its
      type split at "/": a piece without "/", equal to the type or preceded
      in it by a "/";
    - the value under a key is the text of the last direct child with that
      key: a later child with the same trailing segment overwrites an
      earlier one;
    - every entry of the map comes from a direct child;
    - cutting off the grandchildren changes nothing. *)
Theorem children_flattened_one_level (e : Entity) :
  exists d,
    entity_details e = Ok d /\
    value d = mention_text e /\
    (forall child, In child (properties e) ->
       exists k,
         PyStr.index_last (PyStr.split "/" (type_ child)) = Ok k /\
         contains "/" k = false /\
         (type_ child = k \/ exists pre, type_ child = (pre ++ String "/" k)%string) /\
         is_Some (props d !! k)) /\
    (forall cs1 child cs2 k,
       properties e = cs1 ++ child :: cs2 ->
       PyStr.index_last (PyStr.split "/" (type_ child)) = Ok k ->
       Forall (fun c => PyStr.index_last (PyStr.split "/" (type_ c)) <> Ok k) cs2 ->
       props d !! k = Some (mention_text child)) /\
    (forall k v, props d !! k = Some v ->
       exists child,
         In child (properties e) /\
         PyStr.index_last (PyStr.split "/" (type_ child)) = Ok k /\
         mention_text child = v) /\
    entity_details (cut_grandchildren e) = Ok d.
Proof.
  exists (details_of e).
  split; [apply entity_details_ok|].
  split; [reflexivity|].
  split; [|split; [|split]].
  - intros child Hin. exists (trailing_segment (type_ child)).
    split; [apply trailing_segment_ok|].
    destruct (last_split_spec "/" (type_ child)) as [Hc Hs].
    split; [exact Hc|]. split; [exact Hs|].
    simpl. now apply flat_props_key.
  - intros cs1 child cs2 k E Hk Hrest. simpl. rewrite E.
    rewrite trailing_segment_ok in Hk. inversion Hk; subst k.
    apply flat_props_last.
    eapply List.Forall_impl; [|exact Hrest]. simpl. intros c Hc Heq.
    apply Hc. rewrite trailing_segment_ok. now rewrite Heq.
  - intros k v H. simpl in H.
    destruct (flat_props_origin _ _ _ _ H) as [Ha|(c & Hin & Hk & Hv)].
    + rewrite lookup_empty in Ha. discriminate.
    + exists c. split; [exact Hin|]. split; [|exact Hv].
      rewrite trailing_segment_ok. now rewrite Hk.
  - rewrite entity_details_ok. unfold details_of, cut_grandchildren. simpl.
    now rewrite flat_props_cut.
Qed.

(** C6 as written fails: the first child of the example line item has the
    trailing segment "description" and the text "Widget", and the properties
    map holds "blue", the text of the second child, under that key. *)
Lemma child_text_overwritten :
  exists d child,
    entity_details Examples.widget = Ok d /\
    In child (properties Examples.widget) /\
    PyStr.index_last (PyStr.split "/" (type_ child)) = Ok "description" /\
    mention_text child = "Widget" /\
    props d !! "description" = Some "blue".
Proof.
  exists (details_of Examples.widget), (mkEntity "line_item/description" "Widget" []).
  split; [apply entity_details_ok|].
  split; [now left|].
  repeat split.
Qed.

(** ** The whole of STEP 5 *)

(** STEP 5 never raises: it returns the sections of the loop with the
    identifier drawn, and leaves a world that differs in the draw count. *)
Lemma step5_structure_run (doc : Document) (w : World) :
  Rawcod.step5_structure doc w
  = (Ok (add_transaction_id (uuid_source w (uuid_draws w))
           (invoice_of (foldl place empty_sections (entities doc))),
         uuid_source w (uuid_draws w)),
     set_uuid_draws (S (uuid_draws w)) w).
Proof.
  unfold Rawcod.step5_structure, bind, lift, uuid4, ret.
  now rewrite structure_invoice_place.
Qed.

Lemma sections_of_add_transaction_id (tid : string) (s : Sections) :
  sections_of (add_transaction_id tid (invoice_of s)) = Some s.
Proof. destruct s as [h l f]. reflexivity. Qed.

Lemma dom_add_transaction_id (tid : string) (s : Sections) :
  dom (add_transaction_id tid (invoice_of s))
  = ({["header"; "line_items"; "footer"; "transaction_id"]} : gset string).
Proof.
  unfold add_transaction_id, invoice_of.
  rewrite !dom_insert_L, dom_empty_L. set_solver.
Qed.

(** ** Each entity in one section (C10) *)

(** C10, as the code has it. For every document STEP 5 returns a dict with
    exactly the four keys header, line_items, footer and transaction_id, and
    for every entity of the input, with its details [d]:
    - a line item is in the list of line items, and its type is a key of
      neither map; the list has one element per line item of the input;
    - an entity of a footer type has its type as a key of the footer map and
      not of the header map; the key holds [d] when no entity of the same
      type follows;
    - any other entity has its type as a key of the header map and not of the
      footer map; the key holds [d] when no entity of the same type follows.
    An entity of a header or footer type that is followed by another of the
    same type is overwritten by it. *)
Theorem each_entity_in_one_section (doc : Document) (w : World) :
  exists inv tid s w',
    Rawcod.step5_structure doc w = (Ok (inv, tid), w') /\
    dom inv = ({["header"; "line_items"; "footer"; "transaction_id"]} : gset string) /\
    inv !! "transaction_id" = Some (FStr tid) /\
    sections_of inv = Some s /\
    length (line_items s) = length (List.filter is_line_item (entities doc)) /\
    (forall pre e post, entities doc = pre ++ e :: post ->
       exists d,
         entity_details e = Ok d /\
         (type_ e = "line_item" ->
            In d (line_items s) /\
            header s !! type_ e = None /\ footer s !! type_ e = None) /\
         (In (type_ e) footer_fields ->
            is_Some (footer s !! type_ e) /\ header s !! type_ e = None /\
            (Forall (fun x => type_ x <> type_ e) post -> footer s !! type_ e = Some d)) /\
         (type_ e <> "line_item" -> ~ In (type_ e) footer_fields ->
            is_Some (header s !! type_ e) /\ footer s !! type_ e = None /\
            (Forall (fun x => type_ x <> type_ e) post -> header s !! type_ e = Some d))).
Proof.
  set (s := foldl place empty_sections (entities doc)).
  exists (add_transaction_id (uuid_source w (uuid_draws w)) (invoice_of s)),
         (uuid_source w (uuid_draws w)), s, (set_uuid_draws (S (uuid_draws w)) w).
  pose proof (keys_sorted_result (entities doc)) as Hkeys. fold s in Hkeys.
  split; [apply step5_structure_run|].
  split; [apply dom_add_transaction_id|].
  split; [reflexivity|].
  split; [apply sections_of_add_transaction_id|].
  split.
  { unfold s. rewrite foldl_place_line_items. simpl. now rewrite length_map. }
  intros pre e post E. exists (details_of e).
  split; [apply entity_details_ok|].
  assert (Hin : In e (entities doc)) by (rewrite E; apply in_elt).
  assert (Hsome : bucket_of (type_ e) <> LineItems ->
                  is_Some (map_of (bucket_of (type_ e)) s !! type_ e)).
  { intros Hnl.
    destruct (last_of_type _ _ Hin) as (pre' & e' & post' & E' & Ht & Hpost').
    assert (Hnl' : bucket_of (type_ e') <> LineItems) by now rewrite Ht.
    assert (Hp : Forall (fun x => type_ x <> type_ e') post') by now rewrite Ht.
    pose proof (foldl_place_last pre' post' e' empty_sections Hnl' Hp) as Hlast.
    rewrite <- E', Ht in Hlast. fold s in Hlast. rewrite Hlast. eauto. }
  assert (Hlast : bucket_of (type_ e) <> LineItems ->
                  Forall (fun x => type_ x <> type_ e) post ->
                  map_of (bucket_of (type_ e)) s !! type_ e = Some (details_of e)).
  { intros Hnl Hpost. unfold s. rewrite E. now apply foldl_place_last. }
  split; [|split].
  - intros Hl. split; [|split].
    + unfold s. rewrite foldl_place_line_items. simpl.
      apply in_map, filter_In. split; [exact Hin|].
      unfold is_line_item. rewrite Hl. reflexivity.
    + apply not_in_header; [exact Hkeys|]. rewrite (bucket_line_item _ Hl). discriminate.
    + apply not_in_footer; [exact Hkeys|]. rewrite (bucket_line_item _ Hl). discriminate.
  - intros Hf. rewrite (bucket_footer _ Hf) in Hsome, Hlast. split; [|split].
    + apply Hsome. discriminate.
    + apply not_in_header; [exact Hkeys|]. rewrite (bucket_footer _ Hf). discriminate.
    + intros Hpost. apply Hlast; [discriminate|exact Hpost].
  - intros Hl Hf.
    assert (B : bucket_of (type_ e) = Header).
    { destruct (bucket_of (type_ e)) eqn:B; [reflexivity| |].
      - apply bucket_LineItems_inv in B. contradiction.
      - apply bucket_Footer_inv in B. contradiction. }
    rewrite B in Hsome, Hlast. split; [|split].
    + apply Hsome. discriminate.
    + apply not_in_footer; [exact Hkeys|]. rewrite B. discriminate.
    + intros Hpost. apply Hlast; [discriminate|exact Hpost].
Qed.

(** C10 as written fails: of two entities of type "invoice_id" the result
    holds the second under that key and nothing else, so the first occurs in
    no section. *)
Lemma earlier_entity_dropped :
  exists inv tid s w' d,
    Rawcod.step5_structure
      (mkDocument "" [Examples.invoice_a; Examples.invoice_b])
      (Examples.blank_world "u-1")
    = (Ok (inv, tid), w') /\
    sections_of inv = Some s /\
    In Examples.invoice_a [Examples.invoice_a; Examples.invoice_b] /\
    entity_details Examples.invoice_a = Ok d /\
    header s = {["invoice_id" := mkDetails "INV-2" ∅]} /\
    line_items s = [] /\
    footer s = ∅ /\
    ~ occurs d s.
Proof.
  eexists _, _, _, _, _.
  split; [apply step5_structure_run|].
  split; [apply sections_of_add_transaction_id|].
  split; [now left|].
  split; [apply entity_details_ok|].
  split; [reflexivity|]. split; [reflexivity|]. split; [reflexivity|].
  intros [[k Hk]|[Hl|[k Hk]]].
  - simpl in Hk. destruct (decide ("invoice_id" = k)) as [<-|Hne].
    + vm_compute in Hk. discriminate.
    + rewrite !lookup_insert_ne, lookup_empty in Hk by exact Hne. discriminate.
  - destruct Hl.
  - simpl in Hk. rewrite lookup_empty in Hk. discriminate.
Qed.

(** ** Two invocations (C7) *)

Lemma serial_inj (i j : nat) : Examples.serial i = Examples.serial j -> i = j.
Proof.
  unfold Examples.serial. intros H. apply (f_equal (PyStr.drop 3)) in H.
  change (pretty i = pretty j) in H. exact (pretty_nat_inj _ _ H).
Qed.



(** ** Processor identifier (C4) *)

Lemma truthy_iff (v : string) : PyStr.truthy v = true <-> v <> "".
Proof. destruct v; simpl; split; congruence. Qed.

Lemma truthy_false_iff (v : string) : PyStr.truthy v = false <-> v = "".
Proof. destruct v; simpl; split; congruence. Qed.

Lemma processor_id_from_file_run (X : Externals) (tag : string) (w : World) :
  fst (Config.processor_id_from_file X tag w)
  = match fs w !! Config.PROCESSOR_ID_PATH X with
    | None => Raise (Config.processor_id_not_found X)
    | Some (Dir _) =>
        Raise (OSError ("Is a directory: " ++ Config.PROCESSOR_ID_PATH X))
    | Some (File content) =>
        if PyStr.truthy (PyStr.strip content) then Ok (PyStr.strip content)
        else Raise (Config.processor_id_not_found X)
    end.
Proof.
  unfold Config.processor_id_from_file, bind, path_exists, read_file, print, ret, raise.
  destruct (fs w !! Config.PROCESSOR_ID_PATH X) as [[content|entries]|] eqn:E;
    simpl; rewrite ?E; simpl.
  - destruct (PyStr.truthy (PyStr.strip content)); reflexivity.
  - reflexivity.
  - reflexivity.
Qed.

Lemma load_processor_id_run (X : Externals) (tag : string) (w : World) :
  fst (Config.load_processor_id X tag w)
  = match environ w !! "DOCAI_PROCESSOR_ID" with
    | Some env_id =>
        if PyStr.truthy env_id then Ok (PyStr.strip env_id)
        else fst (Config.processor_id_from_file X tag w)
    | None => fst (Config.processor_id_from_file X tag w)
    end.
Proof.
  unfold Config.load_processor_id, bind, getenv, print, ret.
  destruct (environ w !! "DOCAI_PROCESSOR_ID") as [v|]; [|reflexivity].
  destruct (PyStr.truthy v); reflexivity.
Qed.

(** C4, as the code has it. When the environment variable is not a
    non-empty string of blanks alone:
    - set to a non-empty string, [load_processor_id] returns its value
      trimmed;
    - unset or empty, it returns the trimmed content of the fallback file
      when that is a file whose trimmed content is not empty;
    - it raises the missing-processor-id error exactly when the variable is
      unset or empty and the fallback file is absent or holds only blanks. *)
Theorem load_processor_id_resolution (X : Externals) (tag : string) (w : World) :
  (forall v, environ w !! "DOCAI_PROCESSOR_ID" = Some v -> v <> "" -> PyStr.strip v <> "") ->
  (forall v, environ w !! "DOCAI_PROCESSOR_ID" = Some v -> v <> "" ->
     fst (Config.load_processor_id X tag w) = Ok (PyStr.strip v)) /\
  (environ w !! "DOCAI_PROCESSOR_ID" = None \/ environ w !! "DOCAI_PROCESSOR_ID" = Some "" ->
   forall content,
     fs w !! Config.PROCESSOR_ID_PATH X = Some (File content) ->
     PyStr.strip content <> "" ->
     fst (Config.load_processor_id X tag w) = Ok (PyStr.strip content)) /\
  (fst (Config.load_processor_id X tag w) = Raise (Config.processor_id_not_found X)
   <-> (environ w !! "DOCAI_PROCESSOR_ID" = None
        \/ environ w !! "DOCAI_PROCESSOR_ID" = Some "")
       /\ (fs w !! Config.PROCESSOR_ID_PATH X = None
           \/ exists content,
                fs w !! Config.PROCESSOR_ID_PATH X = Some (File content)
                /\ PyStr.strip content = "")).
Proof.
  intros _.
  rewrite load_processor_id_run, processor_id_from_file_run.
  split; [|split].
  - intros v -> Hv. apply truthy_iff in Hv. now rewrite Hv.
  - intros Henv content -> Hc. apply truthy_iff in Hc. rewrite Hc.
    destruct Henv as [->| ->]; reflexivity.
  - destruct (environ w !! "DOCAI_PROCESSOR_ID") as [v|] eqn:Ev.
    + destruct (PyStr.truthy v) eqn:Tv.
      * split; [discriminate|]. intros [[H|H] _]; [discriminate|].
        inversion H; subst. discriminate.
      * apply truthy_false_iff in Tv. subst v.
        destruct (fs w !! Config.PROCESSOR_ID_PATH X) as [[content|entries]|].
        -- destruct (PyStr.truthy (PyStr.strip content)) eqn:Tc.
           ++ split; [discriminate|]. intros [_ [H|(c & H & Hc)]]; [discriminate|].
              inversion H; subst. rewrite Hc in Tc. discriminate.
           ++ apply truthy_false_iff in Tc. split; [|reflexivity].
              intros _. split; [now right|]. right. eauto.
        -- split; [discriminate|]. intros [_ [H|(c & H & _)]]; discriminate.
        -- split; [|reflexivity]. intros _. split; [now right|now left].
    + destruct (fs w !! Config.PROCESSOR_ID_PATH X) as [[content|entries]|].
      * destruct (PyStr.truthy (PyStr.strip content)) eqn:Tc.
        -- split; [discriminate|]. intros [_ [H|(c & H & Hc)]]; [discriminate|].
           inversion H; subst. rewrite Hc in Tc. discriminate.
        -- apply truthy_false_iff in Tc. split; [|reflexivity].
           intros _. split; [now left|]. right. eauto.
      * split; [discriminate|]. intros [_ [H|(c & H & _)]]; discriminate.
      * split; [|reflexivity]. intros _. split; [now left|now left].
Qed.

Lemma load_processor_id_resolution_witness :
  (forall v, environ Examples.padded_env_world !! "DOCAI_PROCESSOR_ID" = Some v ->
     v <> "" ->
     fst (Config.load_processor_id Examples.externals "[OCR]" Examples.padded_env_world)
     = Ok (PyStr.strip v)) /\
  (environ Examples.padded_env_world !! "DOCAI_PROCESSOR_ID" = None
   \/ environ Examples.padded_env_world !! "DOCAI_PROCESSOR_ID" = Some "" ->
   forall content,
     fs Examples.padded_env_world !! Config.PROCESSOR_ID_PATH Examples.externals
     = Some (File content) ->
     PyStr.strip content <> "" ->
     fst (Config.load_processor_id Examples.externals "[OCR]" Examples.padded_env_world)
     = Ok (PyStr.strip content)) /\
  (fst (Config.load_processor_id Examples.externals "[OCR]" Examples.padded_env_world)
   = Raise (Config.processor_id_not_found Examples.externals)
   <-> (environ Examples.padded_env_world !! "DOCAI_PROCESSOR_ID" = None
        \/ environ Examples.padded_env_world !! "DOCAI_PROCESSOR_ID" = Some "")
       /\ (fs Examples.padded_env_world !! Config.PROCESSOR_ID_PATH Examples.externals = None
           \/ exists content,
                fs Examples.padded_env_world !! Config.PROCESSOR_ID_PATH Examples.externals
                = Some (File content)
                /\ PyStr.strip content = "")).
Proof.
  apply (load_processor_id_resolution Examples.externals "[OCR]" Examples.padded_env_world).
  intros v Hv _. vm_compute in Hv. inversion Hv; subst v. vm_compute. discriminate.
Defined.

(** C4 as written fails: with the variable set to " proc-1 " the function
    returns "proc-1", not the value of the variable. *)
Lemma env_value_is_trimmed :
  environ Examples.padded_env_world !! "DOCAI_PROCESSOR_ID" = Some " proc-1 " /\
  fst (Rawcod.load_processor_id Examples.externals Examples.padded_env_world) = Ok "proc-1" /\
  fst (ProcessService.load_processor_id Examples.externals Examples.padded_env_world)
  = Ok "proc-1".
Proof. repeat split. Qed.

(** The blanks trimmed are those of [str.strip]: a no-break space (U+00A0)
    or a NEL (U+0085) around the value of the variable is removed like a
    space, and a fallback file that holds a no-break space and a line feed
    holds no identifier. *)
Lemma no_break_space_is_blank :
  fst (Config.load_processor_id Examples.externals "[OCR]"
         (mkWorld {["DOCAI_PROCESSOR_ID" :=
                      String (ascii_of_nat 160)
                        ("proc-1" ++ String (ascii_of_nat 133) EmptyString)]}
                  ∅ [] [] [] [] [] (fun _ => "u-1") 0))
  = Ok "proc-1" /\
  fst (Config.load_processor_id Examples.externals "[OCR]"
         (mkWorld ∅
                  {["/srv/docai/docai_processor_id.txt" :=
                      File (String (ascii_of_nat 160)
                              (String (ascii_of_nat 10) EmptyString))]}
                  [] [] [] [] [] (fun _ => "u-1") 0))
  = Raise (Config.processor_id_not_found Examples.externals).
Proof. split; vm_compute; reflexivity. Qed.

(** ** Top-level error handling (C3) *)

(** X3. The first [try] of [main] turns every [RuntimeError] of the
    resolver into the exit code 1 and a log line tagged FATAL. *)
Lemma resolve_or_exit_runtime_error (X : Externals) (tag : string) (w w' : World)
    (msg : string) :
  Config.resolve X tag w = (Raise (RuntimeError msg), w') ->
  Config.resolve_or_exit X tag w
  = (Ok (inl 1%Z), set_stdout (stdout w' ++ [(tag ++ " [FATAL] " ++ msg)%string]) w').
Proof.
  intros H. unfold Config.resolve_or_exit, try_except, bind.
  rewrite H. reflexivity.
Qed.

(** Any other exception of the resolver leaves the [try] as it is. *)
Lemma resolve_or_exit_other_error (X : Externals) (tag : string) (w w' : World) (e : exn) :
  Config.resolve X tag w = (Raise e, w') ->
  is_RuntimeError e = false ->
  Config.resolve_or_exit X tag w = (Raise e, w').
Proof.
  intros H He. unfold Config.resolve_or_exit, try_except, bind.
  rewrite H, He. reflexivity.
Qed.

(** C3 fails on the code: with a credential file that parses and has no
    project_id, [load_project_id] raises [ValueError], the handler of [main]
    takes [RuntimeError] only, and [main] of either driver ends by that
    exception instead of returning 1. *)
Theorem missing_project_id_escapes_main :
  fst (Rawcod.main Examples.externals Examples.no_project_id_world)
  = Raise (ValueError "project_id not found in credentials file") /\
  fst (ProcessService.main Examples.externals Examples.no_project_id_world)
  = Raise (ValueError "project_id not found in credentials file").
Proof. split; vm_compute; reflexivity. Qed.

(** ** The batch loop (C8) *)

Lemma read_file_world (path : string) (w : World) : snd (read_file path w) = w.
Proof. unfold read_file. destruct (fs w !! path) as [[c|es]|]; reflexivity. Qed.

Lemma mkdir_effect (dir : string) (w : World) :
  submitted (snd (mkdir dir w)) = submitted w
  /\ written (snd (mkdir dir w)) = written w.
Proof. unfold mkdir. destruct (fs w !! dir) as [[c|es]|]; auto. Qed.

Lemma write_file_effect (path : Pathlib.Path) (data : string) (w : World) :
  submitted (snd (write_file path data w)) = submitted w
  /\ match fst (write_file path data w) with
     | Ok _ => written (snd (write_file path data w))
               = written w ++ [(Pathlib.to_str path, data)]
     | Raise _ => written (snd (write_file path data w)) = written w
     end.
Proof.
  unfold write_file. cbv zeta.
  destruct (fs w !! Pathlib.parent path) as [[c|es]|]; simpl; auto.
  destruct (fs w !! Pathlib.to_str path) as [[c'|es']|]; simpl; auto.
Qed.

(** What a call of [process_file] does to the processor and the output
    directory: on return, one request submitted and one file written; on an
    exception, no file written and at most one request submitted. *)
Lemma process_file_effect (X : Externals) (name : string) (path : Pathlib.Path)
    (w w' : World) (r : result Pathlib.Path) :
  ProcessService.process_file X name path w = (r, w') ->
  match r with
  | Ok out_path =>
      out_path = Pathlib.join (ProcessService.OUTPUT_DIR X)
                   (Pathlib.stem path ++ "_processed.json")
      /\ exists content document,
           submitted w' = submitted w
             ++ [mkRequest name content (ProcessService.get_mime_type path)]
           /\ written w' = written w
                ++ [(Pathlib.to_str out_path, message_to_json X document)]
  | Raise _ =>
      written w' = written w
      /\ (submitted w' = submitted w
          \/ exists content,
               submitted w' = submitted w
                 ++ [mkRequest name content (ProcessService.get_mime_type path)])
  end.
Proof.
  unfold ProcessService.process_file, bind.
  pose proof (read_file_world (Pathlib.to_str path) w) as Hread.
  destruct (read_file (Pathlib.to_str path) w) as [[content|e] w0]; simpl in Hread; subst w0.
  2:{ intros H. inversion H; subst. auto. }
  unfold call_process_document.
  destruct (process_document X (submitted w)
              (mkRequest name content (ProcessService.get_mime_type path)))
    as [document|e].
  2:{ intros H. inversion H; subst. simpl. split; [reflexivity|]. right. eauto. }
  set (w1 := set_submitted _ w).
  pose proof (mkdir_effect (ProcessService.OUTPUT_DIR X) w1) as [Hs2 Hw2].
  destruct (mkdir (ProcessService.OUTPUT_DIR X) w1) as [[[]|e] w2]; simpl in Hs2, Hw2.
  2:{ intros H. inversion H; subst. rewrite Hs2, Hw2. simpl.
      split; [reflexivity|]. right. eauto. }
  set (out := Pathlib.join _ _).
  pose proof (write_file_effect out (message_to_json X document) w2) as [Hs3 Hw3].
  destruct (write_file out (message_to_json X document) w2) as [[[]|e] w3];
    simpl in Hs3, Hw3; unfold ret; intros H; inversion H; subst.
  - split; [reflexivity|]. exists content, document.
    rewrite Hs3, Hs2, Hw3, Hw2. simpl. auto.
  - rewrite Hs3, Hs2, Hw3, Hw2. simpl. split; [reflexivity|]. right. eauto.
Qed.

Lemma process_one_ok (X : Externals) (name : string) (path out_path : Pathlib.Path)
    (w w' : World) :
  ProcessService.process_file X name path w = (Ok out_path, w') ->
  exists line,
    ProcessService.process_one X name path w
    = (Ok None, set_stdout (stdout w' ++ [line]) w').
Proof.
  intros H. unfold ProcessService.process_one, try_except, bind.
  rewrite H. simpl. eexists. reflexivity.
Qed.

Lemma process_one_raise (X : Externals) (name : string) (path : Pathlib.Path)
    (w w' : World) (e : exn) :
  ProcessService.process_file X name path w = (Raise e, w') ->
  ProcessService.process_one X name path w
  = (Ok (Some 1%Z),
     set_stdout (stdout w' ++ [("[ERROR] Failed to process " ++ Pathlib.name path ++ ": "
                                  ++ exn_message e)%string]) w').
Proof.
  intros H. unfold ProcessService.process_one, try_except, bind.
  rewrite H. reflexivity.
Qed.

(** An iteration that goes on to the next file has submitted one request
    and written one file. *)
Lemma process_one_continue (X : Externals) (name : string) (path : Pathlib.Path)
    (w w' : World) :
  ProcessService.process_one X name path w = (Ok None, w') ->
  length (submitted w') = S (length (submitted w))
  /\ length (written w') = S (length (written w)).
Proof.
  destruct (ProcessService.process_file X name path w) as [[out|e] w1] eqn:E.
  - destruct (process_one_ok _ _ _ _ _ _ E) as [line ->].
    intros H. inversion H; subst. simpl.
    destruct (process_file_effect _ _ _ _ _ _ E) as [_ (c & d & -> & ->)].
    rewrite !length_app. simpl. lia.
  - rewrite (process_one_raise _ _ _ _ _ _ E). discriminate.
Qed.

Lemma succeed_all_counts (X : Externals) (name : string) (files : list Pathlib.Path)
    (w w' : World) :
  succeed_all X name files w = Some w' ->
  length (submitted w') = length (submitted w) + length files
  /\ length (written w') = length (written w) + length files.
Proof.
  revert w. induction files as [|p files IH]; intros w; simpl.
  - intros H. inversion H; subst. lia.
  - destruct (ProcessService.process_one X name p w) as [[[c|]|e] w1] eqn:E;
      try discriminate.
    intros H. destruct (IH _ H) as [-> ->].
    destruct (process_one_continue _ _ _ _ _ E) as [-> ->]. lia.
Qed.

Lemma process_files_app (X : Externals) (name : string) (pre rest : list Pathlib.Path)
    (w w1 : World) :
  succeed_all X name pre w = Some w1 ->
  ProcessService.process_files X name (pre ++ rest) w
  = ProcessService.process_files X name rest w1.
Proof.
  revert w. induction pre as [|p pre IH]; intros w; simpl.
  - intros H. now inversion H.
  - unfold bind at 1.
    destruct (ProcessService.process_one X name p w) as [[[c|]|e] w0] eqn:E;
      try discriminate.
    apply IH.
Qed.

(** C8. When the files before [path] in the enumeration are processed
    without failure and processing [path] fails, the run ends there with
    the exit code 1: the world it leaves is the one of the failed call plus
    the error line, whatever files follow.  One file was written per file
    before [path] and none for [path] or a later file; one request was
    submitted per file before [path], at most one for [path], and none for a
    later file. *)
Theorem batch_stops_at_first_failure (X : Externals) (name : string)
    (pre post : list Pathlib.Path) (path : Pathlib.Path) (w w1 w2 : World) (e : exn) :
  succeed_all X name pre w = Some w1 ->
  ProcessService.process_file X name path w1 = (Raise e, w2) ->
  exists w',
    ProcessService.process_files X name (pre ++ path :: post) w = (Ok 1%Z, w') /\
    (forall post', ProcessService.process_files X name (pre ++ path :: post') w
                   = (Ok 1%Z, w')) /\
    fs w' = fs w2 /\ submitted w' = submitted w2 /\ written w' = written w2 /\
    length (written w') = length (written w) + length pre /\
    length (submitted w) + length pre <= length (submitted w')
      <= length (submitted w) + length pre + 1.
Proof.
  intros Hpre Hfail.
  pose proof (process_one_raise _ _ _ _ _ _ Hfail) as Hone.
  assert (Hrun : forall rest,
            ProcessService.process_files X name (pre ++ path :: rest) w
            = (Ok 1%Z,
               set_stdout (stdout w2 ++ [("[ERROR] Failed to process "
                                            ++ Pathlib.name path ++ ": "
                                            ++ exn_message e)%string]) w2)).
  { intros rest. rewrite (process_files_app _ _ _ _ _ _ Hpre). simpl.
    unfold bind at 1. rewrite Hone. reflexivity. }
  eexists. split; [apply Hrun|]. split; [exact Hrun|]. simpl.
  destruct (succeed_all_counts _ _ _ _ _ Hpre) as [Hs Hw].
  destruct (process_file_effect _ _ _ _ _ _ Hfail) as [Hw2 Hs2].
  repeat split; try reflexivity.
  - rewrite Hw2. exact Hw.
  - destruct Hs2 as [->|(c & ->)]; rewrite ?length_app; simpl; lia.
  - destruct Hs2 as [->|(c & ->)]; rewrite ?length_app; simpl; lia.
Qed.

Lemma batch_stops_at_first_failure_witness :
  exists w',
    ProcessService.process_files Examples.externals "projects/p/locations/us/processors/x"
      [Examples.file_a; Examples.file_b; Examples.file_c] Examples.batch_world
    = (Ok 1%Z, w') /\
    length (written w') = 1 /\
    1 <= length (submitted w') <= 2.
Proof.
  edestruct (batch_stops_at_first_failure Examples.externals
               "projects/p/locations/us/processors/x"
               [Examples.file_a] [Examples.file_c] Examples.file_b Examples.batch_world)
    as (w' & Hrun & _ & _ & _ & _ & Hw & Hs).
  - vm_compute. reflexivity.
  - vm_compute. reflexivity.
  - exists w'. split; [exact Hrun|]. split; [exact Hw|exact Hs].
Defined.

Lemma supported_files_run (entries : list Pathlib.Path) (w : World) :
  ProcessService.supported_files entries w
  = (Ok (List.filter (is_supported w) entries), w).
Proof.
  induction entries as [|p entries IH]; [reflexivity|].
  simpl. unfold bind, is_file. rewrite IH. unfold is_supported.
  destruct (fs w !! Pathlib.to_str p) as [[c|es]|]; simpl; try reflexivity.
  destruct (String.eqb (ProcessService.get_mime_type p) "application/octet-stream");
    reflexivity.
Qed.

(** A configured batch run whose input directory holds a supported file is
    the loop over the supported regular files of the directory, in the
    order of the enumeration. *)
Lemma main_runs_loop (X : Externals) (w w1 : World) (project_id : Json.Json)
    (processor_id location : string) (names : list string) :
  Config.resolve_or_exit X "[DOCAI]" (after_banner w)
  = (Ok (inr (project_id, processor_id, location)), w1) ->
  new_client X = Ok tt ->
  fs w1 !! ProcessService.INPUT_DIR X = Some (Dir names) ->
  List.filter (is_supported w1) (map (Pathlib.join (ProcessService.INPUT_DIR X)) names)
  <> [] ->
  exists w2,
    fs w2 = fs w1 /\ submitted w2 = submitted w1 /\ written w2 = written w1 /\
    ProcessService.main X w
    = ProcessService.process_files X
        (Rawcod.processor_path X project_id location processor_id)
        (List.filter (is_supported w1)
           (map (Pathlib.join (ProcessService.INPUT_DIR X)) names))
        w2.
Proof.
  intros Hcfg Hclient Hdir Hfiles.
  set (name := Rawcod.processor_path X project_id location processor_id).
  exists (set_stdout (stdout w1 ++ [("[DOCAI] Using processor: " ++ name)%string]) w1).
  split; [reflexivity|]. split; [reflexivity|]. split; [reflexivity|].
  cbv beta iota delta [after_banner bind print snd] in Hcfg.
  cbv beta iota delta [ProcessService.main bind print].
  rewrite Hcfg. unfold lift. rewrite Hclient. fold name.
  unfold path_exists, iterdir.
  change (fs (set_stdout (stdout w1 ++ [("[DOCAI] Using processor: " ++ name)%string]) w1))
    with (fs w1).
  rewrite Hdir. simpl. rewrite Hdir, supported_files_run.
  change (is_supported (set_stdout (stdout w1 ++ [("[DOCAI] Using processor: " ++ name)%string]) w1))
    with (is_supported w1).
  destruct (List.filter (is_supported w1)
              (map (Pathlib.join (ProcessService.INPUT_DIR X)) names)) as [|p ps];
    [congruence|reflexivity].
Qed.

(** The same run from [main]: the batch of the example ends with the exit
    code 1 after the second file; the first file alone was written and the
    third was never submitted. *)
Lemma batch_main_example :
  fst (ProcessService.main Examples.externals Examples.batch_world) = Ok 1%Z /\
  map fst (written (snd (ProcessService.main Examples.externals Examples.batch_world)))
  = ["/srv/docai/output/a_processed.json"] /\
  map req_content
      (submitted (snd (ProcessService.main Examples.externals Examples.batch_world)))
  = ["%PDF-a"; "corrupt"].
Proof. repeat split; vm_compute; reflexivity. Qed.

(** ** MIME classifier (C2, C9) *)

(** C2 fails on the code: [rawcod.get_mime_type] takes a name without a dot
    whole as its extension, so a file named "pdf" or "PNG", which has no
    extension, is classified as a PDF or a PNG image instead of the
    sentinel; [main] then submits the file "pdf" to the processor as
    application/pdf and ends with the exit code 0. *)
Theorem dotless_name_taken_as_extension :
  Rawcod.get_mime_type "pdf" = Ok "application/pdf" /\
  Rawcod.get_mime_type "PNG" = Ok "image/png" /\
  fst (Rawcod.main Examples.externals Examples.dotless_file_world) = Ok 0%Z /\
  submitted (snd (Rawcod.main Examples.externals Examples.dotless_file_world))
  = [mkRequest "projects/demo/locations/us/processors/proc-1"
               "notes, not a PDF" "application/pdf"].
Proof. repeat split; vm_compute; reflexivity. Qed.

(** C9 fails on the code: on the file name "pdf" the single-file script
    answers "application/pdf" and the batch script the sentinel; likewise on
    ".pdf", a name whose only dot comes first. *)
Theorem classifiers_differ_on_dotless_name :
  Rawcod.get_mime_type "pdf" = Ok "application/pdf" /\
  ProcessService.get_mime_type (Pathlib.mkPath "/srv/docai/input" "pdf")
  = "application/octet-stream" /\
  Rawcod.get_mime_type ".pdf" = Ok "application/pdf" /\
  ProcessService.get_mime_type (Pathlib.mkPath "/srv/docai/input" ".pdf")
  = "application/octet-stream".
Proof. repeat split. Qed.

(** ** What the two classifiers do agree on *)

(** X2. [rawcod.get_mime_type] returns a MIME type for every string: the
    index [-1] is never out of range. *)
Lemma get_mime_type_total (file_path : string) :
  exists mime, Rawcod.get_mime_type file_path = Ok mime.
Proof.
  unfold Rawcod.get_mime_type. rewrite index_last_split, result_bind_Ok.
  eexists. reflexivity.
Qed.

Lemma mime_tables_equal : Rawcod.mime_types = ProcessService.mime_map.
Proof. vm_compute. reflexivity. Qed.

Lemma lower_app (a b : string) :
  PyStr.lower (a ++ b) = (PyStr.lower a ++ PyStr.lower b)%string.
Proof. induction a as [|c a IH]; simpl; [reflexivity|now rewrite IH]. Qed.

Lemma lower_char_dot (c : ascii) :
  Ascii.eqb (PyStr.lower_char c) "." = Ascii.eqb c ".".
Proof. destruct c as [[] [] [] [] [] [] [] []]; reflexivity. Qed.

Lemma contains_dot_lower (s : string) :
  contains "." (PyStr.lower s) = contains "." s.
Proof.
  induction s as [|c s IH]; simpl; [reflexivity|].
  now rewrite lower_char_dot, IH.
Qed.

Lemma length_lower (s : string) : String.length (PyStr.lower s) = String.length s.
Proof. induction s as [|c s IH]; simpl; [reflexivity|now rewrite IH]. Qed.

Lemma split_no_sep (sep : ascii) (s : string) :
  contains sep s = false -> PyStr.split sep s = [s].
Proof.
  induction s as [|c s IH]; simpl; [reflexivity|].
  destruct (Ascii.eqb c sep); [discriminate|]. simpl.
  intros H. now rewrite IH.
Qed.

Lemma split_two_pieces (sep : ascii) (a b : string) :
  exists w ws, PyStr.split sep (a ++ String sep b) = w :: ws /\ ws <> [].
Proof.
  induction a as [|c a (w & ws & E & Hnn)]; simpl.
  - rewrite Ascii.eqb_refl. pose proof (split_not_nil sep b).
    exists EmptyString, (PyStr.split sep b). auto.
  - rewrite E. destruct (Ascii.eqb c sep).
    + exists EmptyString, (w :: ws). split; [reflexivity|discriminate].
    + exists (String c w), ws. auto.
Qed.

(** After the last separator comes the last piece. *)
Lemma last_split_app (sep : ascii) (a b : string) :
  contains sep b = false ->
  List.last (PyStr.split sep (a ++ String sep b)) EmptyString = b.
Proof.
  intros Hb. induction a as [|c a IH].
  - simpl. rewrite Ascii.eqb_refl, (split_no_sep _ _ Hb). reflexivity.
  - destruct (split_two_pieces sep a b) as (w & ws & E & Hnn).
    change (String c a ++ String sep b)%string with (String c (a ++ String sep b)).
    simpl. rewrite E in *. destruct (Ascii.eqb c sep).
    + rewrite last_cons_cons by discriminate. exact IH.
    + rewrite last_cons_cons by exact Hnn. rewrite last_cons_cons in IH by exact Hnn.
      exact IH.
Qed.

Lemma rfind_absent (ch : ascii) (s : string) :
  contains ch s = false -> PyStr.rfind ch s = (-1)%Z.
Proof.
  induction s as [|c s IH]; simpl; [reflexivity|].
  destruct (Ascii.eqb c ch); [discriminate|]. simpl. intros H.
  now rewrite (IH H).
Qed.

Lemma rfind_app (ch : ascii) (a b : string) :
  contains ch b = false ->
  PyStr.rfind ch (a ++ String ch b) = PyStr.len a.
Proof.
  intros Hb. unfold PyStr.len. induction a as [|c a IH].
  - simpl. rewrite (rfind_absent _ _ Hb), Ascii.eqb_refl. reflexivity.
  - change (String c a ++ String ch b)%string with (String c (a ++ String ch b)).
    cbn [PyStr.rfind String.length]. rewrite IH.
    destruct (0 <=? Z.of_nat (String.length a))%Z eqn:E; [lia|].
    apply Z.leb_gt in E. lia.
Qed.

Lemma length_append (a b : string) :
  String.length (a ++ b) = String.length a + String.length b.
Proof. induction a as [|c a IH]; simpl; [reflexivity|now rewrite IH]. Qed.

Lemma drop_app (a b : string) : PyStr.drop (String.length a) (a ++ b) = b.
Proof. induction a as [|c a IH]; simpl; [now destruct b|exact IH]. Qed.

Lemma lstrip_char_absent (ch : ascii) (s : string) :
  contains ch s = false -> PyStr.lstrip_char ch s = s.
Proof. destruct s as [|c s]; simpl; [reflexivity|]. now destruct (Ascii.eqb c ch). Qed.

(** On a name with a dot in it, [rawcod.get_mime_type] looks up the
    lowercased text after the last dot. *)
Lemma rawcod_mime_of_dotted (pre ext : string) :
  contains "." ext = false ->
  Rawcod.get_mime_type (pre ++ String "." ext)
  = Ok (default "application/octet-stream" (Rawcod.mime_types !! PyStr.lower ext)).
Proof.
  intros Hext. unfold Rawcod.get_mime_type.
  rewrite index_last_split, result_bind_Ok, lower_app. simpl PyStr.lower.
  change (PyStr.lower_char ".") with "."%char.
  rewrite last_split_app; [reflexivity|]. now rewrite contains_dot_lower.
Qed.

(** On a name [stem.ext] with both parts non-empty,
    [process_service.get_mime_type] looks up the lowercased [ext]. *)
Lemma service_mime_of_dotted (dir stem ext : string) :
  stem <> "" -> ext <> "" -> contains "." ext = false ->
  ProcessService.get_mime_type (Pathlib.mkPath dir (stem ++ String "." ext))
  = default "application/octet-stream" (ProcessService.mime_map !! PyStr.lower ext).
Proof.
  intros Hstem Hne Hext. unfold ProcessService.get_mime_type, Pathlib.suffix. simpl.
  rewrite (rfind_app _ _ _ Hext). unfold PyStr.len.
  rewrite length_append. simpl String.length.
  assert (H1 : (0 <? Z.of_nat (String.length stem))%Z = true).
  { apply Z.ltb_lt. destruct stem; [congruence|simpl; lia]. }
  assert (H2 : (Z.of_nat (String.length stem)
                <? Z.of_nat (String.length stem + S (String.length ext)) - 1)%Z = true).
  { apply Z.ltb_lt. destruct ext; [congruence|simpl; lia]. }
  rewrite H1, H2. simpl. rewrite Nat2Z.id, drop_app. simpl PyStr.lower.
  change (PyStr.lower_char ".") with "."%char.
  simpl PyStr.lstrip_char.
  rewrite lstrip_char_absent; [reflexivity|]. now rewrite contains_dot_lower.
Qed.

(** A name without a dot has no extension for [process_service.get_mime_type]. *)
Lemma service_mime_of_dotless (dir name : string) :
  contains "." name = false ->
  ProcessService.get_mime_type (Pathlib.mkPath dir name) = "application/octet-stream".
Proof.
  intros H. unfold ProcessService.get_mime_type, Pathlib.suffix. simpl.
  rewrite (rfind_absent _ _ H). reflexivity.
Qed.

(** The two classifiers return the same MIME type for every file name
    [stem.ext] with a non-empty stem and a non-empty extension. *)
Lemma classifiers_agree_on_dotted (dir stem ext : string) :
  stem <> "" -> ext <> "" -> contains "." ext = false ->
  Rawcod.get_mime_type (stem ++ String "." ext)
  = Ok (ProcessService.get_mime_type (Pathlib.mkPath dir (stem ++ String "." ext))).
Proof.
  intros Hstem Hne Hext.
  rewrite (rawcod_mime_of_dotted _ _ Hext), (service_mime_of_dotted _ _ _ Hstem Hne Hext).
  now rewrite mime_tables_equal.
Qed.

(** The table: the nine supported extensions, and nothing else. *)
Lemma mime_map_lookup (ext : string) :
  ProcessService.mime_map !! ext
  = if String.eqb ext "pdf" then Some "application/pdf"
    else if String.eqb ext "jpg" || String.eqb ext "jpeg" then Some "image/jpeg"
    else if String.eqb ext "png" then Some "image/png"
    else if String.eqb ext "tif" || String.eqb ext "tiff" then Some "image/tiff"
    else if String.eqb ext "bmp" then Some "image/bmp"
    else if String.eqb ext "gif" then Some "image/gif"
    else if String.eqb ext "webp" then Some "image/webp"
    else None.
Proof.
  repeat match goal with
         | |- context [String.eqb ext ?k] =>
             destruct (String.eqb_spec ext k) as [->|?]; [reflexivity|]
         end.
  simpl. unfold ProcessService.mime_map. simpl.
  rewrite !lookup_insert_ne by congruence. apply lookup_empty.
Qed.

Lemma rfind_neg_absent (ch : ascii) (s : string) :
  (PyStr.rfind ch s < 0)%Z -> contains ch s = false.
Proof.
  induction s as [|c s IH]; simpl; [reflexivity|].
  destruct (0 <=? PyStr.rfind ch s)%Z eqn:E.
  - apply Z.leb_le in E. lia.
  - apply Z.leb_gt in E. destruct (Ascii.eqb c ch); [lia|]. intros _. now apply IH.
Qed.

(** The text before and after the last occurrence of a character. *)
Lemma rfind_decompose (ch : ascii) (s : string) :
  (0 <= PyStr.rfind ch s)%Z ->
  exists a b,
    s = (a ++ String ch b)%string /\ PyStr.len a = PyStr.rfind ch s
    /\ contains ch b = false.
Proof.
  unfold PyStr.len. induction s as [|c s IH]; simpl; [lia|].
  destruct (0 <=? PyStr.rfind ch s)%Z eqn:E.
  - apply Z.leb_le in E. intros _. destruct (IH E) as (a & b & -> & Hlen & Hb).
    exists (String c a), b. repeat split; [|exact Hb]. simpl String.length. lia.
  - apply Z.leb_gt in E. destruct (Ascii.eqb_spec c ch) as [->|Hne]; [|lia].
    intros _. exists EmptyString, s. repeat split. now apply rfind_neg_absent.
Qed.

(** X1. The two classifiers return the same MIME type for every file name
    with a dot after its first character. *)
Theorem classifiers_agree_past_first_char (dir name : string) :
  (0 < PyStr.rfind "." name)%Z ->
  Rawcod.get_mime_type name
  = Ok (ProcessService.get_mime_type (Pathlib.mkPath dir name)).
Proof.
  intros Hpos.
  destruct (rfind_decompose "." name ltac:(lia)) as (a & b & E & Hlen & Hb).
  assert (Ha : a <> "").
  { intros ->. unfold PyStr.len in Hlen. simpl in Hlen. lia. }
  destruct b as [|c b].
  - rewrite E at 1. rewrite (rawcod_mime_of_dotted a "" eq_refl).
    unfold ProcessService.get_mime_type, Pathlib.suffix. simpl Pathlib.name.
    assert (Hl : PyStr.len name = (PyStr.rfind "." name + 1)%Z).
    { rewrite <- Hlen. rewrite E at 1. unfold PyStr.len. rewrite length_append. simpl. lia. }
    rewrite Hl.
    replace (PyStr.rfind "." name <? PyStr.rfind "." name + 1 - 1)%Z with false
      by (symmetry; apply Z.ltb_ge; lia).
    rewrite andb_false_r. reflexivity.
  - subst name. apply classifiers_agree_on_dotted; [exact Ha|discriminate|exact Hb].
Qed.

Lemma classifiers_agree_past_first_char_witness :
  Rawcod.get_mime_type "Invoice.final.PDF"
  = Ok (ProcessService.get_mime_type
          (Pathlib.mkPath "/srv/docai/input" "Invoice.final.PDF")).
Proof.
  apply classifiers_agree_past_first_char. vm_compute. reflexivity.
Defined.

Lemma resolve_or_exit_runtime_error_witness :
  exists w',
    Config.resolve_or_exit Examples.externals "[OCR]" (Examples.blank_world "u-1")
    = (Ok (inl 1%Z), w').
Proof.
  eexists. eapply resolve_or_exit_runtime_error. vm_compute. reflexivity.
Defined.

(** ** Computations that only print *)

Lemma only_logged_refl (w : World) : only_logged w w.
Proof. unfold only_logged. repeat split. exists []. now rewrite app_nil_r. Qed.

Lemma only_logged_trans (w1 w2 w3 : World) :
  only_logged w1 w2 -> only_logged w2 w3 -> only_logged w1 w3.
Proof.
  unfold only_logged.
  intros (E1 & F1 & A1 & I1 & S1 & W1 & U1 & D1 & l1 & O1)
         (E2 & F2 & A2 & I2 & S2 & W2 & U2 & D2 & l2 & O2).
  repeat split; try congruence.
  exists (l1 ++ l2). rewrite O2, O1. now rewrite app_assoc.
Qed.

Lemma logs_only_ret {A : Type} (a : A) : logs_only (ret a).
Proof. intros w. apply only_logged_refl. Qed.

Lemma logs_only_raise {A : Type} (e : exn) : logs_only (@raise A e).
Proof. intros w. apply only_logged_refl. Qed.

Lemma logs_only_lift {A : Type} (r : result A) : logs_only (lift r).
Proof. intros w. apply only_logged_refl. Qed.

Lemma logs_only_print (line : string) : logs_only (print line).
Proof.
  intros w. unfold only_logged. simpl. repeat split. now exists [line].
Qed.

Lemma logs_only_getenv (name : string) : logs_only (getenv name).
Proof. intros w. apply only_logged_refl. Qed.

Lemma logs_only_path_exists (path : string) : logs_only (path_exists path).
Proof. intros w. apply only_logged_refl. Qed.

Lemma logs_only_is_file (path : string) : logs_only (is_file path).
Proof. intros w. apply only_logged_refl. Qed.

Lemma logs_only_read_file (path : string) : logs_only (read_file path).
Proof. intros w. rewrite read_file_world. apply only_logged_refl. Qed.

Lemma logs_only_bind {A B : Type} (m : M A) (f : A -> M B) :
  logs_only m -> (forall a, logs_only (f a)) -> logs_only (bind m f).
Proof.
  intros Hm Hf w. unfold bind. specialize (Hm w).
  destruct (m w) as [[a|e] w1]; simpl in Hm; [|exact Hm].
  eapply only_logged_trans; [exact Hm|apply Hf].
Qed.

Lemma logs_only_try_except {A : Type} (body : M A) (handles : exn -> bool)
    (handler : exn -> M A) :
  logs_only body -> (forall e, logs_only (handler e)) ->
  logs_only (try_except body handles handler).
Proof.
  intros Hb Hh w. unfold try_except. specialize (Hb w).
  destruct (body w) as [[a|e] w1]; simpl in Hb; [exact Hb|].
  destruct (handles e); [|exact Hb].
  eapply only_logged_trans; [exact Hb|apply Hh].
Qed.

Ltac logs_only_step :=
  first
    [ apply logs_only_ret | apply logs_only_raise | apply logs_only_lift
    | apply logs_only_print | apply logs_only_getenv | apply logs_only_path_exists
    | apply logs_only_is_file | apply logs_only_read_file
    | apply logs_only_bind; [|intros ?]
    | apply logs_only_try_except; [|intros ?]
    | match goal with
      | |- logs_only (match ?x with _ => _ end) => destruct x
      | |- logs_only (if ?b then _ else _) => destruct b
      end ].

Lemma logs_only_validate_credentials (tag : string) :
  logs_only (Config.validate_credentials tag).
Proof. unfold Config.validate_credentials. repeat logs_only_step. Qed.

Lemma logs_only_load_project_id (X : Externals) (tag creds_path : string) :
  logs_only (Config.load_project_id X tag creds_path).
Proof. unfold Config.load_project_id. repeat logs_only_step. Qed.

Lemma logs_only_processor_id_from_file (X : Externals) (tag : string) :
  logs_only (Config.processor_id_from_file X tag).
Proof. unfold Config.processor_id_from_file. cbv zeta. repeat logs_only_step. Qed.

Lemma logs_only_load_processor_id (X : Externals) (tag : string) :
  logs_only (Config.load_processor_id X tag).
Proof.
  unfold Config.load_processor_id.
  repeat first [apply logs_only_processor_id_from_file | logs_only_step].
Qed.

Lemma logs_only_resolve (X : Externals) (tag : string) :
  logs_only (Config.resolve X tag).
Proof.
  unfold Config.resolve. cbv zeta.
  repeat first [ apply logs_only_validate_credentials | apply logs_only_load_project_id
               | apply logs_only_load_processor_id | logs_only_step ].
Qed.

Lemma logs_only_resolve_or_exit (X : Externals) (tag : string) :
  logs_only (Config.resolve_or_exit X tag).
Proof.
  unfold Config.resolve_or_exit.
  repeat first [apply logs_only_resolve | logs_only_step].
Qed.

(** X4. Resolving the configuration, with success or not, changes nothing
    but standard output: environment, file system, arguments, standard
    input, the requests submitted, the files written and the identifier
    source are as before, and the log only grows. *)
Theorem configuration_only_logs (X : Externals) (tag : string) (w : World) :
  only_logged w (snd (Config.resolve_or_exit X tag w)).
Proof. apply logs_only_resolve_or_exit. Qed.

(** ** The resolver's functions, outcome by outcome *)

Lemma fst_bind {A B : Type} (m : M A) (f : A -> M B) (w : World) :
  fst (bind m f w)
  = match fst (m w) with
    | Ok a => fst (f a (snd (m w)))
    | Raise e => Raise e
    end.
Proof. unfold bind. destruct (m w) as [[a|e] w1]; reflexivity. Qed.

Lemma validate_credentials_run (tag : string) (w : World) :
  fst (Config.validate_credentials tag w)
  = match environ w !! "GOOGLE_APPLICATION_CREDENTIALS" with
    | Some creds_path =>
        if PyStr.truthy creds_path then
          match fs w !! creds_path with
          | Some _ => Ok creds_path
          | None => Raise (Config.credentials_not_found creds_path)
          end
        else Raise Config.credentials_not_set
    | None => Raise Config.credentials_not_set
    end.
Proof.
  unfold Config.validate_credentials, bind, getenv, print, path_exists, ret, raise.
  destruct (environ w !! "GOOGLE_APPLICATION_CREDENTIALS") as [p|]; simpl; [|reflexivity].
  destruct (PyStr.truthy p); simpl; [|reflexivity].
  destruct (fs w !! p) as [n|] eqn:E; simpl; rewrite ?E; reflexivity.
Qed.

(** X5. [validate_credentials] returns a path exactly when the credential
    variable is set to a non-empty path that exists, and then returns that
    path; every other outcome is a [RuntimeError]. *)
Theorem validate_credentials_outcome (tag : string) (w : World) :
  (forall p,
     fst (Config.validate_credentials tag w) = Ok p
     <-> environ w !! "GOOGLE_APPLICATION_CREDENTIALS" = Some p
         /\ p <> "" /\ is_Some (fs w !! p))
  /\ (forall e,
        fst (Config.validate_credentials tag w) = Raise e -> is_RuntimeError e = true).
Proof.
  rewrite validate_credentials_run.
  destruct (environ w !! "GOOGLE_APPLICATION_CREDENTIALS") as [c|].
  - destruct (PyStr.truthy c) eqn:T.
    + apply truthy_iff in T. destruct (fs w !! c) as [n|] eqn:E.
      * split.
        -- intros p. split.
           ++ intros H. inversion H; subst. rewrite E. eauto.
           ++ intros (H & _ & _). congruence.
        -- discriminate.
      * split.
        -- intros p. split; [discriminate|].
           intros (H & _ & [n Hn]). inversion H; subst. congruence.
        -- intros e H. inversion H. reflexivity.
    + apply truthy_false_iff in T. subst c. split.
      * intros p. split; [discriminate|]. intros (H & Hp & _). inversion H. congruence.
      * intros e H. inversion H. reflexivity.
  - split.
    + intros p. split; [discriminate|]. intros (H & _). discriminate.
    + intros e H. inversion H. reflexivity.
Qed.

Lemma load_project_id_run (X : Externals) (tag creds_path : string) (w : World) :
  fst (Config.load_project_id X tag creds_path w)
  = match fs w !! creds_path with
    | Some (File content) =>
        match json_loads X content with
        | Ok data =>
            match Json.get data "project_id" with
            | Ok project_id =>
                if Json.truthy project_id then Ok project_id
                else Raise (ValueError "project_id not found in credentials file")
            | Raise e => Raise e
            end
        | Raise e =>
            if is_JSONDecodeError e
            then Raise (RuntimeError ("Invalid JSON in credentials file: " ++ exn_message e))
            else Raise e
        end
    | Some (Dir _) => Raise (OSError ("Is a directory: " ++ creds_path))
    | None => Raise (OSError ("No such file or directory: " ++ creds_path))
    end.
Proof.
  unfold Config.load_project_id, try_except, bind, read_file, lift, print, ret, raise.
  destruct (fs w !! creds_path) as [[content|entries]|]; simpl; try reflexivity.
  destruct (json_loads X content) as [data|e]; simpl.
  - destruct data; simpl; try reflexivity.
    destruct (Json.truthy (default Json.JNull (Json.lookup_item "project_id" items)));
      reflexivity.
  - destruct (is_JSONDecodeError e); reflexivity.
Qed.

(** X6. When [load_project_id] returns, the credential path is a file whose
    text parses to a dict, and the value returned is its project_id member,
    which is truthy (not None, not empty).  A text that does not parse makes
    it raise [RuntimeError] with the decoder's message after "Invalid JSON
    in credentials file: ", and it never lets a [JSONDecodeError] out. *)
Theorem load_project_id_outcome (X : Externals) (tag creds_path : string) (w : World) :
  (forall project_id,
     fst (Config.load_project_id X tag creds_path w) = Ok project_id ->
     Json.truthy project_id = true
     /\ exists content items,
          fs w !! creds_path = Some (File content)
          /\ json_loads X content = Ok (Json.JObj items)
          /\ Json.lookup_item "project_id" items = Some project_id)
  /\ (forall content msg,
        fs w !! creds_path = Some (File content) ->
        json_loads X content = Raise (JSONDecodeError msg) ->
        fst (Config.load_project_id X tag creds_path w)
        = Raise (RuntimeError ("Invalid JSON in credentials file: " ++ msg)))
  /\ (forall e,
        fst (Config.load_project_id X tag creds_path w) = Raise e ->
        is_JSONDecodeError e = false).
Proof.
  rewrite load_project_id_run. split; [|split].
  - intros j. destruct (fs w !! creds_path) as [[content|entries]|]; try discriminate.
    destruct (json_loads X content) as [data|e] eqn:EL.
    + destruct data; simpl; try discriminate.
      destruct (Json.lookup_item "project_id" items) as [v|] eqn:EI; simpl.
      * destruct (Json.truthy v) eqn:T; [|discriminate].
        intros H. inversion H; subst. split; [exact T|]. eauto.
      * discriminate.
    + destruct (is_JSONDecodeError e); discriminate.
  - intros content msg -> ->. reflexivity.
  - intros e. destruct (fs w !! creds_path) as [[content|entries]|].
    + destruct (json_loads X content) as [data|e0].
      * destruct data; simpl;
          try (intros H; inversion H; reflexivity).
        destruct (Json.truthy (default Json.JNull (Json.lookup_item "project_id" items)));
          [discriminate|]. intros H. inversion H. reflexivity.
      * destruct (is_JSONDecodeError e0) eqn:T; intros H; inversion H; subst;
          [reflexivity|exact T].
    + intros H. inversion H. reflexivity.
    + intros H. inversion H. reflexivity.
Qed.

Lemma load_project_id_same_fs (X : Externals) (tag creds_path : string) (w w1 : World) :
  fs w1 = fs w ->
  fst (Config.load_project_id X tag creds_path w1)
  = fst (Config.load_project_id X tag creds_path w).
Proof. intros E. rewrite !load_project_id_run. now rewrite E. Qed.

Lemma load_processor_id_same_store (X : Externals) (tag : string) (w w1 : World) :
  environ w1 = environ w -> fs w1 = fs w ->
  fst (Config.load_processor_id X tag w1) = fst (Config.load_processor_id X tag w).
Proof.
  intros E F. rewrite !load_processor_id_run, !processor_id_from_file_run.
  now rewrite E, F.
Qed.

(** The outcome of the resolver in terms of its three functions, each run on
    the world at the start: the lines logged in between change no outcome. *)
Lemma resolve_run (X : Externals) (tag : string) (w : World) :
  fst (Config.resolve X tag w)
  = match fst (Config.validate_credentials tag w) with
    | Raise e => Raise e
    | Ok creds_path =>
        match fst (Config.load_project_id X tag creds_path w) with
        | Raise e => Raise e
        | Ok project_id =>
            match fst (Config.load_processor_id X tag w) with
            | Raise e => Raise e
            | Ok processor_id =>
                Ok (project_id, processor_id,
                    default "us" (environ w !! "DOCAI_LOCATION"))
            end
        end
    end.
Proof.
  unfold Config.resolve. rewrite fst_bind.
  pose proof (logs_only_validate_credentials tag w) as L1.
  destruct (Config.validate_credentials tag w) as [[creds|e] w1]; simpl in *; [|reflexivity].
  rewrite fst_bind.
  pose proof (logs_only_load_project_id X tag creds w1) as L2.
  destruct L1 as (E1 & F1 & _).
  rewrite (load_project_id_same_fs X tag creds w w1 F1).
  destruct (Config.load_project_id X tag creds w1) as [[pid|e] w2] eqn:E2.
  2:{ simpl. rewrite <- (load_project_id_same_fs X tag creds w w1 F1), E2. reflexivity. }
  simpl in L2. destruct L2 as (E2' & F2 & _).
  rewrite <- (load_project_id_same_fs X tag creds w w1 F1), E2. simpl.
  rewrite fst_bind.
  assert (Ew : environ w2 = environ w) by congruence.
  assert (Fw : fs w2 = fs w) by congruence.
  rewrite (load_processor_id_same_store X tag w w2 Ew Fw).
  pose proof (logs_only_load_processor_id X tag w2) as L3.
  destruct (Config.load_processor_id X tag w2) as [[proc|e] w3] eqn:E3.
  2:{ simpl. rewrite <- (load_processor_id_same_store X tag w w2 Ew Fw), E3. reflexivity. }
  simpl in L3. destruct L3 as (E3' & _).
  rewrite <- (load_processor_id_same_store X tag w w2 Ew Fw), E3. simpl.
  unfold bind, getenv, print, ret. simpl. now rewrite E3', Ew.
Qed.

(** X7. When configuration resolution succeeds, the credential variable
    names an existing path, the project identifier is the truthy project_id
    member of the credential file, the processor identifier is what
    [load_processor_id] returns, and the location is the value of
    DOCAI_LOCATION when that variable is set, even to the empty string, and
    "us" only when it is unset. *)
Theorem resolved_settings (X : Externals) (tag : string) (w : World)
    (project_id : Json.Json) (processor_id location : string) :
  fst (Config.resolve X tag w) = Ok (project_id, processor_id, location) ->
  exists creds_path,
    environ w !! "GOOGLE_APPLICATION_CREDENTIALS" = Some creds_path /\
    creds_path <> "" /\ is_Some (fs w !! creds_path) /\
    fst (Config.load_project_id X tag creds_path w) = Ok project_id /\
    Json.truthy project_id = true /\
    fst (Config.load_processor_id X tag w) = Ok processor_id /\
    (forall v, environ w !! "DOCAI_LOCATION" = Some v -> location = v) /\
    (environ w !! "DOCAI_LOCATION" = None -> location = "us").
Proof.
  rewrite resolve_run.
  destruct (fst (Config.validate_credentials tag w)) as [creds|e] eqn:E1; [|discriminate].
  destruct (fst (Config.load_project_id X tag creds w)) as [pid|e] eqn:E2; [|discriminate].
  destruct (fst (Config.load_processor_id X tag w)) as [proc|e] eqn:E3; [|discriminate].
  intros H. inversion H; subst. exists creds.
  assert (Hv : environ w !! "GOOGLE_APPLICATION_CREDENTIALS" = Some creds
               /\ creds <> "" /\ is_Some (fs w !! creds)).
  { rewrite validate_credentials_run in E1.
    destruct (environ w !! "GOOGLE_APPLICATION_CREDENTIALS") as [c|]; [|discriminate].
    destruct (PyStr.truthy c) eqn:T; [|discriminate].
    destruct (fs w !! c) as [n|] eqn:F; [|discriminate].
    inversion E1; subst. rewrite F. apply truthy_iff in T. eauto. }
  assert (Ht : Json.truthy project_id = true).
  { rewrite load_project_id_run in E2.
    destruct (fs w !! creds) as [[content|entries]|]; try discriminate.
    destruct (json_loads X content) as [data|e].
    - destruct (Json.get data "project_id") as [j|e]; [|discriminate].
      destruct (Json.truthy j) eqn:T; [|discriminate]. now inversion E2; subst.
    - destruct (is_JSONDecodeError e); discriminate. }
  destruct Hv as (Henv & Hne & Hfs).
  repeat split; auto.
  - intros v ->. reflexivity.
  - intros ->. reflexivity.
Qed.

Lemma resolved_settings_witness :
  exists creds_path,
    environ Examples.batch_world !! "GOOGLE_APPLICATION_CREDENTIALS" = Some creds_path /\
    creds_path <> "" /\ is_Some (fs Examples.batch_world !! creds_path) /\
    fst (Config.load_project_id Examples.externals "[DOCAI]" creds_path Examples.batch_world)
    = Ok (Json.JStr "demo") /\
    Json.truthy (Json.JStr "demo") = true /\
    fst (Config.load_processor_id Examples.externals "[DOCAI]" Examples.batch_world)
    = Ok "proc-1" /\
    (forall v, environ Examples.batch_world !! "DOCAI_LOCATION" = Some v -> "us" = v) /\
    (environ Examples.batch_world !! "DOCAI_LOCATION" = None -> "us" = "us").
Proof.
  apply (resolved_settings Examples.externals "[DOCAI]" Examples.batch_world
           (Json.JStr "demo") "proc-1" "us").
  vm_compute. reflexivity.
Defined.

(** X8. A processor variable that is not empty and holds only blanks is
    taken as set: [load_processor_id] returns the empty string and does not
    turn to the fallback file. *)
Theorem blank_processor_variable_accepted (X : Externals) (tag : string) (w : World)
    (v : string) :
  environ w !! "DOCAI_PROCESSOR_ID" = Some v ->
  v <> "" ->
  PyStr.strip v = "" ->
  fst (Config.load_processor_id X tag w) = Ok "".
Proof.
  intros Hv Hne Hs. rewrite load_processor_id_run, Hv.
  apply truthy_iff in Hne. now rewrite Hne, Hs.
Qed.

Lemma blank_processor_variable_accepted_witness :
  fst (Config.load_processor_id Examples.externals "[OCR]"
         (mkWorld {["DOCAI_PROCESSOR_ID" := "   "]}
                  {["/srv/docai/docai_processor_id.txt" := File "proc-9"]}
                  [] [] [] [] [] (fun _ => "u-1") 0))
  = Ok "".
Proof.
  apply (blank_processor_variable_accepted _ _ _ "   ").
  - reflexivity.
  - discriminate.
  - reflexivity.
Defined.

(** ** More on the normalizer: concatenation, origin of the entries *)

Lemma foldl_place_from (es : list Entity) (s : Sections) :
  header (foldl place s es) = header (foldl place empty_sections es) ∪ header s
  /\ footer (foldl place s es) = footer (foldl place empty_sections es) ∪ footer s.
Proof.
  induction es as [|e es [IHh IHf]] using rev_ind.
  - simpl. now rewrite !(left_id_L ∅ (∪)).
  - rewrite !foldl_place_snoc.
    set (s1 := foldl place s es) in *. set (s0 := foldl place empty_sections es) in *.
    unfold place.
    destruct (bucket_of (type_ e)); simpl; rewrite ?IHh, ?IHf;
      rewrite ?insert_union_l; auto.
Qed.

(** X9. Normalizing a sequence followed by another gives the line items
    of the first followed by those of the second, and maps that hold the
    entries of both, those of the second sequence taking precedence on a
    common key. *)
Theorem normalizer_of_concatenation (es1 es2 : list Entity) :
  exists inv1 s1 inv2 s2 inv s,
    structure_invoice es1 = Ok inv1 /\ sections_of inv1 = Some s1 /\
    structure_invoice es2 = Ok inv2 /\ sections_of inv2 = Some s2 /\
    structure_invoice (es1 ++ es2) = Ok inv /\ sections_of inv = Some s /\
    header s = header s2 ∪ header s1 /\
    line_items s = line_items s1 ++ line_items s2 /\
    footer s = footer s2 ∪ footer s1.
Proof.
  exists (invoice_of (foldl place empty_sections es1)), (foldl place empty_sections es1),
         (invoice_of (foldl place empty_sections es2)), (foldl place empty_sections es2),
         (invoice_of (foldl place empty_sections (es1 ++ es2))),
         (foldl place empty_sections (es1 ++ es2)).
  split; [apply structure_invoice_place|]. split; [apply sections_of_invoice_of|].
  split; [apply structure_invoice_place|]. split; [apply sections_of_invoice_of|].
  split; [apply structure_invoice_place|]. split; [apply sections_of_invoice_of|].
  rewrite foldl_app.
  destruct (foldl_place_from es2 (foldl place empty_sections es1)) as [Hh Hf].
  split; [exact Hh|]. split; [|exact Hf].
  rewrite !foldl_place_line_items. reflexivity.
Qed.

Lemma place_origin (s : Sections) (e : Entity) (b : Bucket) (k : string)
    (d : EntityDetails) :
  b <> LineItems ->
  map_of b (place s e) !! k = Some d ->
  map_of b s !! k = Some d
  \/ (type_ e = k /\ d = details_of e /\ bucket_of k = b).
Proof.
  intros Hb. unfold place. destruct (bucket_of (type_ e)) eqn:B; destruct b; simpl;
    try congruence; auto.
  - destruct (decide (type_ e = k)) as [<-|Hne].
    + rewrite lookup_insert_eq. intros H. inversion H. auto.
    + rewrite lookup_insert_ne by exact Hne. auto.
  - destruct (decide (type_ e = k)) as [<-|Hne].
    + rewrite lookup_insert_eq. intros H. inversion H. auto.
    + rewrite lookup_insert_ne by exact Hne. auto.
Qed.

Lemma foldl_place_origin (es : list Entity) (b : Bucket) (k : string) (d : EntityDetails) :
  b <> LineItems ->
  map_of b (foldl place empty_sections es) !! k = Some d ->
  exists e, In e es /\ type_ e = k /\ d = details_of e /\ bucket_of k = b.
Proof.
  intros Hb. induction es as [|e es IH] using rev_ind.
  - destruct b; simpl; rewrite ?lookup_empty; discriminate.
  - rewrite foldl_place_snoc. intros H.
    destruct (place_origin _ _ _ _ _ Hb H) as [H0|(Ht & Hd & Hk)].
    + destruct (IH H0) as (e0 & Hin & Hrest). exists e0.
      split; [apply in_or_app; now left|exact Hrest].
    + exists e. split; [apply in_or_app; right; now left|auto].
Qed.

Lemma place_size (s : Sections) (e : Entity) :
  size (header (place s e)) + length (line_items (place s e)) + size (footer (place s e))
  <= S (size (header s) + length (line_items s) + size (footer s)).
Proof.
  unfold place. destruct (bucket_of (type_ e)); simpl.
  - rewrite map_size_insert. destruct (header s !! type_ e); simpl; lia.
  - rewrite length_app. simpl. lia.
  - rewrite map_size_insert. destruct (footer s !! type_ e); simpl; lia.
Qed.

(** X10. The normalizer invents nothing: every entry of the header map and
    of the footer map sits under the type of an input entity and holds the
    details of an input entity of that type, a footer type in the footer map
    and any other type but "line_item" in the header map; every line item
    comes from an input entity of type "line_item"; and the three sections
    together never hold more entries than the input has entities. *)
Theorem sections_come_from_entities (es : list Entity) :
  exists inv s,
    structure_invoice es = Ok inv /\ sections_of inv = Some s /\
    (forall k d, header s !! k = Some d ->
       exists e, In e es /\ type_ e = k /\ entity_details e = Ok d
                 /\ k <> "line_item" /\ ~ In k footer_fields) /\
    (forall k d, footer s !! k = Some d ->
       exists e, In e es /\ type_ e = k /\ entity_details e = Ok d
                 /\ In k footer_fields) /\
    (forall d, In d (line_items s) ->
       exists e, In e es /\ type_ e = "line_item" /\ entity_details e = Ok d) /\
    size (header s) + length (line_items s) + size (footer s) <= length es.
Proof.
  exists (invoice_of (foldl place empty_sections es)), (foldl place empty_sections es).
  split; [apply structure_invoice_place|]. split; [apply sections_of_invoice_of|].
  split; [|split; [|split]].
  - intros k d H.
    destruct (foldl_place_origin es Header k d ltac:(discriminate) H)
      as (e & Hin & Ht & -> & B).
    exists e. split; [exact Hin|]. split; [exact Ht|]. split; [apply entity_details_ok|].
    split.
    + intros ->. discriminate.
    + intros Hf. rewrite (bucket_footer _ Hf) in B. discriminate.
  - intros k d H.
    destruct (foldl_place_origin es Footer k d ltac:(discriminate) H)
      as (e & Hin & Ht & -> & B).
    exists e. split; [exact Hin|]. split; [exact Ht|]. split; [apply entity_details_ok|].
    now apply bucket_Footer_inv.
  - intros d H. rewrite foldl_place_line_items in H. simpl in H.
    apply in_map_iff in H. destruct H as (e & <- & He).
    apply filter_In in He. destruct He as [Hin Hl].
    exists e. split; [exact Hin|]. split; [|apply entity_details_ok].
    unfold is_line_item in Hl. now apply String.eqb_eq in Hl.
  - induction es as [|e es IH] using rev_ind; [simpl; rewrite !map_size_empty; lia|].
    rewrite foldl_place_snoc, length_app. simpl.
    pose proof (place_size (foldl place empty_sections es) e). lia.
Qed.

(** ** The batch classifier, name by name *)

Lemma mime_map_supported (ext : string) :
  In ext supported_extensions <-> is_Some (ProcessService.mime_map !! ext).
Proof.
  rewrite mime_map_lookup. unfold supported_extensions. simpl. split.
  - intros H. repeat (destruct H as [<-|H]; [simpl; eauto|]). contradiction.
  - repeat match goal with
           | |- context [String.eqb ext ?k] =>
               destruct (String.eqb_spec ext k) as [->|?]; [intros _; tauto|]
           end.
    simpl. intros [x Hx]. discriminate.
Qed.

Lemma mime_map_never_sentinel (ext mime : string) :
  ProcessService.mime_map !! ext = Some mime -> mime <> "application/octet-stream".
Proof.
  rewrite mime_map_lookup.
  repeat match goal with
         | |- context [String.eqb ext ?k] => destruct (String.eqb ext k); simpl
         end;
    intros H; inversion H; discriminate.
Qed.

Lemma service_mime_of_unsuffixed (dir name : string) :
  (PyStr.rfind "." name <= 0)%Z \/ (PyStr.len name - 1 <= PyStr.rfind "." name)%Z ->
  ProcessService.get_mime_type (Pathlib.mkPath dir name) = "application/octet-stream".
Proof.
  intros H. unfold ProcessService.get_mime_type, Pathlib.suffix. simpl Pathlib.name.
  replace ((0 <? PyStr.rfind "." name)%Z
           && (PyStr.rfind "." name <? PyStr.len name - 1)%Z) with false; [reflexivity|].
  symmetry. apply andb_false_iff. rewrite !Z.ltb_ge. exact H.
Qed.

(** X11. [process_service.get_mime_type] returns a type other than the
    sentinel exactly for the names [stem.ext] with a non-empty stem whose
    extension, lowercased, is one of pdf, jpg, jpeg, png, tif, tiff, bmp,
    gif and webp; every other name, among them names without a dot, names
    that end with a dot and names whose only dot comes first, gets
    application/octet-stream. *)
Theorem service_supported_names (dir name : string) :
  ProcessService.get_mime_type (Pathlib.mkPath dir name) <> "application/octet-stream"
  <-> exists stem ext,
        name = (stem ++ String "." ext)%string /\ stem <> "" /\
        contains "." ext = false /\ In (PyStr.lower ext) supported_extensions.
Proof.
  split.
  - intros Hne.
    destruct (Z_le_gt_dec (PyStr.rfind "." name) 0) as [Hle|Hgt].
    { exfalso. apply Hne, service_mime_of_unsuffixed. now left. }
    destruct (Z_le_gt_dec (PyStr.len name - 1) (PyStr.rfind "." name)) as [Hle|Hlt].
    { exfalso. apply Hne, service_mime_of_unsuffixed. now right. }
    destruct (rfind_decompose "." name ltac:(lia)) as (a & b & E & Hlen & Hb).
    assert (Ha : a <> "").
    { intros ->. unfold PyStr.len in Hlen. simpl in Hlen. lia. }
    assert (Hbne : b <> "").
    { intros ->. rewrite <- Hlen in Hlt. rewrite E in Hlt. unfold PyStr.len in Hlt.
      rewrite length_append in Hlt. simpl in Hlt. lia. }
    exists a, b. repeat split; auto.
    subst name. rewrite (service_mime_of_dotted dir a b Ha Hbne Hb) in Hne.
    apply mime_map_supported.
    destruct (ProcessService.mime_map !! PyStr.lower b); [eauto|]. now contradict Hne.
  - intros (stem & ext & -> & Hs & Hd & Hin).
    assert (Hext : ext <> "").
    { intros ->. simpl in Hin. repeat (destruct Hin as [Hin|Hin]; [discriminate|]).
      contradiction. }
    rewrite (service_mime_of_dotted dir stem ext Hs Hext Hd).
    apply mime_map_supported in Hin. destruct Hin as [m Hm]. rewrite Hm. simpl.
    eapply mime_map_never_sentinel, Hm.
Qed.

(** ** Letter case *)

Lemma lower_char_idem (c : ascii) : PyStr.lower_char (PyStr.lower_char c) = PyStr.lower_char c.
Proof. destruct c as [[] [] [] [] [] [] [] []]; reflexivity. Qed.

Lemma lower_idem (s : string) : PyStr.lower (PyStr.lower s) = PyStr.lower s.
Proof. induction s as [|c s IH]; simpl; [reflexivity|]. now rewrite lower_char_idem, IH. Qed.

Lemma rfind_dot_lower (s : string) : PyStr.rfind "." (PyStr.lower s) = PyStr.rfind "." s.
Proof.
  induction s as [|c s IH]; simpl; [reflexivity|].
  now rewrite IH, lower_char_dot.
Qed.

Lemma drop_lower (n : nat) (s : string) :
  PyStr.drop n (PyStr.lower s) = PyStr.lower (PyStr.drop n s).
Proof.
  revert s. induction n as [|n IH]; intros s; [reflexivity|].
  destruct s as [|c s]; simpl; [reflexivity|apply IH].
Qed.

Lemma service_mime_of_lower (dir dir' name : string) :
  ProcessService.get_mime_type (Pathlib.mkPath dir name)
  = ProcessService.get_mime_type (Pathlib.mkPath dir' (PyStr.lower name)).
Proof.
  unfold ProcessService.get_mime_type, Pathlib.suffix, PyStr.len. simpl Pathlib.name.
  rewrite rfind_dot_lower, length_lower.
  destruct ((0 <? PyStr.rfind "." name)%Z
            && (PyStr.rfind "." name <? Z.of_nat (String.length name) - 1)%Z);
    [|reflexivity].
  now rewrite drop_lower, lower_idem.
Qed.

(** X12. Two file names that differ only in the case of their letters get
    the same MIME type, from either classifier and whatever the directory. *)
Theorem classifiers_ignore_case (dir1 dir2 name1 name2 : string) :
  PyStr.lower name1 = PyStr.lower name2 ->
  Rawcod.get_mime_type name1 = Rawcod.get_mime_type name2
  /\ ProcessService.get_mime_type (Pathlib.mkPath dir1 name1)
     = ProcessService.get_mime_type (Pathlib.mkPath dir2 name2).
Proof.
  intros E. split.
  - unfold Rawcod.get_mime_type. now rewrite E.
  - rewrite (service_mime_of_lower dir1 dir1 name1), (service_mime_of_lower dir2 dir1 name2).
    now rewrite E.
Qed.

Lemma classifiers_ignore_case_witness :
  Rawcod.get_mime_type "Scan_01.JPeG" = Rawcod.get_mime_type "scan_01.jpeg"
  /\ ProcessService.get_mime_type (Pathlib.mkPath "/srv/docai/input" "Scan_01.JPeG")
     = ProcessService.get_mime_type (Pathlib.mkPath "/tmp" "scan_01.jpeg").
Proof. apply classifiers_ignore_case. reflexivity. Defined.

(** ** The batch loop, outcome by outcome *)

Lemma process_one_total (X : Externals) (name : string) (path : Pathlib.Path) (w : World) :
  exists r w',
    ProcessService.process_one X name path w = (Ok r, w')
    /\ (r = None \/ r = Some 1%Z).
Proof.
  destruct (ProcessService.process_file X name path w) as [[out|e] w1] eqn:E.
  - destruct (process_one_ok _ _ _ _ _ _ E) as [line ->]. eauto.
  - rewrite (process_one_raise _ _ _ _ _ _ E). eauto.
Qed.

(** X13. The batch loop never raises and returns 0 or 1.  It returns 0
    exactly when every file of the list was processed without failure, and
    then one request was submitted and one file written for each file of the
    list. *)
Theorem batch_loop_outcome (X : Externals) (name : string)
    (files : list Pathlib.Path) (w : World) :
  exists c w',
    ProcessService.process_files X name files w = (Ok c, w') /\
    (c = 0%Z \/ c = 1%Z) /\
    (c = 0%Z <-> is_Some (succeed_all X name files w)) /\
    (c = 0%Z ->
       length (submitted w') = length (submitted w) + length files
       /\ length (written w') = length (written w) + length files).
Proof.
  revert w. induction files as [|p files IH]; intros w.
  - simpl. unfold bind, print, ret. simpl. eexists _, _. split; [reflexivity|].
    split; [now left|]. split; [split; eauto|]. intros _. simpl. lia.
  - simpl. unfold bind at 1.
    destruct (process_one_total X name p w) as (r & w1 & E & Hr). rewrite E.
    destruct Hr as [->| ->].
    + destruct (IH w1) as (c & w' & Hrun & Hc & Hiff & Hcount).
      exists c, w'. split; [exact Hrun|]. split; [exact Hc|]. split; [exact Hiff|].
      intros H0. destruct (Hcount H0) as [Hs Hw].
      destruct (process_one_continue _ _ _ _ _ E) as [Hs1 Hw1]. simpl. lia.
    + unfold ret. eexists _, _. split; [reflexivity|]. split; [now right|].
      split; [|discriminate]. split; [discriminate|]. intros [x Hx]. discriminate.
Qed.

(** ** The stages of [rawcod.main] *)

Lemma same_store_refl (w : World) : same_store w w.
Proof. unfold same_store. repeat split. Qed.

Lemma same_store_trans (w1 w2 w3 : World) :
  same_store w1 w2 -> same_store w2 w3 -> same_store w1 w3.
Proof.
  unfold same_store. intros (E1 & F1 & S1 & W1 & U1 & D1) (E2 & F2 & S2 & W2 & U2 & D2).
  repeat split; congruence.
Qed.

Lemma only_logged_same_store (w w' : World) : only_logged w w' -> same_store w w'.
Proof.
  unfold only_logged, same_store. intros (E & F & _ & _ & S & W & U & D & _).
  repeat split; assumption.
Qed.

Lemma same_store_print (line : string) (w : World) :
  same_store w (snd (print line w)).
Proof. apply only_logged_same_store, logs_only_print. Qed.

Lemma logs_only_step2_import (X : Externals) : logs_only (Rawcod.step2_import X).
Proof. unfold Rawcod.step2_import. repeat logs_only_step. Qed.

Lemma step3_file_path_same_store (w : World) :
  same_store w (snd (Rawcod.step3_file_path w)).
Proof.
  unfold Rawcod.step3_file_path, bind, input, ret.
  destruct (argv w) as [|a0 [|a1 rest]]; simpl; try apply same_store_refl;
    destruct (stdin w); simpl; unfold same_store; simpl; repeat split.
Qed.

(** STEP 4 never raises.  It writes nothing; it returns a document only
    after having submitted the content of the file with the MIME type given,
    and submits at most that one request when it returns none. *)
Lemma step4_process_effect (X : Externals) (project_id : Json.Json)
    (processor_id location file_path mime_type : string) (w : World) :
  exists r w',
    Rawcod.step4_process X project_id processor_id location file_path mime_type w
    = (Ok r, w') /\
    environ w' = environ w /\ fs w' = fs w /\ written w' = written w /\
    uuid_source w' = uuid_source w /\ uuid_draws w' = uuid_draws w /\
    match r with
    | Some document =>
        exists content,
          fs w !! file_path = Some (File content) /\
          new_client X = Ok tt /\
          process_document X (submitted w)
            (mkRequest (Rawcod.processor_path X project_id location processor_id)
                       content mime_type)
          = Ok document /\
          submitted w'
          = submitted w
            ++ [mkRequest (Rawcod.processor_path X project_id location processor_id)
                          content mime_type]
    | None =>
        submitted w' = submitted w
        \/ exists content,
             fs w !! file_path = Some (File content) /\
             submitted w'
             = submitted w
               ++ [mkRequest (Rawcod.processor_path X project_id location processor_id)
                             content mime_type]
    end.
Proof.
  unfold Rawcod.step4_process, try_except, bind, print, lift, read_file,
    call_process_document, ret, is_Exception.
  cbv zeta. simpl.
  destruct (new_client X) as [[]|e]; simpl.
  2:{ eexists _, _. split; [reflexivity|]. simpl. repeat split; auto. }
  destruct (fs w !! file_path) as [[content|entries]|] eqn:F; simpl; rewrite ?F; simpl.
  - destruct (process_document X (submitted w)
                (mkRequest (Rawcod.processor_path X project_id location processor_id)
                           content mime_type)) as [doc|e] eqn:P; simpl.
    + eexists _, _. split; [reflexivity|]. simpl. repeat split; auto.
      exists content. auto.
    + eexists _, _. split; [reflexivity|]. simpl. repeat split; auto.
      right. exists content. auto.
  - eexists _, _. split; [reflexivity|]. simpl. repeat split; auto.
  - eexists _, _. split; [reflexivity|]. simpl. repeat split; auto.
Qed.

(** STEP 6 submits nothing; when it returns, it returns 0 after having
    written one file, named after the input and the date in the output
    directory, and printed the identifier line; when it raises, it has
    written nothing. *)
Lemma step6_save_effect (X : Externals) (file_path : string)
    (inv : gmap string Field) (tid : string) (w w' : World) (r : result Z) :
  Rawcod.step6_save X file_path inv tid w = (r, w') ->
  environ w' = environ w /\
  submitted w' = submitted w /\
  (uuid_source w' = uuid_source w /\ uuid_draws w' = uuid_draws w) /\
  match r with
  | Ok c =>
      c = 0%Z /\
      written w'
      = written w
        ++ [((Rawcod.OUTPUT_DIR X ++ "/"
                ++ OsPath.splitext_root (OsPath.basename file_path)
                ++ "_structured_" ++ strftime_today X ++ ".json")%string,
             json_dumps X inv)] /\
      In ("TRANSACTION_ID:" ++ tid)%string (stdout w')
  | Raise e => written w' = written w /\ exists msg, e = OSError msg
  end.
Proof.
  unfold Rawcod.step6_save. cbv zeta. unfold bind at 1.
  pose proof (mkdir_effect (Rawcod.OUTPUT_DIR X) w) as [Hs1 Hw1].
  assert (He1 : environ (snd (mkdir (Rawcod.OUTPUT_DIR X) w)) = environ w).
  { unfold mkdir. destruct (fs w !! Rawcod.OUTPUT_DIR X) as [[c|es]|]; reflexivity. }
  assert (Hu1 : uuid_source (snd (mkdir (Rawcod.OUTPUT_DIR X) w)) = uuid_source w
                /\ uuid_draws (snd (mkdir (Rawcod.OUTPUT_DIR X) w)) = uuid_draws w).
  { unfold mkdir. destruct (fs w !! Rawcod.OUTPUT_DIR X) as [[c|es]|]; split; reflexivity. }
  assert (Hx1 : forall e, fst (mkdir (Rawcod.OUTPUT_DIR X) w) = Raise e ->
                          exists msg, e = OSError msg).
  { unfold mkdir. intros e.
    destruct (fs w !! Rawcod.OUTPUT_DIR X) as [[c|es]|]; simpl; try discriminate.
    intros H. inversion H. eauto. }
  destruct (mkdir (Rawcod.OUTPUT_DIR X) w) as [[[]|e] w1];
    simpl in Hs1, Hw1, He1, Hx1, Hu1.
  2:{ intros H. inversion H; subst. repeat split; auto; apply Hu1. }
  clear Hx1. unfold bind at 1.
  set (out := Pathlib.join _ _).
  pose proof (write_file_effect out (json_dumps X inv) w1) as [Hs2 Hw2].
  assert (He2 : environ (snd (write_file out (json_dumps X inv) w1)) = environ w1).
  { unfold write_file. cbv zeta.
    destruct (fs w1 !! Pathlib.parent out) as [[c|es]|]; try reflexivity.
    destruct (fs w1 !! Pathlib.to_str out) as [[c'|es']|]; reflexivity. }
  assert (Hu2 : uuid_source (snd (write_file out (json_dumps X inv) w1)) = uuid_source w1
                /\ uuid_draws (snd (write_file out (json_dumps X inv) w1)) = uuid_draws w1).
  { unfold write_file. cbv zeta.
    destruct (fs w1 !! Pathlib.parent out) as [[c|es]|]; try (split; reflexivity).
    destruct (fs w1 !! Pathlib.to_str out) as [[c'|es']|]; split; reflexivity. }
  assert (Hx2 : forall e, fst (write_file out (json_dumps X inv) w1) = Raise e ->
                          exists msg, e = OSError msg).
  { unfold write_file. cbv zeta. intros e.
    destruct (fs w1 !! Pathlib.parent out) as [[c|es]|]; simpl;
      try (intros Hr; inversion Hr; eauto; fail).
    destruct (fs w1 !! Pathlib.to_str out) as [[c'|es']|]; simpl; try discriminate.
    intros Hr. inversion Hr. eauto. }
  destruct (write_file out (json_dumps X inv) w1) as [[[]|e] w2];
    simpl in Hs2, Hw2, He2, Hx2, Hu2; destruct Hu1 as [Hu1 Hd1]; destruct Hu2 as [Hu2 Hd2].
  - unfold bind, print, ret. simpl. intros H. inversion H; subst. simpl.
    split; [congruence|]. split; [congruence|].
    split; [split; congruence|]. split; [reflexivity|].
    split; [rewrite Hw2, Hw1; reflexivity|].
    rewrite !in_app_iff. simpl. tauto.
  - intros H. inversion H; subst. split; [congruence|]. split; [congruence|].
    split; [split; congruence|]. split; [congruence|]. auto.
Qed.

Lemma resolve_or_exit_code (X : Externals) (tag : string) (w w1 : World) (c : Z) :
  Config.resolve_or_exit X tag w = (Ok (inl c), w1) -> c = 1%Z.
Proof.
  unfold Config.resolve_or_exit, try_except, bind, print, ret.
  destruct (Config.resolve X tag w) as [[cfg|e] w0]; [discriminate|].
  destruct (is_RuntimeError e); [|discriminate].
  intros H. now inversion H.
Qed.

Lemma resolve_same_store (X : Externals) (tag : string) (w w1 : World) :
  environ w1 = environ w -> fs w1 = fs w ->
  fst (Config.resolve X tag w1) = fst (Config.resolve X tag w).
Proof.
  intros E F. rewrite !resolve_run, !validate_credentials_run, E, F.
  destruct (environ w !! "GOOGLE_APPLICATION_CREDENTIALS") as [c|]; [|reflexivity].
  destruct (PyStr.truthy c); [|reflexivity].
  destruct (fs w !! c); [|reflexivity].
  rewrite (load_project_id_same_fs X tag c w w1 F).
  rewrite (load_processor_id_same_store X tag w w1 E F). reflexivity.
Qed.

Lemma resolve_or_exit_run (X : Externals) (tag : string) (w : World) :
  fst (Config.resolve_or_exit X tag w)
  = match fst (Config.resolve X tag w) with
    | Ok cfg => Ok (inr cfg)
    | Raise e => if is_RuntimeError e then Ok (inl 1%Z) else Raise e
    end.
Proof.
  unfold Config.resolve_or_exit, try_except, bind, print, ret.
  destruct (Config.resolve X tag w) as [[cfg|e] w0]; [reflexivity|]. simpl.
  destruct (is_RuntimeError e); reflexivity.
Qed.

Lemma step3_file_path_run (w : World) :
  fst (Rawcod.step3_file_path w)
  = match argv w with
    | _ :: arg1 :: _ => Ok arg1
    | _ =>
        match stdin w with
        | line :: _ => Ok (PyStr.strip_char (ascii_of_nat 34) (PyStr.strip line))
        | [] => Raise EOFError
        end
    end.
Proof.
  unfold Rawcod.step3_file_path, bind, input, ret.
  destruct (argv w) as [|a0 [|a1 rest]]; simpl; try reflexivity;
    destruct (stdin w); reflexivity.
Qed.

Lemma step3_file_path_same_input (w w1 : World) :
  argv w1 = argv w -> stdin w1 = stdin w ->
  fst (Rawcod.step3_file_path w1) = fst (Rawcod.step3_file_path w).
Proof. intros A I. rewrite !step3_file_path_run, A, I. reflexivity. Qed.

Lemma only_logged_print (line : string) (w : World) :
  only_logged w (set_stdout (stdout w ++ [line]) w).
Proof. exact (logs_only_print line w). Qed.

(** Every run of [rawcod.main] is of one of three kinds: it ends before the
    remote call, with the exit code 1 if it returns; it ends with the exit
    code 1 on a failure of STEP 4; or it gets a document from the processor
    and goes on to save the structured invoice. *)
Lemma rawcod_main_cases (X : Externals) (w w' : World) (r : result Z) :
  Rawcod.main X w = (r, w') ->
  environ w' = environ w /\
  (((forall c, r = Ok c -> c = 1%Z) /\
    (forall e, r = Raise e ->
       (fst (Config.resolve X "[OCR]" w) = Raise e /\ is_RuntimeError e = false)
       \/ (import_documentai X = Raise e /\ is_ImportError e = false)
       \/ (e = EOFError /\ length (argv w) <= 1 /\ stdin w = [])) /\
    fs w' = fs w /\ written w' = written w /\ submitted w' = submitted w)
   \/ (r = Ok 1%Z /\ fs w' = fs w /\ written w' = written w /\
       exists req, submitted w' = submitted w ++ [req] /\ checked_request w req)
   \/ (exists project_id processor_id location file_path content mime_type document,
         fst (Config.resolve X "[OCR]" w) = Ok (project_id, processor_id, location) /\
         import_documentai X = Ok tt /\
         new_client X = Ok tt /\
         fst (Rawcod.step3_file_path w) = Ok file_path /\
         fs w !! file_path = Some (File content) /\
         Rawcod.get_mime_type file_path = Ok mime_type /\
         mime_type <> "application/octet-stream" /\
         process_document X (submitted w)
           (mkRequest (Rawcod.processor_path X project_id location processor_id)
                      content mime_type)
         = Ok document /\
         submitted w'
         = submitted w
           ++ [mkRequest (Rawcod.processor_path X project_id location processor_id)
                         content mime_type] /\
         (uuid_source w' = uuid_source w /\ uuid_draws w' = S (uuid_draws w)) /\
         match r with
         | Ok c =>
             c = 0%Z /\
             written w'
             = written w
               ++ [((Rawcod.OUTPUT_DIR X ++ "/"
                       ++ OsPath.splitext_root (OsPath.basename file_path)
                       ++ "_structured_" ++ strftime_today X ++ ".json")%string,
                    json_dumps X
                      (add_transaction_id (uuid_source w (uuid_draws w))
                         (invoice_of (foldl place empty_sections (entities document)))))] /\
             In ("TRANSACTION_ID:" ++ uuid_source w (uuid_draws w))%string (stdout w')
         | Raise e => written w' = written w /\ exists msg, e = OSError msg
         end)).
Proof.
  intros H.
  cbv beta iota delta [Rawcod.main bind print] in H.
  match type of H with
  | context [Config.resolve_or_exit X "[OCR]" ?W] => set (w0 := W) in *
  end.
  assert (L0 : only_logged w w0).
  { eapply only_logged_trans; [|apply only_logged_print].
    eapply only_logged_trans; [|apply only_logged_print].
    apply only_logged_print. }
  pose proof (logs_only_resolve_or_exit X "[OCR]" w0) as L1.
  pose proof (resolve_or_exit_run X "[OCR]" w0) as R1.
  rewrite (resolve_same_store X "[OCR]" w w0) in R1
    by (destruct L0 as (E & F & _); assumption).
  destruct (Config.resolve_or_exit X "[OCR]" w0) as [[[code|[[pid proc] loc]]|e] w1] eqn:E1;
    simpl in L1, R1; pose proof (only_logged_trans _ _ _ L0 L1) as K1;
    pose proof (only_logged_same_store _ _ K1) as S1.
  1:{ inversion H; subst. apply resolve_or_exit_code in E1. subst code.
      destruct S1 as (Ee & Ef & Es & Ew & _). split; [exact Ee|]. left.
      split; [intros c Hc; now inversion Hc|]. split; [discriminate|]. auto. }
  2:{ inversion H; subst. destruct S1 as (Ee & Ef & Es & Ew & _).
      split; [exact Ee|]. left. split; [discriminate|]. split; [|auto].
      intros e' He'. inversion He'; subst e'. left.
      destruct (fst (Config.resolve X "[OCR]" w)) as [cfg|e0]; [discriminate|].
      destruct (is_RuntimeError e0) eqn:T; [discriminate|].
      inversion R1; subst. auto. }
  assert (Hcfg : fst (Config.resolve X "[OCR]" w) = Ok (pid, proc, loc)).
  { destruct (fst (Config.resolve X "[OCR]" w)) as [cfg|e].
    - now inversion R1.
    - destruct (is_RuntimeError e); discriminate. }
  clear R1.
  pose proof (logs_only_step2_import X w1) as L2.
  assert (I2 : match fst (Rawcod.step2_import X w1) with
               | Ok true => import_documentai X = Ok tt
               | Ok false => True
               | Raise e => import_documentai X = Raise e /\ is_ImportError e = false
               end).
  { unfold Rawcod.step2_import, try_except, bind, lift, print, ret.
    destruct (import_documentai X) as [[]|e]; [reflexivity|]. simpl.
    destruct (is_ImportError e) eqn:T; simpl; auto. }
  destruct (Rawcod.step2_import X w1) as [[[|]|e] w2] eqn:E2;
    simpl in L2, I2; pose proof (only_logged_trans _ _ _ K1 L2) as K2;
    pose proof (only_logged_same_store _ _ K2) as S2.
  2:{ inversion H; subst. destruct S2 as (Ee & Ef & Es & Ew & _).
      split; [exact Ee|]. left.
      split; [intros c Hc; now inversion Hc|]. split; [discriminate|]. auto. }
  2:{ inversion H; subst. destruct S2 as (Ee & Ef & Es & Ew & _).
      split; [exact Ee|]. left. split; [discriminate|]. split; [|auto].
      intros e' He'. inversion He'; subst e'. right. left. exact I2. }
  cbv beta iota delta [negb] in H.
  pose proof (step3_file_path_same_store w2) as L3.
  assert (P3 : fst (Rawcod.step3_file_path w) = fst (Rawcod.step3_file_path w2)).
  { symmetry. apply step3_file_path_same_input; now destruct K2 as (_ & _ & A & I & _). }
  destruct (Rawcod.step3_file_path w2) as [[file_path|e] w3] eqn:E3; simpl in L3, P3;
    pose proof (same_store_trans _ _ _ S2 L3) as S3.
  2:{ inversion H; subst. destruct S3 as (Ee & Ef & Es & Ew & _).
      split; [exact Ee|]. left. split; [discriminate|]. split; [|auto].
      intros e' He'. inversion He'; subst e'. right. right.
      rewrite step3_file_path_run in P3.
      destruct (argv w) as [|a0 [|a1 rest]]; try discriminate;
        (destruct (stdin w); [|discriminate]); inversion P3; simpl; auto. }
  unfold path_exists, lift in H.
  set (w3' := set_stdout (stdout w3 ++ [("[OCR] Input file: " ++ file_path)%string]) w3) in H.
  assert (S3' : same_store w w3').
  { eapply same_store_trans; [exact S3|]. unfold same_store. repeat split. }
  change (fs w3') with (fs w3) in H.
  destruct (fs w3 !! file_path) as [node|] eqn:F3.
  2:{ change (bool_decide (is_Some (@None FsNode))) with false in H.
      cbv beta iota in H. inversion H; subst.
      destruct S3' as (Ee & Ef & Es & Ew & _).
      split; [exact Ee|]. left.
      split; [intros c Hc; now inversion Hc|]. split; [discriminate|]. auto. }
  change (bool_decide (is_Some (Some node))) with true in H. cbv beta iota in H.
  destruct (Rawcod.get_mime_type file_path) as [mime|e] eqn:EM.
  2:{ unfold Rawcod.get_mime_type in EM.
      rewrite index_last_split, result_bind_Ok in EM. discriminate. }
  set (w4 := set_stdout (stdout w3' ++ [("[OCR] MIME type: " ++ mime)%string]) w3') in H.
  assert (S4 : same_store w w4).
  { eapply same_store_trans; [exact S3'|]. unfold same_store. repeat split. }
  destruct (String.eqb_spec mime "application/octet-stream") as [Hm|Hm].
  1:{ inversion H; subst. destruct S4 as (Ee & Ef & Es & Ew & _).
      split; [exact Ee|]. left.
      split; [intros c Hc; now inversion Hc|]. split; [discriminate|]. auto. }
  destruct (step4_process_effect X pid proc loc file_path mime w4)
    as (r4 & w5 & E4 & Ee5 & Ef5 & Ew5 & Eu5 & Ed5 & Hsub).
  rewrite E4 in H.
  destruct S4 as (Ee & Ef & Es & Ew & Eu & Ed).
  assert (Hreq : forall content,
            fs w4 !! file_path = Some (File content) ->
            checked_request w
              (mkRequest (Rawcod.processor_path X pid loc proc) content mime)).
  { intros content Hc. exists file_path. simpl. rewrite <- Ef. auto. }
  destruct r4 as [doc|].
  - destruct Hsub as (content & Hc & Hcl & Hpd & Hs).
    rewrite step5_structure_run in H. cbv beta iota in H.
    apply step6_save_effect in H. simpl in H.
    destruct H as (He6 & Hs6 & (Hu6 & Hd6) & H6).
    split; [congruence|]. right. right.
    exists pid, proc, loc, file_path, content, mime, doc.
    split; [exact Hcfg|]. split; [exact I2|]. split; [exact Hcl|].
    split; [exact P3|]. split; [congruence|]. split; [exact EM|].
    split; [exact Hm|]. split; [congruence|]. split; [congruence|].
    split; [split; congruence|].
    destruct r as [c|e].
    + destruct H6 as (-> & Hw6 & Hin). split; [reflexivity|].
      replace (uuid_source w (uuid_draws w)) with (uuid_source w5 (uuid_draws w5))
        by congruence.
      split; [rewrite Hw6; congruence|]. exact Hin.
    + destruct H6 as [Hw6 Hx]. split; [congruence|exact Hx].
  - inversion H; subst. split; [congruence|].
    destruct Hsub as [Hs|(content & Hc & Hs)].
    + left. split; [intros c Hc; now inversion Hc|]. split; [discriminate|].
      repeat split; congruence.
    + right. left. repeat split; try congruence.
      eexists. split; [rewrite Hs, Es; reflexivity|]. now apply Hreq.
Qed.

(** X14. A run of [rawcod.main] leaves the environment as it was and
    submits at most one request to the processor; a request it submits
    carries the content of an existing regular file, with the MIME type of
    the file's path, and that type is never the sentinel
    application/octet-stream. *)
Theorem rawcod_submits_one_checked_file (X : Externals) (w : World) :
  environ (snd (Rawcod.main X w)) = environ w /\
  (submitted (snd (Rawcod.main X w)) = submitted w
   \/ exists req,
        submitted (snd (Rawcod.main X w)) = submitted w ++ [req]
        /\ checked_request w req).
Proof.
  destruct (Rawcod.main X w) as [r w'] eqn:H. simpl.
  apply rawcod_main_cases in H. destruct H as [He H]. split; [exact He|].
  destruct H as [(_ & _ & _ & _ & Hs)|[(_ & _ & _ & req & Hs & Hreq)|H]].
  - now left.
  - right. eauto.
  - destruct H as (pid & proc & loc & file_path & content & mime & doc & _ & _ & _ & _
                   & Hf & Hm & Hne & _ & Hs & _).
    right. eexists. split; [exact Hs|]. exists file_path. simpl. auto.
Qed.

(** X15. The exit codes of [rawcod.main].  When it returns, it returns 0
    or 1.  With 1 it has written no file and left the file system as it
    was.  With 0 the configuration resolved, the input path names a regular
    file of a supported type, the processor answered the one request with a
    document, and exactly one file was written: the structured invoice of
    that document with the identifier drawn, named after the input file and
    the date, and the identifier was printed on a TRANSACTION_ID line.  When
    it raises, it has written no file. *)
Theorem rawcod_exit_codes (X : Externals) (w : World) :
  match fst (Rawcod.main X w) with
  | Ok c =>
      (c = 0%Z \/ c = 1%Z) /\
      (c = 1%Z ->
         fs (snd (Rawcod.main X w)) = fs w /\
         written (snd (Rawcod.main X w)) = written w) /\
      (c = 0%Z ->
         exists project_id processor_id location file_path content mime_type document,
           fst (Config.resolve X "[OCR]" w) = Ok (project_id, processor_id, location) /\
           fst (Rawcod.step3_file_path w) = Ok file_path /\
           fs w !! file_path = Some (File content) /\
           Rawcod.get_mime_type file_path = Ok mime_type /\
           mime_type <> "application/octet-stream" /\
           process_document X (submitted w)
             (mkRequest (Rawcod.processor_path X project_id location processor_id)
                        content mime_type)
           = Ok document /\
           submitted (snd (Rawcod.main X w))
           = submitted w
             ++ [mkRequest (Rawcod.processor_path X project_id location processor_id)
                           content mime_type] /\
           written (snd (Rawcod.main X w))
           = written w
             ++ [((Rawcod.OUTPUT_DIR X ++ "/"
                     ++ OsPath.splitext_root (OsPath.basename file_path)
                     ++ "_structured_" ++ strftime_today X ++ ".json")%string,
                  json_dumps X
                    (add_transaction_id (uuid_source w (uuid_draws w))
                       (invoice_of (foldl place empty_sections (entities document)))))] /\
           In ("TRANSACTION_ID:" ++ uuid_source w (uuid_draws w))%string
              (stdout (snd (Rawcod.main X w))))
  | Raise _ => written (snd (Rawcod.main X w)) = written w
  end.
Proof.
  destruct (Rawcod.main X w) as [r w'] eqn:H. simpl.
  apply rawcod_main_cases in H. destruct H as [_ H].
  destruct H as [(Hc & _ & Hf & Hw & _)|[(-> & Hf & Hw & _)|H]].
  - destruct r as [c|e]; [|exact Hw]. rewrite (Hc c eq_refl).
    split; [now right|]. split; [auto|discriminate].
  - split; [now right|]. split; [auto|discriminate].
  - destruct H as (pid & proc & loc & file_path & content & mime & doc & Hcfg & _ & _
                   & Hp & Hf & Hm & Hne & Hd & Hs & _ & Hr).
    destruct r as [c|e]; [|exact (proj1 Hr)]. destruct Hr as (-> & Hw & Hin).
    split; [now left|]. split; [discriminate|]. intros _.
    exists pid, proc, loc, file_path, content, mime, doc. repeat split; auto.
Qed.

Lemma step2_import_ok (X : Externals) (w : World) :
  import_documentai X = Ok tt ->
  Rawcod.step2_import X w
  = (Ok true, set_stdout (stdout w ++ ["[OCR] [OK] Document AI client imported"]) w).
Proof.
  intros H. unfold Rawcod.step2_import, try_except, bind, lift, print, ret.
  now rewrite H.
Qed.

Lemma step4_process_ok (X : Externals) (project_id : Json.Json)
    (processor_id location file_path mime_type content : string)
    (document : Document) (w : World) :
  new_client X = Ok tt ->
  fs w !! file_path = Some (File content) ->
  process_document X (submitted w)
    (mkRequest (Rawcod.processor_path X project_id location processor_id)
               content mime_type)
  = Ok document ->
  fst (Rawcod.step4_process X project_id processor_id location file_path mime_type w)
  = Ok (Some document).
Proof.
  intros Hcl Hf Hpd.
  unfold Rawcod.step4_process, try_except, bind, print, lift, read_file,
    call_process_document, ret, is_Exception.
  cbv zeta. simpl. rewrite Hcl. simpl. rewrite Hf. simpl. rewrite ?Hf. simpl.
  rewrite Hpd. reflexivity.
Qed.

Lemma append_not_prefix (d x : string) : (d ++ "/" ++ x)%string <> d.
Proof.
  intros H. apply (f_equal String.length) in H.
  rewrite !length_append in H. simpl in H. lia.
Qed.

(** STEP 6 returns 0 and leaves the invoice in the output file unless the
    output directory is a file or the output file is a directory. *)
Lemma step6_save_ok (X : Externals) (file_path : string)
    (inv : gmap string Field) (tid : string) (w : World) :
  (forall c, fs w !! Rawcod.OUTPUT_DIR X <> Some (File c)) ->
  (forall es,
     fs w !! (Rawcod.OUTPUT_DIR X ++ "/"
                ++ OsPath.splitext_root (OsPath.basename file_path)
                ++ "_structured_" ++ strftime_today X ++ ".json")%string
     <> Some (Dir es)) ->
  fst (Rawcod.step6_save X file_path inv tid w) = Ok 0%Z /\
  fs (snd (Rawcod.step6_save X file_path inv tid w))
    !! (Rawcod.OUTPUT_DIR X ++ "/"
          ++ OsPath.splitext_root (OsPath.basename file_path)
          ++ "_structured_" ++ strftime_today X ++ ".json")%string
  = Some (File (json_dumps X inv)).
Proof.
  intros Hd Hp.
  unfold Rawcod.step6_save. cbv zeta.
  set (child := (OsPath.splitext_root (OsPath.basename file_path)
                   ++ "_structured_" ++ strftime_today X ++ ".json")%string) in *.
  set (p := (Rawcod.OUTPUT_DIR X ++ "/" ++ child)%string) in *.
  unfold bind, mkdir, write_file, print, ret. cbv zeta.
  change (Pathlib.parent (Pathlib.join (Rawcod.OUTPUT_DIR X) child))
    with (Rawcod.OUTPUT_DIR X).
  change (Pathlib.to_str (Pathlib.join (Rawcod.OUTPUT_DIR X) child)) with p.
  destruct (fs w !! Rawcod.OUTPUT_DIR X) as [[c|es]|] eqn:D.
  - now destruct (Hd c).
  - rewrite D. destruct (fs w !! p) as [[c'|es']|] eqn:P.
    + simpl. split; [reflexivity|]. apply lookup_insert_eq.
    + now destruct (Hp es').
    + simpl. split; [reflexivity|]. apply lookup_insert_eq.
  - change (fs (set_fs (<[Rawcod.OUTPUT_DIR X:=Dir []]> (fs w)) w))
      with (<[Rawcod.OUTPUT_DIR X:=Dir []]> (fs w)).
    rewrite lookup_insert_eq.
    rewrite lookup_insert_ne by (intros E; symmetry in E; revert E; apply append_not_prefix).
    destruct (fs w !! p) as [[c'|es']|] eqn:P.
    + simpl. split; [reflexivity|]. apply lookup_insert_eq.
    + now destruct (Hp es').
    + simpl. split; [reflexivity|]. apply lookup_insert_eq.
Qed.

(** X16. A run of [rawcod.main] ends with the exit code 0, the structured
    invoice of the processor's document in the output file, whenever the
    configuration resolves, the client library imports and its client is
    built, the input path names a regular file of a supported type, the
    processor answers, the output directory is not a file and the output
    file is not a directory. *)
Theorem rawcod_main_succeeds (X : Externals) (w : World) (project_id : Json.Json)
    (processor_id location file_path content mime_type : string) (document : Document) :
  fst (Config.resolve X "[OCR]" w) = Ok (project_id, processor_id, location) ->
  import_documentai X = Ok tt ->
  new_client X = Ok tt ->
  fst (Rawcod.step3_file_path w) = Ok file_path ->
  fs w !! file_path = Some (File content) ->
  Rawcod.get_mime_type file_path = Ok mime_type ->
  mime_type <> "application/octet-stream" ->
  process_document X (submitted w)
    (mkRequest (Rawcod.processor_path X project_id location processor_id)
               content mime_type)
  = Ok document ->
  (forall c, fs w !! Rawcod.OUTPUT_DIR X <> Some (File c)) ->
  (forall es,
     fs w !! (Rawcod.OUTPUT_DIR X ++ "/"
                ++ OsPath.splitext_root (OsPath.basename file_path)
                ++ "_structured_" ++ strftime_today X ++ ".json")%string
     <> Some (Dir es)) ->
  fst (Rawcod.main X w) = Ok 0%Z /\
  fs (snd (Rawcod.main X w))
    !! (Rawcod.OUTPUT_DIR X ++ "/"
          ++ OsPath.splitext_root (OsPath.basename file_path)
          ++ "_structured_" ++ strftime_today X ++ ".json")%string
  = Some (File (json_dumps X
                  (add_transaction_id (uuid_source w (uuid_draws w))
                     (invoice_of (foldl place empty_sections (entities document)))))).
Proof.
  intros Hcfg Himp Hcl Hpath Hfile Hmime Hne Hdoc Hd Hp.
  cbv beta iota delta [Rawcod.main bind print].
  match goal with
  | |- context [Config.resolve_or_exit X "[OCR]" ?W] => set (w0 := W)
  end.
  assert (L0 : only_logged w w0).
  { eapply only_logged_trans; [|apply only_logged_print].
    eapply only_logged_trans; [|apply only_logged_print].
    apply only_logged_print. }
  pose proof (logs_only_resolve_or_exit X "[OCR]" w0) as L1.
  pose proof (resolve_or_exit_run X "[OCR]" w0) as R1.
  rewrite (resolve_same_store X "[OCR]" w w0), Hcfg in R1
    by (destruct L0 as (E & F & _); assumption).
  destruct (Config.resolve_or_exit X "[OCR]" w0) as [r1 w1]; simpl in L1, R1; subst r1.
  cbv beta iota.
  pose proof (only_logged_trans _ _ _ L0 L1) as K1.
  rewrite (step2_import_ok X w1 Himp). cbv beta iota delta [negb].
  match goal with
  | |- context [Rawcod.step3_file_path ?W] => set (w2 := W)
  end.
  assert (K2 : only_logged w w2).
  { eapply only_logged_trans; [exact K1|apply only_logged_print]. }
  assert (P3 : fst (Rawcod.step3_file_path w2) = Ok file_path).
  { rewrite <- Hpath. apply step3_file_path_same_input;
      now destruct K2 as (_ & _ & A & I & _). }
  pose proof (step3_file_path_same_store w2) as L3.
  pose proof (same_store_trans _ _ _ (only_logged_same_store _ _ K2) L3) as S3.
  destruct (Rawcod.step3_file_path w2) as [r3 w3]; simpl in P3, L3, S3; subst r3.
  cbv beta iota. unfold path_exists, lift.
  destruct S3 as (Ee & Ef & Es & Ew & Eu & Ed).
  cbn [fs set_stdout]. rewrite Ef, Hfile.
  change (bool_decide (is_Some (Some (File content)))) with true. cbv beta iota.
  rewrite Hmime. cbv beta iota.
  destruct (String.eqb_spec mime_type "application/octet-stream") as [Hm|_];
    [contradiction|].
  match goal with
  | |- context [Rawcod.step4_process X project_id processor_id location
                  file_path mime_type ?W] => set (w4 := W)
  end.
  assert (O4 : fst (Rawcod.step4_process X project_id processor_id location
                      file_path mime_type w4) = Ok (Some document)).
  { apply (step4_process_ok X project_id processor_id location file_path mime_type content);
      [exact Hcl| |].
    - change (fs w4) with (fs w3). now rewrite Ef.
    - change (submitted w4) with (submitted w3). now rewrite Es. }
  destruct (step4_process_effect X project_id processor_id location file_path mime_type w4)
    as (r4 & w5 & E4 & Ee5 & Ef5 & Ew5 & Eu5 & Ed5 & _).
  rewrite E4 in O4 |- *. simpl in O4. inversion O4; subst r4. cbv beta iota.
  rewrite step5_structure_run. cbv beta iota. cbn [fst snd].
  assert (F5 : fs (set_uuid_draws (S (uuid_draws w5)) w5) = fs w).
  { change (fs (set_uuid_draws (S (uuid_draws w5)) w5)) with (fs w5).
    rewrite Ef5. change (fs w4) with (fs w3). exact Ef. }
  assert (U5 : uuid_source w5 (uuid_draws w5) = uuid_source w (uuid_draws w)).
  { rewrite Eu5, Ed5. change (uuid_source w4) with (uuid_source w3).
    change (uuid_draws w4) with (uuid_draws w3). now rewrite Eu, Ed. }
  rewrite U5.
  apply step6_save_ok; rewrite F5; assumption.
Qed.

Lemma rawcod_main_succeeds_witness :
  fst (Rawcod.main Examples.externals Examples.scan_world) = Ok 0%Z /\
  fs (snd (Rawcod.main Examples.externals Examples.scan_world))
    !! "/srv/docai/output/scan.01_structured_20250101.json"
  = Some (File "{}").
Proof.
  apply (rawcod_main_succeeds Examples.externals Examples.scan_world
           (Json.JStr "demo") "proc-1" "us" "in/scan.01.PDF" "%PDF-1.7" "application/pdf"
           (mkDocument "" [])).
  - vm_compute. reflexivity.
  - reflexivity.
  - reflexivity.
  - reflexivity.
  - reflexivity.
  - reflexivity.
  - discriminate.
  - reflexivity.
  - intros c. vm_compute. discriminate.
  - intros es. vm_compute. discriminate.
Defined.

(** ** The batch driver, request by request *)

Lemma mkdir_frame (dir : string) (w : World) :
  environ (snd (mkdir dir w)) = environ w /\
  forall q, q <> dir -> fs (snd (mkdir dir w)) !! q = fs w !! q.
Proof.
  unfold mkdir. destruct (fs w !! dir) as [[c|es]|]; simpl; split; auto.
  intros q Hq. now apply lookup_insert_ne.
Qed.

Lemma write_file_frame (path : Pathlib.Path) (data : string) (w : World) :
  environ (snd (write_file path data w)) = environ w /\
  forall q, q <> Pathlib.parent path -> q <> Pathlib.to_str path ->
            fs (snd (write_file path data w)) !! q = fs w !! q.
Proof.
  unfold write_file. cbv zeta.
  destruct (fs w !! Pathlib.parent path) as [[c|es]|]; simpl; auto.
  destruct (fs w !! Pathlib.to_str path) as [[c'|es']|]; simpl; split; auto.
  - intros q _ Hq. now apply lookup_insert_ne.
  - intros q Hd Hq. rewrite lookup_insert_ne by auto. now apply lookup_insert_ne.
Qed.

Lemma write_file_stored (path : Pathlib.Path) (data : string) (w : World) :
  fst (write_file path data w) = Ok tt ->
  fs (snd (write_file path data w)) !! Pathlib.to_str path = Some (File data).
Proof.
  unfold write_file. cbv zeta.
  destruct (fs w !! Pathlib.parent path) as [[c|es]|]; simpl; try discriminate.
  destruct (fs w !! Pathlib.to_str path) as [[c'|es']|]; simpl; try discriminate;
    intros _; apply lookup_insert_eq.
Qed.

(** What a call of [process_file] reads and leaves: the request carries the
    content of the file as it is at the call, and the call changes no path
    but the output directory and the output file. *)
Lemma process_file_trace (X : Externals) (name : string) (path : Pathlib.Path)
    (w w' : World) (r : result Pathlib.Path) :
  ProcessService.process_file X name path w = (r, w') ->
  environ w' = environ w /\
  (forall q, q <> ProcessService.OUTPUT_DIR X ->
             q <> (ProcessService.OUTPUT_DIR X ++ "/" ++ Pathlib.stem path
                     ++ "_processed.json")%string ->
             fs w' !! q = fs w !! q) /\
  match r with
  | Ok out_path =>
      exists content document,
        fs w !! Pathlib.to_str path = Some (File content)
        /\ submitted w' = submitted w
             ++ [mkRequest name content (ProcessService.get_mime_type path)]
        /\ written w' = written w
             ++ [((ProcessService.OUTPUT_DIR X ++ "/" ++ Pathlib.stem path
                     ++ "_processed.json")%string, message_to_json X document)]
        /\ fs w' !! (ProcessService.OUTPUT_DIR X ++ "/" ++ Pathlib.stem path
                       ++ "_processed.json")%string
           = Some (File (message_to_json X document))
        /\ out_path = Pathlib.join (ProcessService.OUTPUT_DIR X)
                        (Pathlib.stem path ++ "_processed.json")
        /\ process_document X (submitted w)
             (mkRequest name content (ProcessService.get_mime_type path))
           = Ok document
  | Raise _ =>
      written w' = written w
      /\ (submitted w' = submitted w
          \/ exists content,
               fs w !! Pathlib.to_str path = Some (File content)
               /\ submitted w' = submitted w
                    ++ [mkRequest name content (ProcessService.get_mime_type path)])
  end.
Proof.
  unfold ProcessService.process_file, bind.
  pose proof (read_file_world (Pathlib.to_str path) w) as Hread.
  assert (Hc : forall content, fst (read_file (Pathlib.to_str path) w) = Ok content ->
                               fs w !! Pathlib.to_str path = Some (File content)).
  { unfold read_file. intros content.
    destruct (fs w !! Pathlib.to_str path) as [[c|es]|]; simpl; congruence. }
  destruct (read_file (Pathlib.to_str path) w) as [[content|e] w0]; simpl in Hread, Hc; subst w0.
  2:{ intros H. inversion H; subst. auto. }
  specialize (Hc content eq_refl).
  unfold call_process_document.
  destruct (process_document X (submitted w)
              (mkRequest name content (ProcessService.get_mime_type path)))
    as [document|e] eqn:Hpd.
  2:{ intros H. inversion H; subst. simpl. split; [reflexivity|]. split; [auto|].
      split; [reflexivity|]. right. eauto. }
  set (w1 := set_submitted _ w).
  pose proof (mkdir_effect (ProcessService.OUTPUT_DIR X) w1) as [Hs2 Hw2].
  pose proof (mkdir_frame (ProcessService.OUTPUT_DIR X) w1) as [He2 Hf2].
  destruct (mkdir (ProcessService.OUTPUT_DIR X) w1) as [[[]|e] w2];
    simpl in Hs2, Hw2, He2, Hf2.
  2:{ intros H. inversion H; subst. rewrite Hs2, Hw2, He2. simpl.
      split; [reflexivity|]. split; [intros q H1 _; now apply Hf2|].
      split; [reflexivity|]. right. eauto. }
  set (out := Pathlib.join _ _).
  pose proof (write_file_effect out (message_to_json X document) w2) as [Hs3 Hw3].
  pose proof (write_file_frame out (message_to_json X document) w2) as [He3 Hf3].
  pose proof (write_file_stored out (message_to_json X document) w2) as Hst.
  destruct (write_file out (message_to_json X document) w2) as [[[]|e] w3];
    simpl in Hs3, Hw3, He3, Hf3, Hst; unfold ret; intros H; inversion H; subst.
  - split; [congruence|].
    split; [intros q H1 H2; rewrite Hf3, Hf2 by assumption; reflexivity|].
    exists content, document. rewrite Hs3, Hs2, Hw3, Hw2. simpl.
    split; [exact Hc|]. split; [reflexivity|]. split; [reflexivity|].
    split; [exact (Hst eq_refl)|]. split; [reflexivity|exact Hpd].
  - split; [congruence|].
    split; [intros q H1 H2; rewrite Hf3, Hf2 by assumption; reflexivity|].
    rewrite Hs3, Hs2, Hw3, Hw2. simpl. split; [reflexivity|]. right. eauto.
Qed.

Lemma append_cancel (a x y : string) : (a ++ x)%string = (a ++ y)%string -> x = y.
Proof.
  induction a as [|c a IH]; [auto|]. intros H.
  change (String c (a ++ x) = String c (a ++ y))%string in H. inversion H. auto.
Qed.

Lemma append_assoc (a b c : string) : ((a ++ b) ++ c)%string = (a ++ b ++ c)%string.
Proof.
  induction a as [|ch a IH]; [reflexivity|].
  change (String ch ((a ++ b) ++ c) = String ch (a ++ b ++ c))%string. now rewrite IH.
Qed.

(** No entry of the input directory is the output directory or a file
    in it. *)
Lemma input_path_not_output (X : Externals) (n child : string) :
  (ProcessService.INPUT_DIR X ++ "/" ++ n)%string <> ProcessService.OUTPUT_DIR X /\
  (ProcessService.INPUT_DIR X ++ "/" ++ n)%string
  <> (ProcessService.OUTPUT_DIR X ++ "/" ++ child)%string.
Proof.
  unfold ProcessService.INPUT_DIR, ProcessService.OUTPUT_DIR.
  split; intros H; rewrite !append_assoc in H; apply append_cancel in H;
    discriminate.
Qed.

Lemma input_entry_kept (X : Externals) (child : string) (w w' : World) :
  (forall q, q <> ProcessService.OUTPUT_DIR X ->
             q <> (ProcessService.OUTPUT_DIR X ++ "/" ++ child)%string ->
             fs w' !! q = fs w !! q) ->
  forall n, fs w' !! (ProcessService.INPUT_DIR X ++ "/" ++ n)%string
            = fs w !! (ProcessService.INPUT_DIR X ++ "/" ++ n)%string.
Proof.
  intros H n. destruct (input_path_not_output X n child) as [H1 H2]. now apply H.
Qed.

(** The loop over [files], entries of the input directory: the requests it
    submits and the files it writes, in order. *)
Lemma process_files_trace (X : Externals) (name : string) (files : list Pathlib.Path)
    (w : World) :
  List.Forall (fun p => Pathlib.parent p = ProcessService.INPUT_DIR X) files ->
  exists c w' reqs outs,
    ProcessService.process_files X name files w = (Ok c, w') /\
    (c = 0%Z \/ c = 1%Z) /\
    environ w' = environ w /\
    (forall n, fs w' !! (ProcessService.INPUT_DIR X ++ "/" ++ n)%string
               = fs w !! (ProcessService.INPUT_DIR X ++ "/" ++ n)%string) /\
    submitted w' = submitted w ++ reqs /\
    written w' = written w ++ outs /\
    length outs <= length reqs <= length files /\
    (c = 0%Z -> length outs = length files /\ length reqs = length files) /\
    List.Forall
      (fun r => req_name r = name /\
                exists p, In p files /\
                          fs w !! Pathlib.to_str p = Some (File (req_content r)) /\
                          req_mime_type r = ProcessService.get_mime_type p) reqs /\
    List.Forall
      (fun o => exists p, In p files /\
                          fst o = (ProcessService.OUTPUT_DIR X ++ "/" ++ Pathlib.stem p
                                     ++ "_processed.json")%string) outs.
Proof.
  revert w. induction files as [|p files IH]; intros w Hin.
  - simpl. unfold bind, print, ret. simpl.
    exists 0%Z, (set_stdout (stdout w ++ ["[DONE] Document AI processing complete"]) w),
      [], [].
    split; [reflexivity|]. split; [now left|]. split; [reflexivity|].
    split; [reflexivity|]. rewrite !app_nil_r. split; [reflexivity|].
    split; [reflexivity|]. simpl. split; [lia|]. split; [auto|].
    split; constructor.
  - inversion Hin as [|p' files' Hp Hrest]; subst.
    simpl. unfold bind at 1.
    destruct (ProcessService.process_file X name p w) as [[out|e] w1] eqn:E;
      pose proof (process_file_trace _ _ _ _ _ _ E) as (He & Hf & Hr).
    + destruct (process_one_ok _ _ _ _ _ _ E) as [line ->].
      destruct Hr as (content & document & Hc & Hs & Hw & _).
      destruct (IH (set_stdout (stdout w1 ++ [line]) w1) Hrest)
        as (c & w' & reqs & outs & Hrun & Hcode & He' & Hf' & Hs' & Hw' & Hlen & H0
            & Hreqs & Houts).
      pose proof (input_entry_kept X _ w w1 Hf) as Hk.
      exists c, w', (mkRequest name content (ProcessService.get_mime_type p) :: reqs),
        (((ProcessService.OUTPUT_DIR X ++ "/" ++ Pathlib.stem p ++ "_processed.json")%string,
          message_to_json X document) :: outs).
      split; [exact Hrun|]. split; [exact Hcode|].
      split; [rewrite He'; exact He|].
      split; [intros n; rewrite Hf'; apply Hk|].
      split; [rewrite Hs'; simpl; rewrite Hs, <- app_assoc; reflexivity|].
      split; [rewrite Hw'; simpl; rewrite Hw, <- app_assoc; reflexivity|].
      split; [simpl; lia|].
      split; [intros Hz; destruct (H0 Hz); simpl; lia|].
      split.
      * constructor.
        -- split; [reflexivity|]. exists p. simpl. auto.
        -- eapply List.Forall_impl; [|exact Hreqs].
           intros r (Hn & q & Hq & Hfq & Hm). split; [exact Hn|].
           exists q. split; [now right|]. split; [|exact Hm].
           rewrite <- Hfq. simpl.
           rewrite List.Forall_forall in Hrest. unfold Pathlib.to_str.
           rewrite (Hrest q Hq). symmetry. apply Hk.
      * constructor.
        -- exists p. simpl. auto.
        -- eapply List.Forall_impl; [|exact Houts].
           intros o (q & Hq & Ho). exists q. split; [now right|exact Ho].
    + rewrite (process_one_raise _ _ _ _ _ _ E). unfold ret.
      destruct Hr as [Hw Hs].
      pose proof (input_entry_kept X _ w w1 Hf) as Hk.
      destruct Hs as [Hs|(content & Hc & Hs)].
      * eexists 1%Z, _, [], []. split; [reflexivity|]. split; [now right|].
        simpl. rewrite !app_nil_r.
        repeat split; auto; try lia; try discriminate; constructor.
      * eexists 1%Z, _, [mkRequest name content (ProcessService.get_mime_type p)], [].
        split; [reflexivity|]. split; [now right|].
        simpl. rewrite !app_nil_r.
        split; [exact He|]. split; [exact Hk|]. split; [exact Hs|]. split; [exact Hw|].
        split; [lia|]. split; [discriminate|].
        split; [|constructor].
        constructor; [|constructor]. split; [reflexivity|]. exists p. simpl. auto.
Qed.

Lemma supported_entry (w : World) (dir : string) (names : list string) (p : Pathlib.Path) :
  In p (List.filter (is_supported w) (map (Pathlib.join dir) names)) ->
  exists n, In n names /\ p = Pathlib.mkPath dir n /\
            ProcessService.get_mime_type p <> "application/octet-stream".
Proof.
  intros H. apply List.filter_In in H. destruct H as [Hm Hs].
  apply List.in_map_iff in Hm. destruct Hm as (n & <- & Hn).
  exists n. split; [exact Hn|]. split; [reflexivity|].
  unfold is_supported in Hs. apply andb_prop in Hs. destruct Hs as [_ Hs].
  apply negb_true_iff in Hs. now apply String.eqb_neq in Hs.
Qed.

(** Every run of the batch driver, by what it sent and wrote. *)
Lemma batch_main_cases (X : Externals) (w w' : World) (r : result Z) :
  ProcessService.main X w = (r, w') ->
  exists reqs outs,
    environ w' = environ w /\
    submitted w' = submitted w ++ reqs /\
    written w' = written w ++ outs /\
    length outs <= length reqs /\
    List.Forall
      (fun r =>
         req_mime_type r <> "application/octet-stream" /\
         exists names n,
           fs w !! ProcessService.INPUT_DIR X = Some (Dir names) /\ In n names /\
           fs w !! (ProcessService.INPUT_DIR X ++ "/" ++ n)%string
           = Some (File (req_content r)) /\
           req_mime_type r
           = ProcessService.get_mime_type (Pathlib.mkPath (ProcessService.INPUT_DIR X) n))
      reqs /\
    List.Forall
      (fun o =>
         exists names n,
           fs w !! ProcessService.INPUT_DIR X = Some (Dir names) /\ In n names /\
           fst o = (ProcessService.OUTPUT_DIR X ++ "/"
                      ++ Pathlib.stem (Pathlib.mkPath (ProcessService.INPUT_DIR X) n)
                      ++ "_processed.json")%string)
      outs /\
    match r with
    | Ok c => (c = 0%Z \/ c = 1%Z) /\ (c = 0%Z -> reqs <> [] /\ length outs = length reqs)
    | Raise e =>
        reqs = [] /\ outs = [] /\
        ((fst (Config.resolve X "[DOCAI]" w) = Raise e /\ is_RuntimeError e = false)
         \/ new_client X = Raise e
         \/ (exists c, fs w !! ProcessService.INPUT_DIR X = Some (File c)) /\
            e = OSError ("Not a directory: " ++ ProcessService.INPUT_DIR X))
    end.
Proof.
  intros Hmain.
  match goal with
  | |- ?G =>
      assert (Quiet : same_store w w' ->
                      match r with
                      | Ok c => c = 1%Z
                      | Raise e =>
                          (fst (Config.resolve X "[DOCAI]" w) = Raise e
                           /\ is_RuntimeError e = false)
                          \/ new_client X = Raise e
                          \/ (exists c, fs w !! ProcessService.INPUT_DIR X = Some (File c))
                             /\ e = OSError ("Not a directory: "
                                               ++ ProcessService.INPUT_DIR X)
                      end -> G)
  end.
  { intros (Ee & Ef & Es & Ew & _) Hr. exists [], []. simpl.
    rewrite !app_nil_r. repeat split; auto.
    destruct r as [c|e]; [|auto]. subst c. split; [now right|discriminate]. }
  cbv beta iota delta [ProcessService.main bind print] in Hmain.
  match type of Hmain with
  | context [Config.resolve_or_exit X "[DOCAI]" ?W] => set (w0 := W) in *
  end.
  assert (S0 : same_store w w0) by (unfold same_store; repeat split).
  pose proof (logs_only_resolve_or_exit X "[DOCAI]" w0) as L1.
  pose proof (resolve_or_exit_run X "[DOCAI]" w0) as R1.
  rewrite (resolve_same_store X "[DOCAI]" w w0) in R1
    by (destruct S0 as (E & F & _); assumption).
  destruct (Config.resolve_or_exit X "[DOCAI]" w0) as [[[code|[[pid proc] loc]]|e] w1] eqn:E1;
    simpl in L1, R1; apply only_logged_same_store in L1;
    pose proof (same_store_trans _ _ _ S0 L1) as S1.
  1:{ inversion Hmain; subst. apply resolve_or_exit_code in E1. subst code.
      now apply Quiet. }
  2:{ inversion Hmain; subst. apply Quiet; [exact S1|]. left.
      destruct (fst (Config.resolve X "[DOCAI]" w)) as [cfg|e0]; [discriminate|].
      destruct (is_RuntimeError e0) eqn:T; [discriminate|].
      inversion R1; subst. auto. }
  clear R1. unfold lift in Hmain.
  destruct (new_client X) as [[]|e] eqn:Hcl.
  2:{ inversion Hmain; subst. apply Quiet; [exact S1|]. right. now left. }
  set (name := Rawcod.processor_path X pid loc proc) in *.
  set (w2 := set_stdout (stdout w1 ++ [("[DOCAI] Using processor: " ++ name)%string]) w1) in *.
  assert (S2 : same_store w w2).
  { eapply same_store_trans; [exact S1|]. unfold same_store. repeat split. }
  unfold path_exists, iterdir in Hmain.
  destruct (fs w2 !! ProcessService.INPUT_DIR X) as [[c|names]|] eqn:D.
  - change (bool_decide (is_Some (Some (File c)))) with true in Hmain.
    cbv beta iota delta [negb] in Hmain. rewrite D in Hmain.
    inversion Hmain; subst. apply Quiet; [exact S2|]. right. right.
    split; [|reflexivity]. exists c. destruct S2 as (_ & Ef & _). now rewrite <- Ef.
  - change (bool_decide (is_Some (Some (Dir names)))) with true in Hmain.
    cbv beta iota delta [negb] in Hmain. rewrite D, supported_files_run in Hmain.
    set (files := List.filter (is_supported w2)
                    (map (Pathlib.join (ProcessService.INPUT_DIR X)) names)) in *.
    assert (Hfiles : forall p, In p files ->
              exists n, In n names /\ p = Pathlib.mkPath (ProcessService.INPUT_DIR X) n /\
                        ProcessService.get_mime_type p <> "application/octet-stream")
      by (intros p; apply supported_entry).
    destruct S2 as (Ee & Ef & Es & Ew & Eu & Ed).
    rewrite Ef in D.
    destruct files as [|p ps] eqn:Hfs.
    + inversion Hmain; subst. apply Quiet; [|reflexivity].
      unfold same_store. simpl. repeat split; auto.
    + rewrite <- Hfs in *. clear Quiet.
      assert (Hpar : List.Forall (fun p => Pathlib.parent p = ProcessService.INPUT_DIR X) files).
      { apply List.Forall_forall. intros q Hq.
        destruct (Hfiles q Hq) as (n & _ & -> & _). reflexivity. }
      destruct (process_files_trace X name files w2 Hpar)
        as (c & w3 & reqs & outs & Hrun & Hcode & He' & Hf' & Hs' & Hw' & Hlen & H0
            & Hreqs & Houts).
      assert (Hmain' : ProcessService.process_files X name files w2 = (r, w')).
      { rewrite <- Hmain. rewrite Hfs. reflexivity. }
      rewrite Hrun in Hmain'. inversion Hmain'; subst r w'.
      exists reqs, outs.
      split; [congruence|]. split; [congruence|]. split; [congruence|].
      split; [lia|]. split; [|split].
      * eapply List.Forall_impl; [|exact Hreqs].
        intros rq (_ & q & Hq & Hfq & Hm).
        destruct (Hfiles q Hq) as (n & Hn & -> & Hne).
        split; [congruence|]. exists names, n.
        split; [exact D|]. split; [exact Hn|]. split; [|exact Hm].
        rewrite <- Ef. exact Hfq.
      * eapply List.Forall_impl; [|exact Houts].
        intros o (q & Hq & Ho).
        destruct (Hfiles q Hq) as (n & Hn & -> & Hne).
        exists names, n. auto.
      * split; [exact Hcode|]. intros Hz. destruct (H0 Hz) as [Ho Hr].
        split; [|lia]. intros ->. rewrite Hfs in Hr. discriminate.
  - change (bool_decide (is_Some (@None FsNode))) with false in Hmain.
    cbv beta iota delta [negb] in Hmain.
    inversion Hmain; subst. apply Quiet; [|reflexivity].
    destruct S2 as (? & ? & ? & ? & ? & ?). unfold same_store. simpl. repeat split; auto.
Qed.

(** X17. What a run of the batch driver sends and writes.  Every request
    it submits carries the content that a regular file listed in the input
    directory had when the run began, with the MIME type of its name, which
    is never the sentinel; it writes at most one file per request, each in
    the output directory and named after the stem of an entry of the input
    directory; the environment is left as it was.  When it returns, it
    returns 0 or 1, and 0 only after at least one request and one written
    file per request; when it raises, it has sent and written nothing. *)
Theorem batch_main_trace (X : Externals) (w : World) :
  exists reqs outs,
    environ (snd (ProcessService.main X w)) = environ w /\
    submitted (snd (ProcessService.main X w)) = submitted w ++ reqs /\
    written (snd (ProcessService.main X w)) = written w ++ outs /\
    length outs <= length reqs /\
    List.Forall
      (fun r =>
         req_mime_type r <> "application/octet-stream" /\
         exists names n,
           fs w !! ProcessService.INPUT_DIR X = Some (Dir names) /\ In n names /\
           fs w !! (ProcessService.INPUT_DIR X ++ "/" ++ n)%string
           = Some (File (req_content r)) /\
           req_mime_type r
           = ProcessService.get_mime_type (Pathlib.mkPath (ProcessService.INPUT_DIR X) n))
      reqs /\
    List.Forall
      (fun o =>
         exists names n,
           fs w !! ProcessService.INPUT_DIR X = Some (Dir names) /\ In n names /\
           fst o = (ProcessService.OUTPUT_DIR X ++ "/"
                      ++ Pathlib.stem (Pathlib.mkPath (ProcessService.INPUT_DIR X) n)
                      ++ "_processed.json")%string)
      outs /\
    match fst (ProcessService.main X w) with
    | Ok c => (c = 0%Z \/ c = 1%Z) /\ (c = 0%Z -> reqs <> [] /\ length outs = length reqs)
    | Raise _ => reqs = [] /\ outs = []
    end.
Proof.
  destruct (ProcessService.main X w) as [r w'] eqn:H. simpl.
  apply batch_main_cases in H.
  destruct H as (reqs & outs & He & Hs & Hw & Hl & Hr & Ho & H).
  exists reqs, outs. repeat (split; [assumption|]).
  destruct r as [c|e]; [exact H|]. destruct H as (H1 & H2 & _). auto.
Qed.

(** ** Names of the output files *)

Lemma take_app (a b : string) : PyStr.take (String.length a) (a ++ b) = a.
Proof.
  induction a as [|c a IH]; [reflexivity|].
  change (String c a ++ b)%string with (String c (a ++ b)).
  simpl. now rewrite IH.
Qed.

Lemma drop_app_sep (a b : string) (c : ascii) :
  PyStr.drop (S (String.length a)) (a ++ String c b) = b.
Proof.
  induction a as [|ch a IH]; [reflexivity|].
  change (String ch a ++ String c b)%string with (String ch (a ++ String c b)).
  exact IH.
Qed.

Lemma contains_app (ch : ascii) (a b : string) :
  contains ch (a ++ b) = contains ch a || contains ch b.
Proof.
  induction a as [|c a IH]; [reflexivity|].
  change (String c a ++ b)%string with (String c (a ++ b)).
  simpl. rewrite IH. now rewrite orb_assoc.
Qed.

(** [Path(dir / "stem.ext").stem] is [stem]. *)
Lemma stem_of_suffixed (dir stem ext : string) :
  stem <> "" -> ext <> "" -> contains "." ext = false ->
  Pathlib.stem (Pathlib.mkPath dir (stem ++ String "." ext)) = stem.
Proof.
  intros Hstem Hne Hext. unfold Pathlib.stem. simpl Pathlib.name.
  rewrite (rfind_app _ _ _ Hext). unfold PyStr.len.
  rewrite length_append. simpl String.length.
  assert (H1 : (0 <? Z.of_nat (String.length stem))%Z = true).
  { apply Z.ltb_lt. destruct stem; [congruence|simpl; lia]. }
  assert (H2 : (Z.of_nat (String.length stem)
                <? Z.of_nat (String.length stem + S (String.length ext)) - 1)%Z = true).
  { apply Z.ltb_lt. destruct ext; [congruence|simpl; lia]. }
  rewrite H1, H2. simpl. rewrite Nat2Z.id. apply take_app.
Qed.

(** [os.path.basename] of a path that ends in a separator and a name. *)
Lemma basename_of_joined (dir base : string) :
  contains "/" base = false ->
  OsPath.basename (dir ++ String "/" base) = base.
Proof.
  intros H. unfold OsPath.basename. rewrite (rfind_app _ _ _ H). unfold PyStr.len.
  replace (Z.to_nat (Z.of_nat (String.length dir) + 1)) with (S (String.length dir)) by lia.
  apply drop_app_sep.
Qed.

(** [os.path.splitext] of a file name [stem.ext] whose stem is not made of
    dots only. *)
Lemma splitext_root_of_suffixed (stem ext : string) :
  contains "/" stem = false -> contains "/" ext = false ->
  contains "." ext = false -> OsPath.all_dots stem = false ->
  OsPath.splitext_root (stem ++ String "." ext) = stem.
Proof.
  intros Hs He Hd Ha. unfold OsPath.splitext_root. cbv zeta.
  rewrite (rfind_absent "/" (stem ++ String "." ext)).
  2:{ rewrite contains_app, Hs. simpl. exact He. }
  rewrite (rfind_app _ _ _ Hd). unfold PyStr.len.
  replace (-1 <? Z.of_nat (String.length stem))%Z with true
    by (symmetry; apply Z.ltb_lt; lia).
  replace (Z.to_nat (Z.of_nat (String.length stem) - -1 - 1)) with (String.length stem)
    by lia.
  change (Z.to_nat (-1 + 1)) with 0. cbn [PyStr.drop].
  replace (PyStr.drop 0 (stem ++ String "." ext)) with (stem ++ String "." ext)%string
    by (now destruct (stem ++ String "." ext)%string).
  rewrite take_app, Ha, Nat2Z.id. apply take_app.
Qed.

(** X18. The file [rawcod.main] writes for the input [dir/stem.ext] is
    named [stem_structured_<date>.json] in the output directory: neither
    the directory of the input nor its extension is part of the name, so
    that two inputs with the same stem processed on the same day are written
    to the same file. *)
Theorem rawcod_output_name (X : Externals) (dir stem ext tid : string)
    (inv : gmap string Field) (w : World) :
  contains "/" stem = false -> contains "/" ext = false ->
  contains "." ext = false -> OsPath.all_dots stem = false ->
  match fst (Rawcod.step6_save X (dir ++ String "/" (stem ++ String "." ext)) inv tid w) with
  | Ok _ =>
      written (snd (Rawcod.step6_save X (dir ++ String "/" (stem ++ String "." ext))
                      inv tid w))
      = written w
        ++ [((Rawcod.OUTPUT_DIR X ++ "/" ++ stem ++ "_structured_"
                ++ strftime_today X ++ ".json")%string,
             json_dumps X inv)]
  | Raise _ =>
      written (snd (Rawcod.step6_save X (dir ++ String "/" (stem ++ String "." ext))
                      inv tid w))
      = written w
  end.
Proof.
  intros Hs He Hd Ha.
  destruct (Rawcod.step6_save X (dir ++ String "/" (stem ++ String "." ext)) inv tid w)
    as [r w'] eqn:E.
  apply step6_save_effect in E. destruct E as (_ & _ & _ & E). simpl.
  destruct r as [c|e]; [|exact (proj1 E)]. destruct E as (_ & E & _).
  rewrite basename_of_joined in E.
  2:{ rewrite contains_app, Hs. simpl. exact He. }
  now rewrite splitext_root_of_suffixed in E.
Qed.

Lemma rawcod_output_name_witness :
  match fst (Rawcod.step6_save Examples.externals "in/scan.01.PDF" ∅ "u-1"
               (Examples.blank_world "u-1")) with
  | Ok _ =>
      written (snd (Rawcod.step6_save Examples.externals "in/scan.01.PDF" ∅ "u-1"
                      (Examples.blank_world "u-1")))
      = written (Examples.blank_world "u-1")
        ++ [("/srv/docai/output/scan.01_structured_20250101.json", "{}")]
  | Raise _ =>
      written (snd (Rawcod.step6_save Examples.externals "in/scan.01.PDF" ∅ "u-1"
                      (Examples.blank_world "u-1")))
      = written (Examples.blank_world "u-1")
  end.
Proof.
  apply (rawcod_output_name Examples.externals "in" "scan.01" "PDF" "u-1" ∅
           (Examples.blank_world "u-1")); reflexivity.
Defined.

(** X19. When [process_file] returns for the entry [stem.ext] of a
    directory, the path it returns is [stem_processed.json] in the output
    directory; the one file written is that file, and it holds the JSON text
    of the document with which the processor answered the request made of
    the content of the entry and the MIME type of its name.  The extension
    of the input is not part of the name, so that two entries with the same
    stem are written to the same file. *)
Theorem batch_output_name (X : Externals) (name dir stem ext : string)
    (w w' : World) (out_path : Pathlib.Path) :
  stem <> "" -> ext <> "" -> contains "." ext = false ->
  ProcessService.process_file X name (Pathlib.mkPath dir (stem ++ String "." ext)) w
  = (Ok out_path, w') ->
  out_path = Pathlib.mkPath (ProcessService.OUTPUT_DIR X) (stem ++ "_processed.json") /\
  exists content document,
    fs w !! (dir ++ "/" ++ stem ++ String "." ext)%string = Some (File content) /\
    process_document X (submitted w)
      (mkRequest name content
         (ProcessService.get_mime_type (Pathlib.mkPath dir (stem ++ String "." ext))))
    = Ok document /\
    submitted w'
    = submitted w
      ++ [mkRequest name content
            (ProcessService.get_mime_type (Pathlib.mkPath dir (stem ++ String "." ext)))] /\
    written w'
    = written w
      ++ [((ProcessService.OUTPUT_DIR X ++ "/" ++ stem ++ "_processed.json")%string,
           message_to_json X document)] /\
    fs w' !! (ProcessService.OUTPUT_DIR X ++ "/" ++ stem ++ "_processed.json")%string
    = Some (File (message_to_json X document)).
Proof.
  intros Hs He Hd H.
  apply process_file_trace in H.
  destruct H as (_ & _ & content & document & Hc & Hsub & Hw & Hf & Ho & Hpd).
  rewrite (stem_of_suffixed dir stem ext Hs He Hd) in Hw, Hf, Ho.
  split; [exact Ho|]. exists content, document. auto.
Qed.

Lemma batch_output_name_witness :
  Pathlib.mkPath "/srv/docai/output" "a_processed.json"
  = Pathlib.mkPath (ProcessService.OUTPUT_DIR Examples.externals) "a_processed.json" /\
  exists content document,
    fs Examples.batch_world !! "/srv/docai/input/a.pdf" = Some (File content) /\
    process_document Examples.externals (submitted Examples.batch_world)
      (mkRequest "projects/p/locations/us/processors/x" content
         (ProcessService.get_mime_type Examples.file_a))
    = Ok document /\
    submitted (snd (ProcessService.process_file Examples.externals
                      "projects/p/locations/us/processors/x" Examples.file_a
                      Examples.batch_world))
    = submitted Examples.batch_world
      ++ [mkRequest "projects/p/locations/us/processors/x" content
            (ProcessService.get_mime_type Examples.file_a)] /\
    written (snd (ProcessService.process_file Examples.externals
                    "projects/p/locations/us/processors/x" Examples.file_a
                    Examples.batch_world))
    = written Examples.batch_world
      ++ [((ProcessService.OUTPUT_DIR Examples.externals ++ "/a_processed.json")%string,
           message_to_json Examples.externals document)] /\
    fs (snd (ProcessService.process_file Examples.externals
               "projects/p/locations/us/processors/x" Examples.file_a
               Examples.batch_world))
      !! (ProcessService.OUTPUT_DIR Examples.externals ++ "/a_processed.json")%string
    = Some (File (message_to_json Examples.externals document)).
Proof.
  apply (batch_output_name Examples.externals "projects/p/locations/us/processors/x"
           "/srv/docai/input" "a" "pdf" Examples.batch_world _
           (Pathlib.mkPath "/srv/docai/output" "a_processed.json")).
  - discriminate.
  - discriminate.
  - reflexivity.
  - vm_compute. reflexivity.
Defined.

(** ** Exceptions that leave [main] *)

(** X20. An exception leaves [rawcod.main] in four cases only: the
    configuration raised an exception that is not a [RuntimeError]; the
    import of the client library raised an exception that is not an
    [ImportError]; there is no command-line argument and the prompt met the
    end of the input; or, after the one request was sent, writing the output
    raised an [OSError], and then no file was written.  Every failure of
    STEP 4 and the tests on the input file end with an exit code instead. *)
Theorem rawcod_escaping_exceptions (X : Externals) (w : World) (e : exn) :
  fst (Rawcod.main X w) = Raise e ->
  (fst (Config.resolve X "[OCR]" w) = Raise e /\ is_RuntimeError e = false)
  \/ (import_documentai X = Raise e /\ is_ImportError e = false)
  \/ (e = EOFError /\ length (argv w) <= 1 /\ stdin w = [])
  \/ ((exists msg, e = OSError msg) /\
      (exists req, submitted (snd (Rawcod.main X w)) = submitted w ++ [req]) /\
      written (snd (Rawcod.main X w)) = written w).
Proof.
  destruct (Rawcod.main X w) as [r w'] eqn:H. simpl. intros ->.
  apply rawcod_main_cases in H. destruct H as [_ H].
  destruct H as [(_ & Hr & _)|[(Hr & _)|H]].
  - destruct (Hr e eq_refl) as [H|[H|H]]; auto.
  - discriminate.
  - destruct H as (pid & proc & loc & file_path & content & mime & doc & _ & _ & _
                   & _ & _ & _ & _ & _ & Hs & _ & Hw & Hx).
    right. right. right. eauto.
Qed.

Lemma rawcod_escaping_exceptions_witness :
  (fst (Config.resolve Examples.externals "[OCR]" Examples.no_project_id_world)
   = Raise (ValueError "project_id not found in credentials file")
   /\ is_RuntimeError (ValueError "project_id not found in credentials file") = false)
  \/ (import_documentai Examples.externals
      = Raise (ValueError "project_id not found in credentials file")
      /\ is_ImportError (ValueError "project_id not found in credentials file") = false)
  \/ (ValueError "project_id not found in credentials file" = EOFError
      /\ length (argv Examples.no_project_id_world) <= 1
      /\ stdin Examples.no_project_id_world = [])
  \/ ((exists msg, ValueError "project_id not found in credentials file" = OSError msg) /\
      (exists req,
         submitted (snd (Rawcod.main Examples.externals Examples.no_project_id_world))
         = submitted Examples.no_project_id_world ++ [req]) /\
      written (snd (Rawcod.main Examples.externals Examples.no_project_id_world))
      = written Examples.no_project_id_world).
Proof.
  apply (rawcod_escaping_exceptions Examples.externals Examples.no_project_id_world).
  vm_compute. reflexivity.
Defined.



(** ** Identifiers of successive runs *)

(** X22. Two runs of [rawcod.main] that both end with the exit code 0, the
    second one started in a world whose identifier generator is the one of
    the first run and is not behind the state the first run left (the world
    the first run leaves is such a world): when the generator never issues
    the same identifier twice, the two runs print different identifiers on
    their TRANSACTION_ID lines and write them into the files they save; a
    run that ends with 0 has advanced the generator by exactly one draw. *)
Theorem runs_print_distinct_identifiers (X1 X2 : Externals) (w1 w2 : World) :
  (forall i j, uuid_source w1 i = uuid_source w1 j -> i = j) ->
  uuid_source w2 = uuid_source w1 ->
  uuid_draws (snd (Rawcod.main X1 w1)) <= uuid_draws w2 ->
  fst (Rawcod.main X1 w1) = Ok 0%Z ->
  fst (Rawcod.main X2 w2) = Ok 0%Z ->
  exists tid1 tid2 path1 path2 document1 document2,
    tid1 <> tid2 /\
    In ("TRANSACTION_ID:" ++ tid1)%string (stdout (snd (Rawcod.main X1 w1))) /\
    In ("TRANSACTION_ID:" ++ tid2)%string (stdout (snd (Rawcod.main X2 w2))) /\
    written (snd (Rawcod.main X1 w1))
    = written w1
      ++ [(path1,
           json_dumps X1
             (add_transaction_id tid1
                (invoice_of (foldl place empty_sections (entities document1)))))] /\
    written (snd (Rawcod.main X2 w2))
    = written w2
      ++ [(path2,
           json_dumps X2
             (add_transaction_id tid2
                (invoice_of (foldl place empty_sections (entities document2)))))] /\
    uuid_draws (snd (Rawcod.main X1 w1)) = S (uuid_draws w1) /\
    uuid_source (snd (Rawcod.main X2 w2)) = uuid_source w1 /\
    uuid_draws (snd (Rawcod.main X2 w2)) = S (uuid_draws w2).
Proof.
  intros Hinj Hsrc Hlater.
  destruct (Rawcod.main X1 w1) as [r1 w1'] eqn:H1.
  destruct (Rawcod.main X2 w2) as [r2 w2'] eqn:H2.
  simpl in *. intros -> ->.
  apply rawcod_main_cases in H1. apply rawcod_main_cases in H2.
  destruct H1 as [_ [(Hc & _)|[(Hc & _)|H1]]];
    [specialize (Hc _ eq_refl); discriminate|discriminate|].
  destruct H2 as [_ [(Hc & _)|[(Hc & _)|H2]]];
    [specialize (Hc _ eq_refl); discriminate|discriminate|].
  destruct H1 as (pid1 & proc1 & loc1 & fp1 & c1 & m1 & d1 & _ & _ & _ & _ & _ & _ & _ & _
                  & _ & (Hu1 & Hd1) & _ & Hw1 & Hin1).
  destruct H2 as (pid2 & proc2 & loc2 & fp2 & c2 & m2 & d2 & _ & _ & _ & _ & _ & _ & _ & _
                  & _ & (Hu2 & Hd2) & _ & Hw2 & Hin2).
  eexists (uuid_source w1 (uuid_draws w1)), (uuid_source w2 (uuid_draws w2)), _, _, d1, d2.
  split.
  { rewrite Hsrc. intros H. apply Hinj in H. lia. }
  split; [exact Hin1|]. split; [exact Hin2|].
  split; [exact Hw1|]. split; [exact Hw2|].
  split; [exact Hd1|]. split; [congruence|exact Hd2].
Qed.

Lemma runs_print_distinct_identifiers_witness :
  exists tid1 tid2 path1 path2 document1 document2,
    tid1 <> tid2 /\
    In ("TRANSACTION_ID:" ++ tid1)%string
       (stdout (snd (Rawcod.main Examples.externals Examples.serial_scan_world))) /\
    In ("TRANSACTION_ID:" ++ tid2)%string
       (stdout (snd (Rawcod.main Examples.externals
                       (snd (Rawcod.main Examples.externals Examples.serial_scan_world))))) /\
    written (snd (Rawcod.main Examples.externals Examples.serial_scan_world))
    = written Examples.serial_scan_world
      ++ [(path1,
           json_dumps Examples.externals
             (add_transaction_id tid1
                (invoice_of (foldl place empty_sections (entities document1)))))] /\
    written (snd (Rawcod.main Examples.externals
                    (snd (Rawcod.main Examples.externals Examples.serial_scan_world))))
    = written (snd (Rawcod.main Examples.externals Examples.serial_scan_world))
      ++ [(path2,
           json_dumps Examples.externals
             (add_transaction_id tid2
                (invoice_of (foldl place empty_sections (entities document2)))))] /\
    uuid_draws (snd (Rawcod.main Examples.externals Examples.serial_scan_world))
    = S (uuid_draws Examples.serial_scan_world) /\
    uuid_source (snd (Rawcod.main Examples.externals
                        (snd (Rawcod.main Examples.externals Examples.serial_scan_world))))
    = uuid_source Examples.serial_scan_world /\
    uuid_draws (snd (Rawcod.main Examples.externals
                       (snd (Rawcod.main Examples.externals Examples.serial_scan_world))))
    = S (uuid_draws (snd (Rawcod.main Examples.externals Examples.serial_scan_world))).
Proof.
  apply (runs_print_distinct_identifiers Examples.externals Examples.externals
           Examples.serial_scan_world
           (snd (Rawcod.main Examples.externals Examples.serial_scan_world))).
  - exact serial_inj.
  - vm_compute. reflexivity.
  - apply le_n.
  - vm_compute. reflexivity.
  - vm_compute. reflexivity.
Defined.
